(** * Falling Fruit API client: a shallow embedding of [server.py]

    The development follows the class [FallingFruitAPI]: the haversine
    distance [_calculate_distance], the taxonomy parser and 24-hour cache of
    [get_all_types], the name search of [get_types] and
    [find_fruit_type_by_name], and the radius filter of [get_locations].

    Conventions.
    - Python [float] values are read as real numbers: arithmetic is exact
      and rounding is not modelled.  The domain errors of [math.sqrt] and
      [math.asin] are modelled.  Exact arithmetic never reaches them; the
      numbers Python computes with do, so the distance calculation is
      given a second time on IEEE binary64 numbers ([Binary64]), and what
      is said about the calculation raising is said there.
    - Python [int] is [Z]; [str] is [string].
    - A raised exception is a value of [exn]; a computation that may raise
      returns [res A].
    - The instance fields, the clock and the network live in a [world]
      threaded through the methods by the monad [M].  A method reads the
      clock once.  [get_id_for_fruit] and [get_seasonal_fruits] read it
      several times and what they answer depends on it: there time passes
      between two readings ([elapse]).  [search_fruit_locations] and
      [get_location_details] only copy [in_season] into each record; their
      readings are taken as one, and nothing is proved of [in_season]. *)

From Stdlib Require Import PrimFloat.
From Stdlib Require Import ZArith Reals Lra Lia String Ascii List.
From Stdlib Require Import DecimalString Sorted Permutation.
From stdpp Require Import base option list.

Local Open Scope Z_scope.
Local Set Warnings "-register-all".

(** ** Exceptions *)

Inductive exn : Type :=
| ValueError (msg : string)      (* raise ValueError(msg), math domain errors *)
| KeyError (key : string)        (* item['id'] on a dict without the key *)
| TypeError                      (* wrong kind of object for the operation *)
| ValidationError                (* pydantic rejects the field values *)
| HTTPError.                     (* client.get, raise_for_status or json() raises *)

Inductive res (A : Type) : Type :=
| Ok (a : A)
| Raise (e : exn).
Arguments Ok {A} a.
Arguments Raise {A} e.

Definition res_bind {A B} (r : res A) (k : A -> res B) : res B :=
  match r with
  | Ok a => k a
  | Raise e => Raise e
  end.

(** ** The distance calculator *)

Module Haversine.
Local Open Scope R_scope.

(** [math.radians] *)
Definition radians (x : R) : R := x * (PI / 180).

(** [math.sqrt]: a negative argument is a domain error. *)
Definition math_sqrt (x : R) : res R :=
  if Rlt_dec x 0 then Raise (ValueError "math domain error") else Ok (sqrt x).

(** [math.asin]: an argument outside [-1, 1] is a domain error. *)
Definition math_asin (x : R) : res R :=
  if Rlt_dec x (-1) then Raise (ValueError "math domain error")
  else if Rlt_dec 1 x then Raise (ValueError "math domain error")
  else Ok (asin x).

(** The quantity [a] of the haversine formula, on arguments in radians. *)
Definition hav_a (lat1 lng1 lat2 lng2 : R) : R :=
  let dlat := lat2 - lat1 in
  let dlng := lng2 - lng1 in
  sin (dlat / 2) ^ 2 + cos lat1 * cos lat2 * sin (dlng / 2) ^ 2.

(** [FallingFruitAPI._calculate_distance] *)
Definition _calculate_distance (lat1 lng1 lat2 lng2 : R) : res R :=
  let R_km := 6371 in
  let lat1 := radians lat1 in
  let lng1 := radians lng1 in
  let lat2 := radians lat2 in
  let lng2 := radians lng2 in
  let a := hav_a lat1 lng1 lat2 lng2 in
  res_bind (math_sqrt a) (fun s =>
  res_bind (math_asin s) (fun c =>
  let c := 2 * c in
  Ok (R_km * c))).

End Haversine.

(** *** The same calculation on IEEE binary64 numbers

    Whether the calculation returns depends on rounding, so it is also
    given on the numbers Python computes with.  Addition, subtraction,
    multiplication, division and the square root are those of IEEE 754
    binary64, which CPython uses as they are.  [math.sin], [math.cos],
    [math.asin] and the power operator come from the platform's C library
    and are parameters. *)
Module Binary64.
Import PrimFloat.
Local Open Scope float_scope.

(** The library functions the calculation calls; [float_pow x y] is
    [x ** y]. *)
Record libm : Type := mkLibm {
  math_sin : float -> res float;
  math_cos : float -> res float;
  math_asin : float -> res float;
  float_pow : float -> float -> res float
}.

(** [math.pi] *)
Definition math_pi : float := 0x1.921fb54442d18p+1.

(** [math.radians] *)
Definition radians (x : float) : float := x * (math_pi / 180).

(** [math.sqrt]: a negative argument is a domain error. *)
Definition math_sqrt (x : float) : res float :=
  if x <? 0 then Raise (ValueError "math domain error") else Ok (sqrt x).

(** The quantity [a] of the haversine formula, on arguments in radians,
    evaluated from left to right. *)
Definition hav_a (m : libm) (lat1 lng1 lat2 lng2 : float) : res float :=
  let dlat := lat2 - lat1 in
  let dlng := lng2 - lng1 in
  res_bind (math_sin m (dlat / 2)) (fun sin_dlat =>
  res_bind (float_pow m sin_dlat 2) (fun first =>
  res_bind (math_cos m lat1) (fun cos_lat1 =>
  res_bind (math_cos m lat2) (fun cos_lat2 =>
  res_bind (math_sin m (dlng / 2)) (fun sin_dlng =>
  res_bind (float_pow m sin_dlng 2) (fun second =>
  Ok (first + cos_lat1 * cos_lat2 * second))))))).

(** [FallingFruitAPI._calculate_distance] *)
Definition _calculate_distance (m : libm) (lat1 lng1 lat2 lng2 : float)
    : res float :=
  let R_km := 6371 in
  let lat1 := radians lat1 in
  let lng1 := radians lng1 in
  let lat2 := radians lat2 in
  let lng2 := radians lng2 in
  res_bind (hav_a m lat1 lng1 lat2 lng2) (fun a =>
  res_bind (math_sqrt a) (fun s =>
  res_bind (math_asin m s) (fun c =>
  let c := 2 * c in
  Ok (R_km * c)))).

(** A library function given by its values at a few arguments; at any
    other argument it answers NaN. *)
Definition tabulated (table : list (float * float)) (x : float)
    : res float :=
  match List.find (fun entry => fst entry =? x) table with
  | Some entry => Ok (snd entry)
  | None => Ok nan
  end.

(** The values the C library of x86-64 Linux (glibc) gives CPython at the
    arguments the calculation reaches between the points (89, 0) and
    (91, 180): the sines of half the two differences, their squares and
    the cosines of the two latitudes. *)
Definition glibc_values : libm :=
  {| math_sin :=
       tabulated [(0x1.1df46a2529d40p-6, 0x1.1df0b2b89dd25p-6);
                  (0x1.921fb54442d18p+0, 0x1p+0)];
     math_cos :=
       tabulated [(0x1.8da7e39bae2a3p+0, 0x1.1df0b2b89dd37p-6);
                  (0x1.969786ecd778dp+0, -0x1.1df0b2b89dd14p-6)];
     math_asin := tabulated [];
     float_pow := fun x y =>
       if y =? 2
       then tabulated [(0x1.1df0b2b89dd25p-6, 0x1.3f61d03ea6537p-12);
                       (0x1p+0, 0x1p+0)] x
       else Ok nan |}.

End Binary64.

(** ** Data model *)

(** A decoded JSON value, as [response.json()] returns it.  A [JObj] is a
    Python [dict] in insertion order; its keys are pairwise distinct. *)
Inductive json : Type :=
| JNull
| JBool (b : bool)
| JInt (n : Z)
| JFloat (x : R)
| JStr (s : string)
| JList (l : list json)
| JObj (kvs : list (string * json)).

(** [d.get(key)] on a dict: [None] when the key is absent. *)
Fixpoint dict_get (key : string) (kvs : list (string * json)) : option json :=
  match kvs with
  | [] => None
  | (k, v) :: rest => if String.eqb k key then Some v else dict_get key rest
  end.

(** [class FruitLocation(BaseModel)] *)
Module FruitLocation.
Record t : Type := mk {
  id : Z;
  lat : R;
  lng : R;
  type_ids : list Z;
  description : string;
  access : Z;
  season_start : option Z;
  season_stop : option Z
}.
End FruitLocation.

(** [class FruitType(BaseModel)] *)
Module FruitType.
Record t : Type := mk {
  id : Z;
  name : string;
  scientific_name : string;
  common_names : list string;
  scientific_names : list string
}.

(** [fruit_type.common_names + fruit_type.scientific_names] *)
Definition all_names (fruit_type : t) : list string :=
  common_names fruit_type ++ scientific_names fruit_type.
End FruitType.

(** A point in time as [datetime.now()] reports it, in microseconds; the
    difference of two of them is a [timedelta]. *)
Definition datetime : Type := Z.

Definition timedelta_hours (h : Z) : Z := h * 3600 * 1000000.

(** The instance fields of [FallingFruitAPI] that the methods read or
    write.  [None] is Python's [None]. *)
Record FallingFruitAPI : Type := mkAPI {
  base_url : string;
  api_key : option string;
  _types_cache : option (list FruitType.t);
  _cache_timestamp : option datetime;
  _cache_duration : Z
}.

Definition API_BASE_URL : string := "https://fallingfruit.org/api/0.3".

(** Module level: [API_KEY = os.getenv(...)], then the empty string is
    replaced by [None]. *)
Definition API_KEY (getenv : option string) : option string :=
  match getenv with
  | Some EmptyString => None
  | other => other
  end.

(** [FallingFruitAPI.__init__] *)
Definition __init__ (getenv : option string) : FallingFruitAPI :=
  {| base_url := API_BASE_URL;
     api_key := API_KEY getenv;
     _types_cache := None;
     _cache_timestamp := None;
     _cache_duration := timedelta_hours 24 |}.

(** Truth value of an [Optional[str]]: [None] and the empty string are
    false. *)
Definition truthy_str (s : option string) : bool :=
  match s with
  | None => false
  | Some EmptyString => false
  | Some _ => true
  end.

(** ** The network *)

Inductive param : Type :=
| PInt (n : Z)
| PCenter (lat lng : R).      (* f"{lat},{lng}" *)

Record request : Type := mkRequest {
  url : string;
  params : list (string * param);
  headers : list (string * string);
  timeout : Z                   (* seconds *)
}.

(** What [client.get], [raise_for_status] and [response.json()] do for one
    request: one of them raises, or the decoded body is returned. *)
Inductive http_outcome : Type :=
| Fails
| Returns (data : json).

(** ** The world and the method monad *)

Record world : Type := mkWorld {
  self : FallingFruitAPI;
  clock : datetime;                    (* read by datetime.now() *)
  remote : request -> http_outcome;    (* the remote service *)
  sent : list request                  (* requests issued so far, oldest first *)
}.

Definition M (A : Type) : Type := world -> res A * world.

Definition ret {A} (a : A) : M A := fun w => (Ok a, w).

Definition raise {A} (e : exn) : M A := fun w => (Raise e, w).

Definition bind {A B} (m : M A) (k : A -> M B) : M B := fun w =>
  match m w with
  | (Ok a, w') => k a w'
  | (Raise e, w') => (Raise e, w')
  end.

Notation "'let!' x ':=' m 'in' k" := (bind m (fun x => k))
  (at level 10, x name, m at level 100, k at level 200).
Notation "'do!' m 'in' k" := (bind m (fun _ => k))
  (at level 10, m at level 100, k at level 200).

Definition get_self : M FallingFruitAPI := fun w => (Ok (self w), w).

Definition datetime_now : M datetime := fun w => (Ok (clock w), w).

(** [client.get(...)], [response.raise_for_status()], [response.json()] *)
Definition http_get_json (r : request) : M json := fun w =>
  let w' := {| self := self w; clock := clock w; remote := remote w;
               sent := sent w ++ [r] |} in
  match remote w r with
  | Fails => (Raise HTTPError, w')
  | Returns data => (Ok data, w')
  end.

(** [self._types_cache = types; self._cache_timestamp = now] *)
Definition store_cache (types : list FruitType.t) (now : datetime) : M unit :=
  fun w =>
  let s := self w in
  (Ok tt,
   {| self := {| base_url := base_url s; api_key := api_key s;
                 _types_cache := Some types; _cache_timestamp := Some now;
                 _cache_duration := _cache_duration s |};
      clock := clock w; remote := remote w; sent := sent w |}).

(** [for item in data]: the sequence a JSON value iterates as.  A dict
    yields its keys, a string its characters; the other values are not
    iterable. *)
Definition py_iter (data : json) : res (list json) :=
  match data with
  | JList l => Ok l
  | JObj kvs => Ok (map (fun kv => JStr (fst kv)) kvs)
  | JStr s => Ok (map (fun c => JStr (String c EmptyString)) (list_ascii_of_string s))
  | _ => Raise TypeError
  end.

Definition lift {A} (r : res A) : M A := fun w => (r, w).

Definition not_set_msg : string :=
  "Falling Fruit API key is not set. Please set the FALLING_FRUIT_API_KEY environment variable.".

(** ** Strings *)

(** [needle in hay] on two strings. *)
Fixpoint str_contains (needle hay : string) : bool :=
  String.prefix needle hay
  || match hay with
     | EmptyString => false
     | String _ rest => str_contains needle rest
     end.

(** [seq[:stop]] for an integer [stop]; a negative [stop] counts from the
    end of the sequence. *)
Definition py_slice_to {A} (seq : list A) (stop : Z) : list A :=
  if 0 <=? stop then take (Z.to_nat stop) seq
  else take (Z.to_nat (Z.of_nat (length seq) + stop)) seq.

(** ** The client *)

Section Client.

(** The validating constructors that pydantic derives from the two model
    classes, and [str.lower]; they belong to libraries outside the
    repository. *)
Variable FruitType_new :
  json -> json -> json -> list json -> list json -> res FruitType.t.
Variable FruitLocation_new : list (string * json) -> res FruitLocation.t.
Variable lower : string -> string.

(** *** Taxonomy parser: the body of the loop in [get_all_types] *)

(** [for lang, names in item['common_names'].items()] *)
Definition extend_common_names (common_names : list json)
    (entry : string * json) : list json :=
  match snd entry with
  | JList names => common_names ++ names
  | _ => common_names
  end.

Definition collect_common_names (item : list (string * json)) : list json :=
  match dict_get "common_names" item with
  | Some (JObj by_lang) => fold_left extend_common_names by_lang []
  | _ => []
  end.

Definition collect_scientific_names (item : list (string * json)) : list json :=
  match dict_get "scientific_names" item with
  | Some (JList names) => names
  | _ => []
  end.

(** The statements inside [try]: the result is the constructed
    [FruitType], or the exception that leaves the block.  On an item that
    is not a dict, the membership test, the subscript
    [item['common_names']] or the subscript [item['id']] raises
    [TypeError]. *)
Definition parse_type (item : json) : res FruitType.t :=
  match item with
  | JObj fields =>
      let common_names := collect_common_names fields in
      let scientific_names := collect_scientific_names fields in
      let primary_name :=
        match common_names with
        | first :: _ => first
        | [] => match scientific_names with
                | first :: _ => first
                | [] => JStr "Unknown"
                end
        end in
      let primary_scientific :=
        match scientific_names with
        | first :: _ => first
        | [] => JStr ""
        end in
      match dict_get "id" fields with
      | None => Raise (KeyError "id")
      | Some ident =>
          FruitType_new ident primary_name primary_scientific
                        common_names scientific_names
      end
  | _ => Raise TypeError
  end.

(** One turn of [for item in data]: append, or [continue] on an exception. *)
Definition types_step (types : list FruitType.t) (item : json)
    : list FruitType.t :=
  match parse_type item with
  | Ok fruit_type => types ++ [fruit_type]
  | Raise _ => types
  end.

Definition parse_types (data : list json) : list FruitType.t :=
  fold_left types_step data [].

(** *** [get_all_types] *)

Definition types_request (s : FallingFruitAPI) (key : string) : request :=
  {| url := (base_url s ++ "/types")%string;
     params := [];
     headers := [("X-API-KEY"%string, key)];
     timeout := 30 |}.

Definition cache_lookup (s : FallingFruitAPI) (now : datetime)
    : option (list FruitType.t) :=
  match _types_cache s, _cache_timestamp s with
  | Some cache, Some stamp =>
      if now - stamp <? _cache_duration s then Some cache else None
  | _, _ => None
  end.

Definition get_all_types : M (list FruitType.t) :=
  let! s := get_self in
  match api_key s with
  | None | Some EmptyString => raise (ValueError not_set_msg)
  | Some key =>
      let! now := datetime_now in
      match cache_lookup s now with
      | Some cache => ret cache
      | None =>
          let! data := http_get_json (types_request s key) in
          let! items := lift (py_iter data) in
          let types := parse_types items in
          do! store_cache types now in
          ret types
      end
  end.

(** *** [get_types] *)

Definition name_matches (query_lower : string) (fruit_type : FruitType.t)
    : bool :=
  existsb (fun name => str_contains query_lower (lower name))
          (FruitType.all_names fruit_type).

Definition filter_step (query_lower : string)
    (filtered_types : list FruitType.t) (fruit_type : FruitType.t)
    : list FruitType.t :=
  if name_matches query_lower fruit_type
  then filtered_types ++ [fruit_type]
  else filtered_types.

Definition get_types (query : option string) : M (list FruitType.t) :=
  let! all_types := get_all_types in
  match query with
  | None | Some EmptyString => ret all_types
  | Some query =>
      let query_lower := lower query in
      ret (fold_left (filter_step query_lower) all_types [])
  end.

(** *** [find_fruit_type_by_name] *)

Definition name_equals (name_lower : string) (fruit_type : FruitType.t)
    : bool :=
  existsb (fun type_name => String.eqb (lower type_name) name_lower)
          (FruitType.all_names fruit_type).

(** A loop over the types that returns at the first one passing [test]. *)
Fixpoint first_type (test : FruitType.t -> bool)
    (all_types : list FruitType.t) : option FruitType.t :=
  match all_types with
  | [] => None
  | fruit_type :: rest =>
      if test fruit_type then Some fruit_type else first_type test rest
  end.

Definition find_fruit_type_by_name (name : string)
    : M (option FruitType.t) :=
  let! all_types := get_all_types in
  let name_lower := lower name in
  match first_type (name_equals name_lower) all_types with
  | Some fruit_type => ret (Some fruit_type)
  | None =>
      match first_type (name_matches name_lower) all_types with
      | Some fruit_type => ret (Some fruit_type)
      | None => ret None
      end
  end.

(** *** [get_locations] *)

Definition locations_request (s : FallingFruitAPI) (key : string)
    (lat lng : R) (type_id : option Z) (limit : Z) : request :=
  let params :=
    [("center"%string, PCenter lat lng);
     ("limit"%string, PInt limit);
     ("photo"%string, PInt 0)] in
  (* [if type_id:] is false for [None] and for [0] *)
  let params :=
    match type_id with
    | Some t => if t =? 0 then params else params ++ [("types"%string, PInt t)]
    | None => params
    end in
  {| url := (base_url s ++ "/locations")%string;
     params := params;
     headers := [("X-API-KEY"%string, key)];
     timeout := 10 |}.

(** The keyword unpacking of [item] into [FruitLocation]: it needs a mapping. *)
Definition parse_location (item : json) : res FruitLocation.t :=
  match item with
  | JObj fields => FruitLocation_new fields
  | _ => Raise TypeError
  end.

(** One turn of [for item in data].  The distance is computed only when
    [radius_km] is non-zero; an exception anywhere in the [try] block
    skips the item. *)
Definition locations_step (lat lng : R) (radius_km : Z)
    (locations : list FruitLocation.t) (item : json)
    : list FruitLocation.t :=
  match parse_location item with
  | Raise _ => locations
  | Ok location =>
      if radius_km =? 0 then locations
      else
        match Haversine._calculate_distance lat lng
                (FruitLocation.lat location) (FruitLocation.lng location) with
        | Raise _ => locations
        | Ok distance =>
            if Rle_dec distance (IZR radius_km)
            then locations ++ [location]
            else locations
        end
  end.

Definition get_locations (lat lng : R) (radius_km : Z) (type_id : option Z)
    (limit : Z) : M (list FruitLocation.t) :=
  let! s := get_self in
  match api_key s with
  | None | Some EmptyString => raise (ValueError not_set_msg)
  | Some key =>
      let! data :=
        http_get_json (locations_request s key lat lng type_id limit) in
      let! items := lift (py_iter data) in
      let locations := fold_left (locations_step lat lng radius_km) items [] in
      ret (py_slice_to locations limit)
  end.

End Client.

(** ** Reference instances of the library functions

    Every pydantic version accepts a JSON value of exactly the declared
    type, and [str.lower] maps the letters [A]-[Z] of an ASCII string to
    [a]-[z].  The instances below implement that common part; they serve
    to run the client on concrete inputs. *)

Definition strict_int (j : json) : res Z :=
  match j with
  | JInt n => Ok n
  | _ => Raise ValidationError
  end.

Definition strict_float (j : json) : res R :=
  match j with
  | JFloat x => Ok x
  | JInt n => Ok (IZR n)
  | _ => Raise ValidationError
  end.

Definition strict_str (j : json) : res string :=
  match j with
  | JStr s => Ok s
  | _ => Raise ValidationError
  end.

Fixpoint strict_list {A} (field : json -> res A) (l : list json)
    : res (list A) :=
  match l with
  | [] => Ok []
  | j :: rest =>
      res_bind (field j) (fun a =>
      res_bind (strict_list field rest) (fun rest' => Ok (a :: rest')))
  end.

Definition strict_FruitType (ident name scientific_name : json)
    (common_names scientific_names : list json) : res FruitType.t :=
  res_bind (strict_int ident) (fun ident =>
  res_bind (strict_str name) (fun name =>
  res_bind (strict_str scientific_name) (fun scientific_name =>
  res_bind (strict_list strict_str common_names) (fun common_names =>
  res_bind (strict_list strict_str scientific_names) (fun scientific_names =>
  Ok (FruitType.mk ident name scientific_name
                   common_names scientific_names)))))).

(** A field with a default: the default when the key is absent. *)
Definition with_default {A} (field : json -> res A) (default : A)
    (value : option json) : res A :=
  match value with
  | None => Ok default
  | Some j => field j
  end.

Definition strict_optional_int (j : json) : res (option Z) :=
  match j with
  | JNull => Ok None
  | JInt n => Ok (Some n)
  | _ => Raise ValidationError
  end.

Definition strict_required {A} (field : json -> res A)
    (value : option json) : res A :=
  match value with
  | None => Raise ValidationError
  | Some j => field j
  end.

Definition strict_int_list (j : json) : res (list Z) :=
  match j with
  | JList l => strict_list strict_int l
  | _ => Raise ValidationError
  end.

Definition strict_FruitLocation (fields : list (string * json))
    : res FruitLocation.t :=
  res_bind (strict_required strict_int (dict_get "id" fields)) (fun ident =>
  res_bind (strict_required strict_float (dict_get "lat" fields)) (fun lat =>
  res_bind (strict_required strict_float (dict_get "lng" fields)) (fun lng =>
  res_bind (with_default strict_int_list [] (dict_get "type_ids" fields))
    (fun type_ids =>
  res_bind (with_default strict_str ""%string (dict_get "description" fields))
    (fun description =>
  res_bind (with_default strict_int 0 (dict_get "access" fields))
    (fun access =>
  res_bind (with_default strict_optional_int None
              (dict_get "season_start" fields)) (fun season_start =>
  res_bind (with_default strict_optional_int None
              (dict_get "season_stop" fields)) (fun season_stop =>
  Ok (FruitLocation.mk ident lat lng type_ids description access
                       season_start season_stop))))))))).

Definition ascii_lower_char (c : ascii) : ascii :=
  let n := N_of_ascii c in
  if ((65 <=? n) && (n <=? 90))%N then ascii_of_N (n + 32) else c.

Fixpoint ascii_lower (s : string) : string :=
  match s with
  | EmptyString => EmptyString
  | String c rest => String (ascii_lower_char c) (ascii_lower rest)
  end.

Fixpoint is_ascii (s : string) : bool :=
  match s with
  | EmptyString => true
  | String c rest => (N_of_ascii c <? 128)%N && is_ascii rest
  end.

(** What is assumed of the library functions. *)
Definition accepts_typed
    (FruitType_new :
       json -> json -> json -> list json -> list json -> res FruitType.t)
    : Prop :=
  forall ident name scientific_name common_names scientific_names,
    FruitType_new (JInt ident) (JStr name) (JStr scientific_name)
                  (map JStr common_names) (map JStr scientific_names)
    = Ok (FruitType.mk ident name scientific_name
                       common_names scientific_names).

Definition lowers_ascii (lower : string -> string) : Prop :=
  forall s, is_ascii s = true -> lower s = ascii_lower s.

(** ** Vocabulary of the statements *)

(** [needle] occurs in [hay] as a contiguous run of characters. *)
Definition is_substring (needle hay : string) : Prop :=
  exists before after, hay = (before ++ needle ++ after)%string.

(** Some name of the type equals [name], letter case apart. *)
Definition exact_match (lower : string -> string) (name : string)
    (fruit_type : FruitType.t) : Prop :=
  exists type_name,
    In type_name (FruitType.all_names fruit_type)
    /\ lower type_name = lower name.

(** Some name of the type contains [query], letter case apart. *)
Definition partial_match (lower : string -> string) (query : string)
    (fruit_type : FruitType.t) : Prop :=
  exists type_name,
    In type_name (FruitType.all_names fruit_type)
    /\ is_substring (lower query) (lower type_name).

(** [x] is the first element of [l] that satisfies [P]. *)
Definition first_such {A} (P : A -> Prop) (l : list A) (x : A) : Prop :=
  exists before after,
    l = before ++ x :: after /\ P x /\ forall y, In y before -> ~ P y.

(** The records of a response that construct a location, in order. *)
Definition to_option {A} (r : res A) : option A :=
  match r with
  | Ok a => Some a
  | Raise _ => None
  end.

(** The cache slot holds a collection younger than 24 hours at [now]. *)
Definition cache_valid (s : FallingFruitAPI) (now : datetime)
    (cache : list FruitType.t) : Prop :=
  exists stamp,
    _types_cache s = Some cache
    /\ _cache_timestamp s = Some stamp
    /\ now - stamp < timedelta_hours 24.

(** The cache slot is absent, or its age at [now] is at least 24 hours. *)
Definition cache_stale (s : FallingFruitAPI) (now : datetime) : Prop :=
  _types_cache s = None
  \/ _cache_timestamp s = None
  \/ exists stamp,
       _cache_timestamp s = Some stamp /\ timedelta_hours 24 <= now - stamp.

(** The client holds the non-empty key [key] and the cache duration that
    [__init__] sets. *)
Definition configured (s : FallingFruitAPI) (key : string) : Prop :=
  api_key s = Some key
  /\ key <> EmptyString
  /\ _cache_duration s = timedelta_hours 24.

(** The world after the environment moved on: the instance and the log
    of requests are kept, the clock and the remote service are new. *)
Definition later (w : world) (now : datetime)
    (service : request -> http_outcome) : world :=
  {| self := self w; clock := now; remote := service; sent := sent w |}.

(** The world whose client holds the given key. *)
Definition with_key (key : option string) (w : world) : world :=
  {| self := {| base_url := base_url (self w); api_key := key;
                _types_cache := _types_cache (self w);
                _cache_timestamp := _cache_timestamp (self w);
                _cache_duration := _cache_duration (self w) |};
     clock := clock w; remote := remote w; sent := sent w |}.

(** The names a language entry of [common_names] contributes. *)
Definition listed_names (value : json) : list json :=
  match value with
  | JList names => names
  | _ => []
  end.

(** The display name the parser picks from the two name lists. *)
Definition display_name (common_names scientific_names : list string)
    : string :=
  match common_names with
  | first :: _ => first
  | [] => match scientific_names with
          | first :: _ => first
          | [] => "Unknown"%string
          end
  end.

(** What one turn of the loop of [get_locations] appends, if anything. *)
Definition kept_location
    (FruitLocation_new : list (string * json) -> res FruitLocation.t)
    (lat lng : R) (radius_km : Z) (item : json) : option FruitLocation.t :=
  match parse_location FruitLocation_new item with
  | Raise _ => None
  | Ok location =>
      if radius_km =? 0 then None
      else
        match Haversine._calculate_distance lat lng
                (FruitLocation.lat location) (FruitLocation.lng location) with
        | Raise _ => None
        | Ok distance =>
            if Rle_dec distance (IZR radius_km) then Some location else None
        end
  end.

(** The world after one more request. *)
Definition after_request (w : world) (r : request) : world :=
  {| self := self w; clock := clock w; remote := remote w;
     sent := sent w ++ [r] |}.

(** ** Sample data *)

Definition apple_record : json :=
  JObj [("id"%string, JInt 14);
        ("common_names"%string,
         JObj [("en"%string, JList [JStr "Apple"; JStr "Crabapple"]);
               ("fr"%string, JList [JStr "Pomme"])]);
        ("scientific_names"%string, JList [JStr "Malus domestica"])].

Definition apple_parsed : FruitType.t :=
  FruitType.mk 14 "Apple" "Malus domestica"
               ["Apple"; "Crabapple"; "Pomme"]%string
               ["Malus domestica"]%string.

(** A record without the identifier field. *)
Definition nameless_record : json :=
  JObj [("common_names"%string, JObj [("en"%string, JList [JStr "Pear"])])].

Definition apple_type : FruitType.t :=
  FruitType.mk 1 "Apple" "" ["Apple"]%string [].

Definition crabapple_type : FruitType.t :=
  FruitType.mk 2 "Crabapple" "" ["Crabapple"]%string [].

(** A location at the origin and one half a turn away on the equator. *)
Definition near_item : json :=
  JObj [("id"%string, JInt 1); ("lat"%string, JInt 0); ("lng"%string, JInt 0)].

Definition far_item : json :=
  JObj [("id"%string, JInt 2); ("lat"%string, JInt 0);
        ("lng"%string, JInt 180)].

Definition near_location : FruitLocation.t :=
  FruitLocation.mk 1 0%R 0%R [] "" 0 None None.

Definition far_location : FruitLocation.t :=
  FruitLocation.mk 2 0%R 180%R [] "" 0 None None.

(** A freshly constructed client with a key, at time [now], facing a
    service that answers every request the same way. *)
Definition fresh_world (now : datetime) (answer : http_outcome) : world :=
  {| self := __init__ (Some "secret"%string);
     clock := now;
     remote := fun _ => answer;
     sent := [] |}.

(** A client whose cache was filled at time 0, seen 25 hours later. *)
Definition aged_world (answer : http_outcome) : world :=
  {| self := {| base_url := API_BASE_URL;
                api_key := Some "secret"%string;
                _types_cache := Some [apple_type];
                _cache_timestamp := Some 0;
                _cache_duration := timedelta_hours 24 |};
     clock := timedelta_hours 25;
     remote := fun _ => answer;
     sent := [] |}.

(** A client whose cache, filled an hour ago, holds the two apples. *)
Definition cached_world (cache : list FruitType.t) : world :=
  {| self := {| base_url := API_BASE_URL;
                api_key := Some "secret"%string;
                _types_cache := Some cache;
                _cache_timestamp := Some 0;
                _cache_duration := timedelta_hours 24 |};
     clock := timedelta_hours 1;
     remote := fun _ => Fails;
     sent := [] |}.

(** ** The helpers and tools around the client *)

(** An exception leaving a helper or a tool: one of the client's, or the
    [IndexError] of a list subscript. *)
Inductive raised : Type :=
| Exn (e : exn)
| IndexError.

Inductive outcome (A : Type) : Type :=
| Returned (a : A)
| Raised (e : raised).
Arguments Returned {A} a.
Arguments Raised {A} e.

Definition outcome_bind {A B} (o : outcome A) (k : A -> outcome B)
    : outcome B :=
  match o with
  | Returned a => k a
  | Raised e => Raised e
  end.

(** [seq[i]] for an integer [i]: a negative index counts from the end, an
    index outside [-len, len) raises [IndexError]. *)
Definition py_index {A} (seq : list A) (i : Z) : outcome A :=
  let n := Z.of_nat (length seq) in
  let j := if i <? 0 then i + n else i in
  if (0 <=? j) && (j <? n) then
    match nth_error seq (Z.to_nat j) with
    | Some x => Returned x
    | None => Raised IndexError
    end
  else Raised IndexError.

Module SeasonHelper.

(** [is_in_season]; [current_month] is [datetime.now().month]. *)
Definition is_in_season (current_month : Z)
    (season_start season_stop : option Z) : bool :=
  match season_start, season_stop with
  | Some season_start, Some season_stop =>
      if season_start <=? season_stop
      then (season_start <=? current_month)
           && (current_month <=? season_stop)
      else (current_month >=? season_start)
           || (current_month <=? season_stop)
  | _, _ => true
  end.

Definition months : list string :=
  ["Jan"; "Feb"; "Mar"; "Apr"; "May"; "Jun";
   "Jul"; "Aug"; "Sep"; "Oct"; "Nov"; "Dec"]%string.

(** [format_season] *)
Definition format_season (season_start season_stop : option Z)
    : outcome string :=
  match season_start, season_stop with
  | Some season_start, Some season_stop =>
      if season_start =? season_stop then
        py_index months (season_start - 1)
      else if season_start <? season_stop then
        outcome_bind (py_index months (season_start - 1)) (fun first =>
        outcome_bind (py_index months (season_stop - 1)) (fun last =>
        Returned (first ++ " - " ++ last)%string))
      else
        outcome_bind (py_index months (season_start - 1)) (fun first =>
        outcome_bind (py_index months (season_stop - 1)) (fun last =>
        Returned (first ++ " - " ++ last ++ " (next year)")%string))
  | _, _ => Returned "Season unknown"%string
  end.

End SeasonHelper.

(** The twelve calendar months, and a test that [format_season] tells
    two pairs of them apart. *)
Definition calendar_months : list Z := [1; 2; 3; 4; 5; 6; 7; 8; 9; 10; 11; 12].

Definition outcome_string_eqb (a b : outcome string) : bool :=
  match a, b with
  | Returned x, Returned y => String.eqb x y
  | _, _ => false
  end.

Definition seasons_told_apart (s e s' e' : Z) : bool :=
  negb (outcome_string_eqb
          (SeasonHelper.format_season (Some s) (Some e))
          (SeasonHelper.format_season (Some s') (Some e')))
  || ((s =? s') && (e =? e')).

(** The cache and its timestamp are set together. *)
Definition cache_paired (s : FallingFruitAPI) : Prop :=
  _types_cache s = None <-> _cache_timestamp s = None.

(** What a method call leaves alone: the key, the base URL and the cache
    duration of the client, the clock and the remote service; and it adds
    at most [n] requests to the log. *)
Definition framed (n : nat) (w w' : world) : Prop :=
  api_key (self w') = api_key (self w)
  /\ base_url (self w') = base_url (self w)
  /\ _cache_duration (self w') = _cache_duration (self w)
  /\ clock w' = clock w
  /\ remote w' = remote w
  /\ exists more, sent w' = sent w ++ more /\ (length more <= n)%nat.

(** *** Library functions the tools call

    Besides the three the client uses: the geocoder, the month number
    and month name of a [datetime], [round(x, 1)] and the formatting of a
    float inside an f-string.  [next_now] is the passing of time inside
    one call of a tool: the value the clock has when it is read again
    after having read [now]. *)
Inductive geocoded : Type :=
| GeocodeRaises
| GeocodeNone
| GeocodeAt (latitude longitude : R).

Record runtime : Type := mkRuntime {
  rt_FruitType_new :
    json -> json -> json -> list json -> list json -> res FruitType.t;
  rt_FruitLocation_new : list (string * json) -> res FruitLocation.t;
  rt_lower : string -> string;
  geolocator_geocode : string -> geocoded;
  month_of : datetime -> Z;
  month_name_of : datetime -> string;
  round1 : R -> R;
  str_float : R -> string;
  next_now : datetime -> datetime
}.

(** [str(n)] for an integer. *)
Definition str_int (n : Z) : string :=
  DecimalString.NilZero.string_of_int (Z.to_int n).

(** The tools run in the client's world and may raise [IndexError]
    besides the client's exceptions. *)
Definition T (A : Type) : Type := world -> outcome A * world.

Definition tret {A} (a : A) : T A := fun w => (Returned a, w).

Definition tbind {A B} (m : T A) (k : A -> T B) : T B := fun w =>
  match m w with
  | (Returned a, w') => k a w'
  | (Raised e, w') => (Raised e, w')
  end.

Notation "'let*' x ':=' m 'in' k" := (tbind m (fun x => k))
  (at level 10, x name, m at level 100, k at level 200).

(** A call of a client method from a tool. *)
Definition await {A} (m : M A) : T A := fun w =>
  match m w with
  | (Ok a, w') => (Returned a, w')
  | (Raise e, w') => (Raised (Exn e), w')
  end.

Definition now_month (rt : runtime) : T Z := fun w =>
  (Returned (month_of rt (clock w)), w).

Definition settle {A} (o : outcome A) : T A := fun w => (o, w).

(** Time passes between two readings of the clock. *)
Definition elapse (rt : runtime) : T unit := fun w =>
  (Returned tt, later w (next_now rt (clock w)) (remote w)).

Module LocationHelper.

(** [geocode_location]: an exception of the geocoder is printed and
    swallowed. *)
Definition geocode_location (rt : runtime) (location : string)
    : option (R * R) :=
  match geolocator_geocode rt location with
  | GeocodeAt latitude longitude => Some (latitude, longitude)
  | GeocodeNone => None
  | GeocodeRaises => None
  end.

End LocationHelper.

Module MapsHelper.

Definition generate_maps_link (rt : runtime) (lat lng : R) : string :=
  ("https://www.google.com/maps/search/?api=1&query="
   ++ str_float rt lat ++ "," ++ str_float rt lng)%string.

Definition generate_directions_link (rt : runtime)
    (origin_lat origin_lng dest_lat dest_lng : R) : string :=
  ("https://www.google.com/maps/dir/"
   ++ str_float rt origin_lat ++ "," ++ str_float rt origin_lng ++ "/"
   ++ str_float rt dest_lat ++ "," ++ str_float rt dest_lng)%string.

End MapsHelper.

(** *** The dicts the tools return *)

Record type_info : Type := mkTypeInfo {
  info_id : Z;
  info_name : string;
  info_scientific_name : string
}.

Record season_view : Type := mkSeasonView {
  formatted : string;
  start_month : option Z;
  stop_month : option Z;
  in_season : bool
}.

Record location_view : Type := mkLocationView {
  view_id : Z;
  coordinates : R * R;
  distance_km : R;
  view_type_ids : list Z;
  view_description : string;
  view_access : string;
  season : season_view;
  maps_link : string
}.

(** The result of [search_fruit_locations]: the dict with
    ["success": False], or the one with ["success": True]. *)
Inductive search_response : Type :=
| LocationNotFound (error location : string)
| SearchResults (location : string) (search_center : R * R)
    (fruit_type : option type_info) (radius_km : Z) (total_found : Z)
    (locations : list location_view).

(** [access_levels.get(loc.access, "unknown")] *)
Definition access_level (access : Z) : string :=
  if access =? 0 then "unknown"
  else if access =? 1 then "public"
  else if access =? 2 then "permission_needed"
  else if access =? 3 then "private"
  else "unknown".

Definition info_of (fruit_type : FruitType.t) : type_info :=
  {| info_id := FruitType.id fruit_type;
     info_name := FruitType.name fruit_type;
     info_scientific_name := FruitType.scientific_name fruit_type |}.

(** The block "Get fruit type ID if specified", the same in
    [search_fruit_locations] and [get_location_details]. *)
Definition resolve_type_filter (rt : runtime) (fruit_type : option string)
    : T (option Z * option type_info) :=
  match fruit_type with
  | None | Some EmptyString => tret (None, None)
  | Some _ =>
      let* types :=
        await (get_types (rt_FruitType_new rt) (rt_lower rt) fruit_type) in
      match types with
      | [] => tret (None, None)
      | first :: _ =>
          tret (Some (FruitType.id first), Some (info_of first))
      end
  end.

(** The body of the loop "Format results" of [search_fruit_locations]. *)
Definition view_location (rt : runtime) (current_month : Z) (lat lng : R)
    (loc : FruitLocation.t) : outcome location_view :=
  match Haversine._calculate_distance lat lng
          (FruitLocation.lat loc) (FruitLocation.lng loc) with
  | Raise e => Raised (Exn e)
  | Ok distance =>
      outcome_bind
        (SeasonHelper.format_season (FruitLocation.season_start loc)
                                    (FruitLocation.season_stop loc))
        (fun season =>
      let access := access_level (FruitLocation.access loc) in
      let in_season :=
        SeasonHelper.is_in_season current_month
          (FruitLocation.season_start loc) (FruitLocation.season_stop loc) in
      let maps_link :=
        MapsHelper.generate_maps_link rt
          (FruitLocation.lat loc) (FruitLocation.lng loc) in
      Returned
        {| view_id := FruitLocation.id loc;
           coordinates := (FruitLocation.lat loc, FruitLocation.lng loc);
           distance_km := round1 rt distance;
           view_type_ids := FruitLocation.type_ids loc;
           view_description := FruitLocation.description loc;
           view_access := access;
           season := {| formatted := season;
                        start_month := FruitLocation.season_start loc;
                        stop_month := FruitLocation.season_stop loc;
                        in_season := in_season |};
           maps_link := maps_link |})
  end.

Fixpoint view_locations (rt : runtime) (current_month : Z) (lat lng : R)
    (locations : list FruitLocation.t)
    (result_locations : list location_view)
    : outcome (list location_view) :=
  match locations with
  | [] => Returned result_locations
  | loc :: rest =>
      outcome_bind (view_location rt current_month lat lng loc) (fun view =>
      view_locations rt current_month lat lng rest
                     (result_locations ++ [view]))
  end.

(** The tool [search_fruit_locations] *)
Definition search_fruit_locations (rt : runtime) (location : string)
    (fruit_type : option string) (radius_km : Z) : T search_response :=
  match LocationHelper.geocode_location rt location with
  | None =>
      tret (LocationNotFound
              ("Could not find location: " ++ location)%string location)
  | Some (lat, lng) =>
      let* filter := resolve_type_filter rt fruit_type in
      let type_id := fst filter in
      let fruit_type_info := snd filter in
      let* locations :=
        await (get_locations (rt_FruitLocation_new rt)
                 lat lng radius_km type_id 50) in
      match locations with
      | [] =>
          tret (SearchResults location (lat, lng) fruit_type_info
                  radius_km 0 [])
      | _ :: _ =>
          let* current_month := now_month rt in
          let* result_locations :=
            settle (view_locations rt current_month lat lng locations []) in
          tret (SearchResults location (lat, lng) fruit_type_info
                  radius_km (Z.of_nat (length locations)) result_locations)
      end
  end.

(** A runtime for the examples: the strict constructors, ASCII
    lowercasing, a geocoder that places everything at the origin, the
    month of June, the identity for rounding, and a clock that is one
    unit further at each reading. *)
Definition sample_runtime : runtime :=
  {| rt_FruitType_new := strict_FruitType;
     rt_FruitLocation_new := strict_FruitLocation;
     rt_lower := ascii_lower;
     geolocator_geocode := fun _ => GeocodeAt 0 0;
     month_of := fun _ => 6;
     month_name_of := fun _ => "June"%string;
     round1 := fun x => x;
     str_float := fun _ => "0.0"%string;
     next_now := fun now => now + 1 |}.

(** A runtime whose geocoder finds nothing. *)
Definition lost_runtime : runtime :=
  {| rt_FruitType_new := strict_FruitType;
     rt_FruitLocation_new := strict_FruitLocation;
     rt_lower := ascii_lower;
     geolocator_geocode := fun _ => GeocodeNone;
     month_of := fun _ => 6;
     month_name_of := fun _ => "June"%string;
     round1 := fun x => x;
     str_float := fun _ => "0.0"%string;
     next_now := fun now => now + 1 |}.

(** A record with a season that stops in month 13. *)
Definition odd_season_item : json :=
  JObj [("id"%string, JInt 3); ("lat"%string, JInt 0);
        ("lng"%string, JInt 0);
        ("season_start"%string, JInt 5); ("season_stop"%string, JInt 13)].

Definition odd_season_location : FruitLocation.t :=
  FruitLocation.mk 3 0%R 0%R [] "" 0 (Some 5) (Some 13).

(** What the search shows for [near_location] under [sample_runtime]. *)
Definition near_view : location_view :=
  {| view_id := 1;
     coordinates := (0%R, 0%R);
     distance_km := 0%R;
     view_type_ids := [];
     view_description := "";
     view_access := "unknown";
     season := {| formatted := "Season unknown";
                  start_month := None;
                  stop_month := None;
                  in_season := true |};
     maps_link :=
       "https://www.google.com/maps/search/?api=1&query=0.0,0.0" |}.

(** *** The tool [get_id_for_fruit] *)

Record suggestion : Type := mkSuggestion {
  suggested_id : Z;
  suggested_name : string;
  suggested_scientific_name : string
}.

Record fruit_detail : Type := mkFruitDetail {
  detail_id : Z;
  detail_name : string;
  detail_scientific_name : string;
  detail_common_names : list string;
  detail_scientific_names : list string
}.

Inductive id_response : Type :=
| NoMatch (query message : string) (suggestions : list suggestion)
    (tip : string)
| Match (query : string) (fruit_type : fruit_detail) (usage_tip : string).

(** The inner loop over the names of one type: a matching name is
    appended, and the loop is left when five suggestions are held. *)
Fixpoint suggest_names (lower : string -> string) (fruit_name : string)
    (ft : FruitType.t) (all_names : list string)
    (suggestions : list suggestion) : list suggestion :=
  match all_names with
  | [] => suggestions
  | name :: rest =>
      if str_contains (lower fruit_name) (lower name) then
        let suggestions :=
          suggestions
          ++ [{| suggested_id := FruitType.id ft;
                 suggested_name := name;
                 suggested_scientific_name :=
                   FruitType.scientific_name ft |}] in
        if 5 <=? Z.of_nat (length suggestions) then suggestions
        else suggest_names lower fruit_name ft rest suggestions
      else suggest_names lower fruit_name ft rest suggestions
  end.

(** The outer loop over the types, left when five suggestions are held. *)
Fixpoint suggest_types (lower : string -> string) (fruit_name : string)
    (all_types : list FruitType.t) (suggestions : list suggestion)
    : list suggestion :=
  match all_types with
  | [] => suggestions
  | ft :: rest =>
      let suggestions :=
        suggest_names lower fruit_name ft (FruitType.all_names ft)
                      suggestions in
      if 5 <=? Z.of_nat (length suggestions) then suggestions
      else suggest_types lower fruit_name rest suggestions
  end.

Definition get_id_for_fruit (rt : runtime) (fruit_name : string)
    : T id_response :=
  let* fruit_type :=
    await (find_fruit_type_by_name (rt_FruitType_new rt) (rt_lower rt)
             fruit_name) in
  match fruit_type with
  | None =>
      (* [get_all_types] reads the clock again, later than the first time *)
      let* _ := elapse rt in
      let* all_types := await (get_all_types (rt_FruitType_new rt)) in
      let suggestions :=
        suggest_types (rt_lower rt) fruit_name all_types [] in
      tret (NoMatch fruit_name
              ("No exact match found for '" ++ fruit_name ++ "'")%string
              (match suggestions with
               | [] => []
               | _ :: _ => py_slice_to suggestions 5
               end)
              "Try searching with more specific terms like 'red apple' or 'sweet cherry'")
  | Some fruit_type =>
      tret (Match fruit_name
              {| detail_id := FruitType.id fruit_type;
                 detail_name := FruitType.name fruit_type;
                 detail_scientific_name :=
                   FruitType.scientific_name fruit_type;
                 detail_common_names :=
                   py_slice_to (FruitType.common_names fruit_type) 10;
                 detail_scientific_names :=
                   py_slice_to (FruitType.scientific_names fruit_type) 3 |}
              ("Use ID " ++ str_int (FruitType.id fruit_type)
               ++ " in other tools to search for "
               ++ FruitType.name fruit_type ++ " locations")%string)
  end.

(** *** The tool [find_fruit_types] *)

Record types_response : Type := mkTypesResponse {
  types_query : string;
  types_total_found : Z;
  types_found : list type_info
}.

(** The loop that copies id, name and scientific name of each type. *)
Definition list_types (types : list FruitType.t) : list type_info :=
  fold_left (fun fruit_types fruit_type =>
               fruit_types ++ [info_of fruit_type]) types [].

Definition find_fruit_types (rt : runtime) (query : string)
    : T types_response :=
  let* types :=
    await (get_types (rt_FruitType_new rt) (rt_lower rt) (Some query)) in
  match types with
  | [] =>
      tret {| types_query := query; types_total_found := 0;
              types_found := [] |}
  | _ :: _ =>
      tret {| types_query := query;
              types_total_found := Z.of_nat (length types);
              types_found := list_types types |}
  end.

(** *** Sorting

    [list.sort(key=...)] is a stable ascending sort; on keys that are
    totally ordered every stable sort gives the same list, here the one
    that insertion from the right builds. *)
Fixpoint insert_by {A} (key : A -> R) (x : A) (sorted : list A) : list A :=
  match sorted with
  | [] => [x]
  | y :: rest =>
      if Rle_dec (key x) (key y) then x :: y :: rest
      else y :: insert_by key x rest
  end.

Definition sort_by {A} (key : A -> R) (l : list A) : list A :=
  fold_right (insert_by key) [] l.

(** The order of the keys, on the elements. *)
Definition key_le {A} (key : A -> R) (a b : A) : Prop :=
  (key a <= key b)%R.

(** *** The tool [get_location_details] *)

Record fruit_view : Type := mkFruitView {
  fruit_id : Z;
  fruit_name : string;
  fruit_scientific_name : string
}.

Record detail_view : Type := mkDetailView {
  detail_view_id : Z;
  detail_coordinates : R * R;
  detail_distance_km : R;
  fruits : list fruit_view;
  detail_description : string;
  detail_access : string;
  detail_season : season_view;
  detail_maps_link : string;
  directions_link : string
}.

Inductive details_response : Type :=
| DetailsNotFound (error location : string)
| DetailsResults (location : string) (search_center : R * R)
    (fruit_type : option type_info) (radius_km : Z) (total_found : Z)
    (locations : list detail_view).

(** [{t.id: field(t) for t in all_types}.get(tid)]: a later type with
    the same id replaces an earlier one. *)
Definition types_dict_get (field : FruitType.t -> string)
    (all_types : list FruitType.t) (tid : Z) : option string :=
  fold_left (fun found t =>
               if FruitType.id t =? tid then Some (field t) else found)
            all_types None.

(** The loop "Get fruit types for this location". *)
Definition fruits_of (all_types : list FruitType.t) (type_ids : list Z)
    : list fruit_view :=
  fold_left
    (fun fruits tid =>
       fruits
       ++ [{| fruit_id := tid;
              fruit_name :=
                match types_dict_get FruitType.name all_types tid with
                | Some name => name
                | None => ("Type " ++ str_int tid)%string
                end;
              fruit_scientific_name :=
                match types_dict_get FruitType.scientific_name
                        all_types tid with
                | Some name => name
                | None => EmptyString
                end |}])
    type_ids [].

Definition detail_location (rt : runtime) (current_month : Z) (lat lng : R)
    (all_types : list FruitType.t) (loc : FruitLocation.t)
    : outcome detail_view :=
  match Haversine._calculate_distance lat lng
          (FruitLocation.lat loc) (FruitLocation.lng loc) with
  | Raise e => Raised (Exn e)
  | Ok distance =>
      outcome_bind
        (SeasonHelper.format_season (FruitLocation.season_start loc)
                                    (FruitLocation.season_stop loc))
        (fun season =>
      let access := access_level (FruitLocation.access loc) in
      let in_season :=
        SeasonHelper.is_in_season current_month
          (FruitLocation.season_start loc) (FruitLocation.season_stop loc) in
      let fruits := fruits_of all_types (FruitLocation.type_ids loc) in
      let maps_link :=
        MapsHelper.generate_maps_link rt
          (FruitLocation.lat loc) (FruitLocation.lng loc) in
      let directions_link :=
        MapsHelper.generate_directions_link rt lat lng
          (FruitLocation.lat loc) (FruitLocation.lng loc) in
      Returned
        {| detail_view_id := FruitLocation.id loc;
           detail_coordinates :=
             (FruitLocation.lat loc, FruitLocation.lng loc);
           detail_distance_km := round1 rt distance;
           fruits := fruits;
           detail_description := FruitLocation.description loc;
           detail_access := access;
           detail_season := {| formatted := season;
                               start_month := FruitLocation.season_start loc;
                               stop_month := FruitLocation.season_stop loc;
                               in_season := in_season |};
           detail_maps_link := maps_link;
           directions_link := directions_link |})
  end.

Fixpoint detail_locations (rt : runtime) (current_month : Z) (lat lng : R)
    (all_types : list FruitType.t) (locations : list FruitLocation.t)
    (detailed_locations : list detail_view) : outcome (list detail_view) :=
  match locations with
  | [] => Returned detailed_locations
  | loc :: rest =>
      outcome_bind
        (detail_location rt current_month lat lng all_types loc)
        (fun view =>
      detail_locations rt current_month lat lng all_types rest
                       (detailed_locations ++ [view]))
  end.

Definition get_location_details (rt : runtime) (location : string)
    (fruit_type : option string) (radius_km : Z) : T details_response :=
  match LocationHelper.geocode_location rt location with
  | None =>
      tret (DetailsNotFound
              ("Could not find location: " ++ location)%string location)
  | Some (lat, lng) =>
      let* filter := resolve_type_filter rt fruit_type in
      let type_id := fst filter in
      let fruit_type_info := snd filter in
      let* locations :=
        await (get_locations (rt_FruitLocation_new rt)
                 lat lng radius_km type_id 20) in
      match locations with
      | [] =>
          tret (DetailsResults location (lat, lng) fruit_type_info
                  radius_km 0 [])
      | _ :: _ =>
          let* all_types :=
            await (get_types (rt_FruitType_new rt) (rt_lower rt) None) in
          let* current_month := now_month rt in
          let* detailed_locations :=
            settle (detail_locations rt current_month lat lng all_types
                      locations []) in
          let detailed_locations :=
            sort_by detail_distance_km detailed_locations in
          tret (DetailsResults location (lat, lng) fruit_type_info
                  radius_km (Z.of_nat (length locations))
                  detailed_locations)
      end
  end.

(** A client with a fresh cache, facing a service that answers every
    request the same way. *)
Definition ready_world (cache : list FruitType.t) (answer : http_outcome)
    : world :=
  {| self := {| base_url := API_BASE_URL;
                api_key := Some "secret"%string;
                _types_cache := Some cache;
                _cache_timestamp := Some 0;
                _cache_duration := timedelta_hours 24 |};
     clock := timedelta_hours 1;
     remote := fun _ => answer;
     sent := [] |}.

(** What the details show for [near_location] under [sample_runtime]. *)
Definition near_detail : detail_view :=
  {| detail_view_id := 1;
     detail_coordinates := (0%R, 0%R);
     detail_distance_km := 0%R;
     fruits := [];
     detail_description := "";
     detail_access := "unknown";
     detail_season := {| formatted := "Season unknown";
                         start_month := None;
                         stop_month := None;
                         in_season := true |};
     detail_maps_link :=
       "https://www.google.com/maps/search/?api=1&query=0.0,0.0";
     directions_link := "https://www.google.com/maps/dir/0.0,0.0/0.0,0.0" |}.

(** *** The tool [get_seasonal_fruits] *)

Record seasonal_location : Type := mkSeasonalLocation {
  seasonal_id : Z;
  seasonal_coordinates : R * R;
  seasonal_distance_km : R;
  seasonal_description : string;
  seasonal_maps_link : string
}.

Record fruit_group : Type := mkFruitGroup {
  group_type_id : Z;
  group_name : string;
  group_scientific_name : string;
  location_count : Z;
  closest_distance_km : R;
  group_locations : list seasonal_location
}.

Inductive seasonal_response : Type :=
| SeasonalNotFound (error location : string)
| SeasonalResults (location : string) (search_center : R * R)
    (radius_km : Z) (current_month : Z) (current_month_name : string)
    (total_seasonal_locations : Z) (fruit_types : list fruit_group).

(** The dict [by_type], in insertion order.  One step of "Group
    locations by type": a new key is added at the end with an empty
    list, then the location is appended to the list of its key. *)
Fixpoint by_type_append (type_id : Z) (loc : FruitLocation.t)
    (by_type : list (Z * list FruitLocation.t))
    : list (Z * list FruitLocation.t) :=
  match by_type with
  | [] => [(type_id, [loc])]
  | (k, locs) :: rest =>
      if k =? type_id then (k, locs ++ [loc]) :: rest
      else (k, locs) :: by_type_append type_id loc rest
  end.

Definition group_location (by_type : list (Z * list FruitLocation.t))
    (loc : FruitLocation.t) : list (Z * list FruitLocation.t) :=
  fold_left (fun by_type type_id => by_type_append type_id loc by_type)
            (FruitLocation.type_ids loc) by_type.

Definition group_by_type (seasonal_locations : list FruitLocation.t)
    : list (Z * list FruitLocation.t) :=
  fold_left group_location seasonal_locations [].

(** The body of the loop "Get location details for this fruit type". *)
Definition seasonal_view (rt : runtime) (lat lng : R)
    (loc : FruitLocation.t) : outcome seasonal_location :=
  match Haversine._calculate_distance lat lng
          (FruitLocation.lat loc) (FruitLocation.lng loc) with
  | Raise e => Raised (Exn e)
  | Ok distance =>
      Returned
        {| seasonal_id := FruitLocation.id loc;
           seasonal_coordinates :=
             (FruitLocation.lat loc, FruitLocation.lng loc);
           seasonal_distance_km := round1 rt distance;
           seasonal_description := FruitLocation.description loc;
           seasonal_maps_link :=
             MapsHelper.generate_maps_link rt
               (FruitLocation.lat loc) (FruitLocation.lng loc) |}
  end.

Fixpoint seasonal_views (rt : runtime) (lat lng : R)
    (locs : list FruitLocation.t) (type_locations : list seasonal_location)
    : outcome (list seasonal_location) :=
  match locs with
  | [] => Returned type_locations
  | loc :: rest =>
      outcome_bind (seasonal_view rt lat lng loc) (fun view =>
      seasonal_views rt lat lng rest (type_locations ++ [view]))
  end.

(** [min(...)] over the keys of a list; the empty list is an error. *)
Definition py_min {A} (key : A -> R) (l : list A) : outcome R :=
  match l with
  | [] => Raised (Exn (ValueError "min() arg is an empty sequence"))
  | x :: rest => Returned (fold_left (fun m y => Rmin m (key y)) rest (key x))
  end.

(** The body of the loop "Format fruit types with their locations". *)
Definition fruit_group_of (rt : runtime) (lat lng : R)
    (all_types : list FruitType.t) (entry : Z * list FruitLocation.t)
    : outcome fruit_group :=
  let type_id := fst entry in
  let locs := snd entry in
  let type_name :=
    match types_dict_get FruitType.name all_types type_id with
    | Some name => name
    | None => ("Type " ++ str_int type_id)%string
    end in
  let scientific_name :=
    match types_dict_get FruitType.scientific_name all_types type_id with
    | Some name => name
    | None => EmptyString
    end in
  outcome_bind (seasonal_views rt lat lng locs []) (fun type_locations =>
  let type_locations := sort_by seasonal_distance_km type_locations in
  outcome_bind (py_min seasonal_distance_km type_locations) (fun closest =>
  Returned
    {| group_type_id := type_id;
       group_name := type_name;
       group_scientific_name := scientific_name;
       location_count := Z.of_nat (length locs);
       closest_distance_km := round1 rt closest;
       group_locations := type_locations |})).

Fixpoint fruit_groups (rt : runtime) (lat lng : R)
    (all_types : list FruitType.t)
    (by_type : list (Z * list FruitLocation.t))
    (fruit_types : list fruit_group) : outcome (list fruit_group) :=
  match by_type with
  | [] => Returned fruit_types
  | entry :: rest =>
      outcome_bind (fruit_group_of rt lat lng all_types entry) (fun group =>
      fruit_groups rt lat lng all_types rest (fruit_types ++ [group]))
  end.

Definition now_month_name (rt : runtime) : T string := fun w =>
  (Returned (month_name_of rt (clock w)), w).

(** The comprehension "Filter to only in-season fruits":
    [is_in_season] is called for each location, where it reads the clock
    if the location has both months, and time passes from one location to
    the next. *)
Fixpoint seasonal_filter (rt : runtime) (locations : list FruitLocation.t)
    : T (list FruitLocation.t) :=
  match locations with
  | [] => tret []
  | loc :: rest =>
      let* current_month := now_month rt in
      let* _ := elapse rt in
      let* seasonal_locations := seasonal_filter rt rest in
      tret (if SeasonHelper.is_in_season current_month
                 (FruitLocation.season_start loc)
                 (FruitLocation.season_stop loc)
            then loc :: seasonal_locations
            else seasonal_locations)
  end.

(** The clock is read for each location of the filter, inside
    [get_types], for [current_month] and for [current_month_name], each
    time later than the time before. *)
Definition get_seasonal_fruits (rt : runtime) (location : string)
    (radius_km : Z) : T seasonal_response :=
  match LocationHelper.geocode_location rt location with
  | None =>
      tret (SeasonalNotFound
              ("Could not find location: " ++ location)%string location)
  | Some (lat, lng) =>
      let* locations :=
        await (get_locations (rt_FruitLocation_new rt)
                 lat lng radius_km None 100) in
      let* seasonal_locations := seasonal_filter rt locations in
      match seasonal_locations with
      | [] =>
          let* reported_month := now_month rt in
          let* _ := elapse rt in
          let* current_month_name := now_month_name rt in
          tret (SeasonalResults location (lat, lng) radius_km
                  reported_month current_month_name 0 [])
      | _ :: _ =>
          let* all_types :=
            await (get_types (rt_FruitType_new rt) (rt_lower rt) None) in
          let* _ := elapse rt in
          let by_type := group_by_type seasonal_locations in
          let* fruit_types :=
            settle (fruit_groups rt lat lng all_types by_type []) in
          let fruit_types := sort_by closest_distance_km fruit_types in
          let* reported_month := now_month rt in
          let* _ := elapse rt in
          let* current_month_name := now_month_name rt in
          tret (SeasonalResults location (lat, lng) radius_km
                  reported_month current_month_name
                  (Z.of_nat (length seasonal_locations)) fruit_types)
      end
  end.

(** The number of entries over all groups. *)
Definition grouped_count (by_type : list (Z * list FruitLocation.t)) : nat :=
  fold_right (fun entry n => (length (snd entry) + n)%nat) 0%nat by_type.

(** The number of type ids over all locations. *)
Definition type_id_count (locations : list FruitLocation.t) : nat :=
  fold_right (fun loc n => (length (FruitLocation.type_ids loc) + n)%nat)
             0%nat locations.

(** Every group is non-empty and holds only locations of [locations]
    that carry the group's type id. *)
Definition groups_sound (locations : list FruitLocation.t)
    (by_type : list (Z * list FruitLocation.t)) : Prop :=
  forall type_id locs,
    In (type_id, locs) by_type ->
    locs <> []
    /\ forall loc, In loc locs ->
         In loc locations /\ In type_id (FruitLocation.type_ids loc).

(** The locations of [locations] that are in season in [month]. *)
Definition in_season_now (month : Z) (loc : FruitLocation.t) : bool :=
  SeasonHelper.is_in_season month
    (FruitLocation.season_start loc) (FruitLocation.season_stop loc).

(** The sum of [location_count] over the groups. *)
Definition total_listed (groups : list fruit_group) : Z :=
  fold_right (fun group n => location_count group + n) 0 groups.

(** A location at the origin that carries the type id 1, what
    [get_seasonal_fruits] lists for it under [sample_runtime], and the
    fruit type it is listed under when the types are [[apple_type]]. *)
Definition typed_item : json :=
  JObj [("id"%string, JInt 4); ("lat"%string, JInt 0); ("lng"%string, JInt 0);
        ("type_ids"%string, JList [JInt 1])].

Definition typed_location : FruitLocation.t :=
  FruitLocation.mk 4 0%R 0%R [1] "" 0 None None.

Definition typed_seasonal : seasonal_location :=
  {| seasonal_id := 4;
     seasonal_coordinates := (0%R, 0%R);
     seasonal_distance_km := 0%R;
     seasonal_description := "";
     seasonal_maps_link :=
       "https://www.google.com/maps/search/?api=1&query=0.0,0.0" |}.

Definition apple_group : fruit_group :=
  {| group_type_id := 1;
     group_name := "Apple";
     group_scientific_name := "";
     location_count := 1;
     closest_distance_km := 0%R;
     group_locations := [typed_seasonal] |}.

(** A type whose id is 0. *)
Definition zero_id_type : FruitType.t :=
  FruitType.mk 0 "Apple" "" ["Apple"]%string [].

(** A location with both season months given and one of them outside the
    indices of a list of twelve, -11..12. *)
Definition odd_season (loc : FruitLocation.t) : Prop :=
  exists a b,
    FruitLocation.season_start loc = Some a
    /\ FruitLocation.season_stop loc = Some b
    /\ (a < -11 \/ 12 < a \/ b < -11 \/ 12 < b).

(** The cache entry of [s], if it has a timestamp, is younger than the
    cache duration at [now]. *)
Definition cache_fresh_at (s : FallingFruitAPI) (now : datetime) : Prop :=
  forall stamp,
    _cache_timestamp s = Some stamp -> now - stamp < _cache_duration s.

(** The [count] clock readings that follow [start] fall in the month of
    [start]. *)
Definition month_steady (rt : runtime) (start : datetime) (count : nat)
    : Prop :=
  forall n,
    (n <= count)%nat ->
    month_of rt (Nat.iter n (next_now rt) start) = month_of rt start.

(** * Properties *)

(** ** The distance calculator *)

Section Distance.
Import Haversine.
Local Open Scope R_scope.

(** *** Range of the haversine quantity *)

Lemma sin_half_sq (t : R) : sin (t / 2) ^ 2 = (1 - cos t) / 2.
Proof.
  pose proof (cos_2a_sin (t / 2)) as H.
  replace (2 * (t / 2)) with t in H by field.
  rewrite H. field.
Qed.

Lemma sin_sq_range (t : R) : 0 <= sin t ^ 2 <= 1.
Proof.
  pose proof (sin2_cos2 t) as H. unfold Rsqr in H.
  split; nra.
Qed.

Lemma hav_a_range (lat1 lng1 lat2 lng2 : R) :
  0 <= hav_a lat1 lng1 lat2 lng2 <= 1.
Proof.
  unfold hav_a.
  rewrite (sin_half_sq (lat2 - lat1)), cos_minus.
  pose proof (sin_sq_range ((lng2 - lng1) / 2)) as Hs.
  set (s := sin ((lng2 - lng1) / 2) ^ 2) in *.
  pose proof (COS_bound (lat2 - lat1)) as Hm. rewrite cos_minus in Hm.
  pose proof (COS_bound (lat2 + lat1)) as Hp. rewrite cos_plus in Hp.
  set (c1 := cos lat1) in *. set (c2 := cos lat2) in *.
  set (s1 := sin lat1) in *. set (s2 := sin lat2) in *.
  destruct Hs as [Hs0 Hs1], Hm as [Hm0 Hm1], Hp as [Hp0 Hp1].
  split; nra.
Qed.

Lemma hav_a_sym (lat1 lng1 lat2 lng2 : R) :
  hav_a lat1 lng1 lat2 lng2 = hav_a lat2 lng2 lat1 lng1.
Proof.
  unfold hav_a.
  replace ((lat1 - lat2) / 2) with (- ((lat2 - lat1) / 2)) by field.
  replace ((lng1 - lng2) / 2) with (- ((lng2 - lng1) / 2)) by field.
  rewrite !sin_neg. ring.
Qed.

Lemma hav_a_same (lat lng : R) : hav_a lat lng lat lng = 0.
Proof.
  unfold hav_a.
  replace ((lat - lat) / 2) with 0 by field.
  replace ((lng - lng) / 2) with 0 by field.
  rewrite sin_0. ring.
Qed.

Lemma math_sqrt_ok (x : R) : 0 <= x -> math_sqrt x = Ok (sqrt x).
Proof.
  intros Hx. unfold math_sqrt. destruct (Rlt_dec x 0); [lra | reflexivity].
Qed.

Lemma math_asin_ok (x : R) : -1 <= x <= 1 -> math_asin x = Ok (asin x).
Proof.
  intros [Hl Hu]. unfold math_asin.
  destruct (Rlt_dec x (-1)); [lra |].
  destruct (Rlt_dec 1 x); [lra | reflexivity].
Qed.

Lemma sqrt_unit (x : R) : 0 <= x <= 1 -> 0 <= sqrt x <= 1.
Proof.
  intros [H0 H1]. split.
  - apply sqrt_pos.
  - rewrite <- sqrt_1. apply sqrt_le_1_alt. exact H1.
Qed.

(** The closed form computed on every input: no domain error occurs. *)
Lemma _calculate_distance_value (lat1 lng1 lat2 lng2 : R) :
  _calculate_distance lat1 lng1 lat2 lng2 =
  Ok (6371 * (2 * asin (sqrt
        (hav_a (radians lat1) (radians lng1) (radians lat2) (radians lng2))))).
Proof.
  unfold _calculate_distance.
  pose proof (hav_a_range (radians lat1) (radians lng1)
                          (radians lat2) (radians lng2)) as Ha.
  rewrite (math_sqrt_ok _ (proj1 Ha)). cbn [res_bind].
  rewrite (math_asin_ok _).
  - reflexivity.
  - pose proof (sqrt_unit _ Ha). lra.
Qed.

Lemma _calculate_distance_same (lat lng : R) :
  _calculate_distance lat lng lat lng = Ok 0.
Proof.
  rewrite _calculate_distance_value, hav_a_same, sqrt_0, asin_0.
  f_equal. ring.
Qed.

Lemma _calculate_distance_sym (lat1 lng1 lat2 lng2 : R) :
  _calculate_distance lat1 lng1 lat2 lng2 =
  _calculate_distance lat2 lng2 lat1 lng1.
Proof.
  rewrite !_calculate_distance_value.
  rewrite (hav_a_sym (radians lat1)). reflexivity.
Qed.

(** Two points on the equator, half a turn apart. *)
Lemma _calculate_distance_antipodal :
  _calculate_distance 0 0 0 180 = Ok (6371 * PI).
Proof.
  rewrite _calculate_distance_value. unfold hav_a, radians.
  replace ((0 * (PI / 180) - 0 * (PI / 180)) / 2) with 0 by field.
  replace ((180 * (PI / 180) - 0 * (PI / 180)) / 2) with (PI / 2) by field.
  replace (0 * (PI / 180)) with 0 by field.
  rewrite sin_0, cos_0, sin_PI2.
  replace (0 ^ 2 + 1 * 1 * 1 ^ 2) with 1 by ring.
  rewrite sqrt_1, asin_1. f_equal. field.
Qed.

(** On binary64 numbers the call raises whenever the quantity it
    computed is below zero. *)
Lemma binary64_distance_raises (m : Binary64.libm)
    (lat1 lng1 lat2 lng2 a : PrimFloat.float) :
  Binary64.hav_a m (Binary64.radians lat1) (Binary64.radians lng1)
                   (Binary64.radians lat2) (Binary64.radians lng2) = Ok a ->
  PrimFloat.ltb a 0 = true ->
  Binary64._calculate_distance m lat1 lng1 lat2 lng2
  = Raise (ValueError "math domain error").
Proof.
  intros Ha Hneg. unfold Binary64._calculate_distance.
  rewrite Ha. cbn [res_bind]. unfold Binary64.math_sqrt.
  now rewrite Hneg.
Qed.

(** On binary64 numbers a distance is returned only when the quantity is
    not below zero, and it is 6371 times twice the arcsine of its square
    root. *)
Lemma binary64_distance_returns (m : Binary64.libm)
    (lat1 lng1 lat2 lng2 distance : PrimFloat.float) :
  Binary64._calculate_distance m lat1 lng1 lat2 lng2 = Ok distance ->
  exists a c,
    Binary64.hav_a m (Binary64.radians lat1) (Binary64.radians lng1)
                     (Binary64.radians lat2) (Binary64.radians lng2) = Ok a
    /\ PrimFloat.ltb a 0 = false
    /\ Binary64.math_asin m (PrimFloat.sqrt a) = Ok c
    /\ distance = PrimFloat.mul 6371 (PrimFloat.mul 2 c).
Proof.
  unfold Binary64._calculate_distance.
  destruct (Binary64.hav_a m _ _ _ _) as [a |]; [| discriminate].
  cbn [res_bind]. unfold Binary64.math_sqrt.
  destruct (PrimFloat.ltb a 0) eqn:Hneg; [discriminate |].
  cbn [res_bind].
  destruct (Binary64.math_asin m (PrimFloat.sqrt a)) as [c |] eqn:Hc;
    [| discriminate].
  cbn [res_bind]. intros [= <-]. now exists a, c.
Qed.

(** C9, the claim as stated fails.  Between the points (89, 0) and
    (91, 180), with the sines, squares and cosines the C library returns
    there, the haversine quantity comes out as -2^-64 and [math.sqrt]
    raises: the calculation is not total on finite inputs. *)
Lemma calculate_distance_not_total_counterexample :
  Binary64.hav_a Binary64.glibc_values
    (Binary64.radians 89) (Binary64.radians 0)
    (Binary64.radians 91) (Binary64.radians 180)
  = Ok (-0x1p-64)%float
  /\ Binary64._calculate_distance Binary64.glibc_values 89 0 91 180
     = Raise (ValueError "math domain error").
Proof. split; vm_compute; reflexivity. Qed.

(** C9, amended.  A distance the call returns is 6371 times twice the
    arcsine of the square root of the haversine quantity, in exact
    arithmetic and on binary64 numbers.  The call does not return on
    every finite input: on binary64 numbers it returns only when the
    quantity is not below zero, and when rounding leaves the quantity
    below zero, [math.sqrt] raises [ValueError].  Read in exact real
    arithmetic, the distance from a point to itself is 0 and the distance
    is symmetric in its two points. *)
Theorem calculate_distance_zero_symmetric :
  (forall lat1 lng1 lat2 lng2 distance,
      _calculate_distance lat1 lng1 lat2 lng2 = Ok distance ->
      distance
      = 6371 * (2 * asin (sqrt
          (hav_a (radians lat1) (radians lng1)
                 (radians lat2) (radians lng2)))))
  /\ (forall m lat1 lng1 lat2 lng2 distance,
         Binary64._calculate_distance m lat1 lng1 lat2 lng2 = Ok distance ->
         exists a c,
           Binary64.hav_a m (Binary64.radians lat1) (Binary64.radians lng1)
                            (Binary64.radians lat2) (Binary64.radians lng2)
           = Ok a
           /\ PrimFloat.ltb a 0 = false
           /\ Binary64.math_asin m (PrimFloat.sqrt a) = Ok c
           /\ distance = PrimFloat.mul 6371 (PrimFloat.mul 2 c))
  /\ (forall m lat1 lng1 lat2 lng2 a,
         Binary64.hav_a m (Binary64.radians lat1) (Binary64.radians lng1)
                          (Binary64.radians lat2) (Binary64.radians lng2)
         = Ok a ->
         PrimFloat.ltb a 0 = true ->
         Binary64._calculate_distance m lat1 lng1 lat2 lng2
         = Raise (ValueError "math domain error"))
  /\ (forall lat lng, _calculate_distance lat lng lat lng = Ok 0)
  /\ (forall lat1 lng1 lat2 lng2,
         _calculate_distance lat1 lng1 lat2 lng2 =
         _calculate_distance lat2 lng2 lat1 lng1).
Proof.
  split; [| split; [| split; [| split]]].
  - intros lat1 lng1 lat2 lng2 distance Hreturned.
    rewrite _calculate_distance_value in Hreturned.
    now injection Hreturned as <-.
  - exact binary64_distance_returns.
  - exact binary64_distance_raises.
  - exact _calculate_distance_same.
  - exact _calculate_distance_sym.
Qed.

Lemma calculate_distance_zero_symmetric_witness :
  6371 * PI
  = 6371 * (2 * asin (sqrt
      (hav_a (radians 0) (radians 0) (radians 0) (radians 180))))
  /\ Binary64._calculate_distance Binary64.glibc_values 89 0 91 180
     = Raise (ValueError "math domain error").
Proof.
  split.
  - apply (proj1 calculate_distance_zero_symmetric 0 0 0 180 (6371 * PI)
             _calculate_distance_antipodal).
  - apply (proj1 (proj2 (proj2 calculate_distance_zero_symmetric))
             Binary64.glibc_values 89%float 0%float 91%float 180%float
             (-0x1p-64)%float);
      vm_compute; reflexivity.
Defined.

End Distance.

(** ** Strings and loops *)

Lemma prefix_spec (needle hay : string) :
  String.prefix needle hay = true <->
  exists after, hay = (needle ++ after)%string.
Proof.
  revert hay. induction needle as [| c needle IH]; intros hay.
  - split; [intros _; exists hay; reflexivity | intros _; now destruct hay].
  - destruct hay as [| d hay]; cbn [String.prefix String.append].
    + split; [discriminate | intros [after H]; discriminate].
    + destruct (Ascii.ascii_dec c d) as [-> | Hne].
      * rewrite IH. split; intros [after H]; exists after.
        -- now rewrite H.
        -- now injection H.
      * split; [discriminate |].
        intros [after H]. injection H as H1 H2. congruence.
Qed.

Lemma str_contains_spec (needle hay : string) :
  str_contains needle hay = true <-> is_substring needle hay.
Proof.
  unfold is_substring. induction hay as [| d hay IH].
  - cbn [str_contains]. rewrite orb_false_r, prefix_spec. split.
    + intros [after H]. exists EmptyString, after. exact H.
    + intros [before [after H]]. destruct before as [| b before].
      * exists after. exact H.
      * discriminate.
  - cbn [str_contains]. rewrite orb_true_iff, prefix_spec, IH. split.
    + intros [[after H] | [before [after H]]].
      * exists EmptyString, after. exact H.
      * exists (String d before), after. simpl. now rewrite H.
    + intros [before [after H]]. destruct before as [| b before].
      * left. exists after. exact H.
      * right. simpl in H. injection H as _ H. exists before, after. exact H.
Qed.

Lemma is_substring_refl (s : string) : is_substring s s.
Proof.
  exists EmptyString, EmptyString. simpl.
  induction s as [| c s IH]; simpl; [reflexivity | now rewrite <- IH].
Qed.

(** An appending loop computes the accumulator followed by the kept
    elements. *)
Lemma fold_left_append {A B} (keep : A -> option B)
    (step : list B -> A -> list B)
    (Hstep : forall acc x,
        step acc x = match keep x with
                     | Some y => acc ++ [y]
                     | None => acc
                     end)
    (l : list A) (acc : list B) :
  fold_left step l acc = acc ++ omap keep l.
Proof.
  revert acc. induction l as [| x l IH]; intros acc; simpl.
  - now rewrite app_nil_r.
  - rewrite IH, Hstep. destruct (keep x) as [y |]; simpl.
    + now rewrite <- app_assoc.
    + reflexivity.
Qed.

Lemma omap_filter {A} (test : A -> bool) (l : list A) :
  omap (fun x => if test x then Some x else None) l = List.filter test l.
Proof.
  induction l as [| x l IH]; [reflexivity |].
  cbn [List.filter]. rewrite <- IH. cbn. now destruct (test x).
Qed.

Lemma filter_NoDup {A} (test : A -> bool) (l : list A) :
  List.NoDup l -> List.NoDup (List.filter test l).
Proof.
  induction 1 as [| x l Hx Hl IH]; simpl; [constructor |].
  destruct (test x); [| exact IH].
  constructor; [| exact IH].
  intros Hin. apply List.filter_In in Hin. tauto.
Qed.

Lemma first_type_spec (test : FruitType.t -> bool)
    (all_types : list FruitType.t) :
  match first_type test all_types with
  | Some fruit_type =>
      first_such (fun t => test t = true) all_types fruit_type
  | None => forall t, In t all_types -> test t = false
  end.
Proof.
  induction all_types as [| t rest IH]; simpl.
  - tauto.
  - destruct (test t) eqn:Et.
    + exists [], rest. simpl. tauto.
    + destruct (first_type test rest) as [found |].
      * destruct IH as [before [after [Heq [Hfound Hbefore]]]].
        exists (t :: before), after. rewrite Heq. split; [reflexivity |].
        split; [exact Hfound |].
        intros y [<- | Hy]; [congruence | now apply Hbefore].
      * intros y [<- | Hy]; [exact Et | now apply IH].
Qed.

Lemma py_slice_to_length {A} (seq : list A) (stop : Z) :
  0 <= stop -> Z.of_nat (length (py_slice_to seq stop)) <= stop.
Proof.
  intros Hstop. unfold py_slice_to.
  destruct (0 <=? stop) eqn:E; [| lia].
  rewrite length_take. lia.
Qed.

Lemma py_slice_to_sublist {A} (seq : list A) (stop : Z) :
  sublist (py_slice_to seq stop) seq.
Proof.
  unfold py_slice_to. destruct (0 <=? stop); apply sublist_take.
Qed.

(** ** The taxonomy parser *)

Section Parser.

Variable FruitType_new :
  json -> json -> json -> list json -> list json -> res FruitType.t.

Lemma parse_types_omap (data : list json) :
  parse_types FruitType_new data = omap (fun item => to_option (parse_type FruitType_new item)) data.
Proof.
  unfold parse_types.
  rewrite (fold_left_append (fun item => to_option (parse_type FruitType_new item))).
  - reflexivity.
  - intros acc item. unfold types_step.
    now destruct (parse_type FruitType_new item).
Qed.

Lemma parse_type_without_id (fields : list (string * json)) :
  dict_get "id" fields = None ->
  parse_type FruitType_new (JObj fields) = Raise (KeyError "id").
Proof.
  intros H. unfold parse_type. now rewrite H.
Qed.

Lemma extend_common_names_flatten (by_lang : list (string * json))
    (acc : list json) :
  fold_left extend_common_names by_lang acc =
  acc ++ flat_map (fun entry => listed_names (snd entry)) by_lang.
Proof.
  revert acc. induction by_lang as [| entry by_lang IH]; intros acc; simpl.
  - now rewrite app_nil_r.
  - rewrite IH. unfold extend_common_names, listed_names.
    destruct (snd entry); rewrite ?app_nil_l; try reflexivity.
    now rewrite app_assoc.
Qed.

Lemma collect_common_names_flatten (fields by_lang : list (string * json)) :
  dict_get "common_names" fields = Some (JObj by_lang) ->
  collect_common_names fields =
  flat_map (fun entry => listed_names (snd entry)) by_lang.
Proof.
  intros H. unfold collect_common_names. rewrite H.
  now rewrite extend_common_names_flatten.
Qed.

Lemma parse_type_typed (fields : list (string * json)) (ident : Z)
    (common scientific : list string) :
  accepts_typed FruitType_new ->
  dict_get "id" fields = Some (JInt ident) ->
  collect_common_names fields = map JStr common ->
  collect_scientific_names fields = map JStr scientific ->
  parse_type FruitType_new (JObj fields) =
  Ok (FruitType.mk ident (display_name common scientific)
                   (List.hd ""%string scientific) common scientific).
Proof.
  intros Hnew Hid Hc Hs. unfold parse_type.
  rewrite Hid, Hc, Hs.
  destruct common as [| c common], scientific as [| s scientific];
    cbn [map display_name List.hd].
  - apply (Hnew ident "Unknown"%string ""%string [] []).
  - apply (Hnew ident s s [] (s :: scientific)).
  - apply (Hnew ident c ""%string (c :: common) []).
  - apply (Hnew ident c s (c :: common) (s :: scientific)).
Qed.

End Parser.

Lemma strict_list_str (names : list string) :
  strict_list strict_str (map JStr names) = Ok names.
Proof.
  induction names as [| n names IH]; simpl; [reflexivity |].
  now rewrite IH.
Qed.

Lemma strict_FruitType_accepts_typed : accepts_typed strict_FruitType.
Proof.
  intros ident name scientific_name common scientific.
  unfold strict_FruitType. simpl.
  now rewrite !strict_list_str.
Qed.

(** C7.  A record without the identifier field raises inside the [try]
    block; the parsed collection is exactly the sequence of records that
    construct a [FruitType], in source order; and a record that raises is
    skipped without touching the records before and after it. *)
Theorem parse_types_skips_malformed FruitType_new :
  (forall fields,
      dict_get "id" fields = None ->
      parse_type FruitType_new (JObj fields) = Raise (KeyError "id"))
  /\ (forall data,
         parse_types FruitType_new data =
         omap (fun item => to_option (parse_type FruitType_new item)) data)
  /\ (forall before bad after e,
         parse_type FruitType_new bad = Raise e ->
         parse_types FruitType_new (before ++ bad :: after) =
         parse_types FruitType_new before ++ parse_types FruitType_new after).
Proof.
  split; [| split].
  - apply parse_type_without_id.
  - apply parse_types_omap.
  - intros before bad after e Hbad.
    rewrite !parse_types_omap, omap_app. cbn. now rewrite Hbad.
Qed.

Lemma parse_types_skips_malformed_witness :
  parse_types strict_FruitType [apple_record; nameless_record; apple_record]
  = [apple_parsed; apple_parsed].
Proof.
  destruct (parse_types_skips_malformed strict_FruitType)
    as [Hid [_ Hskip]].
  apply (Hskip [apple_record] nameless_record [apple_record]
               (KeyError "id")).
  apply Hid. reflexivity.
Defined.

(** C5.  For a constructor that accepts well-typed fields: the common
    names are the concatenation, in order, of the name lists of all
    language entries; the scientific names are copied; the display name is
    the first common name, else the first scientific name, else
    ["Unknown"]; and the sample record parses to "Apple" /
    "Malus domestica" with the three flattened common names. *)
Theorem parse_type_flattens_names FruitType_new :
  accepts_typed FruitType_new ->
  (forall fields by_lang,
      dict_get "common_names" fields = Some (JObj by_lang) ->
      collect_common_names fields =
      flat_map (fun entry => listed_names (snd entry)) by_lang)
  /\ (forall fields names,
         dict_get "scientific_names" fields = Some (JList names) ->
         collect_scientific_names fields = names)
  /\ (forall fields ident common scientific,
         dict_get "id" fields = Some (JInt ident) ->
         collect_common_names fields = map JStr common ->
         collect_scientific_names fields = map JStr scientific ->
         parse_type FruitType_new (JObj fields) =
         Ok (FruitType.mk ident (display_name common scientific)
                          (List.hd ""%string scientific) common scientific))
  /\ parse_type FruitType_new apple_record = Ok apple_parsed.
Proof.
  intros Hnew. split; [| split; [| split]].
  - apply collect_common_names_flatten.
  - intros fields names H. unfold collect_scientific_names. now rewrite H.
  - intros fields ident common scientific. now apply parse_type_typed.
  - apply (parse_type_typed FruitType_new _ 14
             ["Apple"; "Crabapple"; "Pomme"]%string
             ["Malus domestica"]%string Hnew); reflexivity.
Qed.

Lemma parse_type_flattens_names_witness :
  parse_type strict_FruitType apple_record = Ok apple_parsed.
Proof.
  apply (parse_type_flattens_names strict_FruitType).
  exact strict_FruitType_accepts_typed.
Defined.

(** ** The type cache *)

Section Cache.

Variable FruitType_new :
  json -> json -> json -> list json -> list json -> res FruitType.t.

Lemma cache_lookup_valid (s : FallingFruitAPI) (now : datetime)
    (cache : list FruitType.t) :
  _cache_duration s = timedelta_hours 24 ->
  cache_valid s now cache ->
  cache_lookup s now = Some cache.
Proof.
  intros Hd [stamp [Hc [Ht Hage]]]. unfold cache_lookup.
  rewrite Hc, Ht, Hd.
  destruct (now - stamp <? timedelta_hours 24) eqn:E; [reflexivity | lia].
Qed.

Lemma cache_lookup_stale (s : FallingFruitAPI) (now : datetime) :
  _cache_duration s = timedelta_hours 24 ->
  cache_stale s now ->
  cache_lookup s now = None.
Proof.
  intros Hd Hstale. unfold cache_lookup.
  destruct (_types_cache s) as [cache |] eqn:Hc; [| reflexivity].
  destruct (_cache_timestamp s) as [stamp |] eqn:Ht; [| reflexivity].
  rewrite Hd.
  destruct Hstale as [H | [H | [stamp' [H Hage]]]]; try congruence.
  assert (stamp' = stamp) as -> by congruence.
  destruct (now - stamp <? timedelta_hours 24) eqn:E; [lia | reflexivity].
Qed.

Lemma cache_valid_or_stale (s : FallingFruitAPI) (now : datetime) :
  (exists cache, cache_valid s now cache) \/ cache_stale s now.
Proof.
  unfold cache_valid, cache_stale.
  destruct (_types_cache s) as [cache |]; [| now right; left].
  destruct (_cache_timestamp s) as [stamp |]; [| now right; right; left].
  destruct (Z_lt_le_dec (now - stamp) (timedelta_hours 24)) as [Hlt | Hge].
  - left. exists cache, stamp. tauto.
  - right. right. right. exists stamp. tauto.
Qed.

Lemma get_all_types_unset (w : world) :
  truthy_str (api_key (self w)) = false ->
  get_all_types FruitType_new w = (Raise (ValueError not_set_msg), w).
Proof.
  intros H. unfold get_all_types, bind, get_self, raise.
  destruct (api_key (self w)) as [[| c key] |]; try reflexivity.
  discriminate.
Qed.

Lemma get_all_types_hit (w : world) (key : string)
    (cache : list FruitType.t) :
  configured (self w) key ->
  cache_valid (self w) (clock w) cache ->
  get_all_types FruitType_new w = (Ok cache, w).
Proof.
  intros [Hkey [Hne Hd]] Hvalid.
  unfold get_all_types, bind, get_self, datetime_now, ret.
  rewrite Hkey. destruct key as [| c key]; [congruence |].
  now rewrite (cache_lookup_valid _ _ _ Hd Hvalid).
Qed.

(** On a stale cache the method issues the request and continues with
    the outcome. *)
Lemma get_all_types_miss (w : world) (key : string) :
  configured (self w) key ->
  cache_stale (self w) (clock w) ->
  get_all_types FruitType_new w =
  (let! data := http_get_json (types_request (self w) key) in
   let! items := lift (py_iter data) in
   let types := parse_types FruitType_new items in
   do! store_cache types (clock w) in
   ret types) w.
Proof.
  intros [Hkey [Hne Hd]] Hstale.
  unfold get_all_types at 1. unfold bind at 1. unfold get_self.
  rewrite Hkey. destruct key as [| c key]; [congruence |].
  unfold bind at 1. unfold datetime_now.
  now rewrite (cache_lookup_stale _ _ Hd Hstale).
Qed.

Lemma get_all_types_miss_sent (w : world) (key : string) :
  configured (self w) key ->
  cache_stale (self w) (clock w) ->
  sent (snd (get_all_types FruitType_new w)) =
  sent w ++ [types_request (self w) key].
Proof.
  intros Hconf Hstale. rewrite (get_all_types_miss w key Hconf Hstale).
  unfold bind, http_get_json, lift, store_cache, ret.
  destruct (remote w (types_request (self w) key)) as [| data];
    [reflexivity |].
  cbn. destruct (py_iter data); reflexivity.
Qed.

Lemma get_all_types_miss_fails (w : world) (key : string) :
  configured (self w) key ->
  cache_stale (self w) (clock w) ->
  remote w (types_request (self w) key) = Fails ->
  fst (get_all_types FruitType_new w) = Raise HTTPError
  /\ self (snd (get_all_types FruitType_new w)) = self w.
Proof.
  intros Hconf Hstale Hfail. rewrite (get_all_types_miss w key Hconf Hstale).
  unfold bind, http_get_json. rewrite Hfail. cbn. tauto.
Qed.

Lemma get_all_types_miss_returns (w : world) (key : string) (data : json)
    (items : list json) :
  configured (self w) key ->
  cache_stale (self w) (clock w) ->
  remote w (types_request (self w) key) = Returns data ->
  py_iter data = Ok items ->
  get_all_types FruitType_new w =
  (Ok (parse_types FruitType_new items),
   {| self := {| base_url := base_url (self w);
                 api_key := api_key (self w);
                 _types_cache := Some (parse_types FruitType_new items);
                 _cache_timestamp := Some (clock w);
                 _cache_duration := _cache_duration (self w) |};
      clock := clock w;
      remote := remote w;
      sent := sent w ++ [types_request (self w) key] |}).
Proof.
  intros Hconf Hstale Hdata Hitems.
  rewrite (get_all_types_miss w key Hconf Hstale).
  unfold bind, http_get_json, lift, store_cache, ret.
  rewrite Hdata. cbn. rewrite Hitems. reflexivity.
Qed.

End Cache.

Lemma fresh_world_configured (now : datetime) (answer : http_outcome) :
  configured (self (fresh_world now answer)) "secret".
Proof. repeat split. discriminate. Qed.

Lemma fresh_world_stale (now : datetime) (answer : http_outcome) :
  cache_stale (self (fresh_world now answer)) (clock (fresh_world now answer)).
Proof. left. reflexivity. Qed.

Lemma aged_world_configured (answer : http_outcome) :
  configured (self (aged_world answer)) "secret".
Proof. repeat split. discriminate. Qed.

Lemma aged_world_stale (answer : http_outcome) :
  cache_stale (self (aged_world answer)) (clock (aged_world answer)).
Proof.
  right. right. exists 0. split; [reflexivity |].
  unfold aged_world, timedelta_hours. simpl. lia.
Qed.

(** C2.  For a client holding a key: a cache entry younger than 24 hours
    is returned as it is, and the world (the log of requests included) is
    unchanged; a request for the types collection is issued exactly when
    the slot is absent or at least 24 hours old; when that request
    succeeds the parsed collection is returned and stored together with
    the time of the call; and a second call less than 24 hours after the
    first is served from that entry, so that the two calls issue one
    request. *)
Theorem get_all_types_cache_policy FruitType_new (w : world) (key : string) :
  configured (self w) key ->
  (forall cache,
      cache_valid (self w) (clock w) cache ->
      get_all_types FruitType_new w = (Ok cache, w))
  /\ (cache_stale (self w) (clock w) <->
      sent (snd (get_all_types FruitType_new w)) =
      sent w ++ [types_request (self w) key])
  /\ (forall data items,
         cache_stale (self w) (clock w) ->
         remote w (types_request (self w) key) = Returns data ->
         py_iter data = Ok items ->
         let types := parse_types FruitType_new items in
         let w' := snd (get_all_types FruitType_new w) in
         fst (get_all_types FruitType_new w) = Ok types
         /\ _types_cache (self w') = Some types
         /\ _cache_timestamp (self w') = Some (clock w)
         /\ forall now' service',
              now' - clock w < timedelta_hours 24 ->
              get_all_types FruitType_new (later w' now' service') =
              (Ok types, later w' now' service')
              /\ sent (later w' now' service') =
                 sent w ++ [types_request (self w) key]).
Proof.
  intros Hconf. split; [| split].
  - intros cache Hvalid. now apply (get_all_types_hit _ w key).
  - split.
    + now apply get_all_types_miss_sent.
    + intros Hsent.
      destruct (cache_valid_or_stale (self w) (clock w))
        as [[cache Hvalid] | Hstale]; [| exact Hstale].
      rewrite (get_all_types_hit _ w key cache Hconf Hvalid) in Hsent.
      apply (f_equal (@length request)) in Hsent.
      rewrite length_app in Hsent. simpl in Hsent. lia.
  - intros data items Hstale Hdata Hitems types w'.
    subst w'.
    rewrite (get_all_types_miss_returns _ w key data items
               Hconf Hstale Hdata Hitems).
    cbn [fst snd self _types_cache _cache_timestamp].
    repeat split.
    apply (get_all_types_hit _ _ key).
    + destruct Hconf as [Hkey [Hne Hd]]. now repeat split.
    + exists (clock w). now repeat split.
Qed.

Lemma get_all_types_cache_policy_witness :
  get_all_types strict_FruitType
    (later (snd (get_all_types strict_FruitType
                   (fresh_world 0 (Returns (JList [apple_record])))))
           (timedelta_hours 23) (fun _ => Fails))
  = (Ok [apple_parsed],
     later (snd (get_all_types strict_FruitType
                   (fresh_world 0 (Returns (JList [apple_record])))))
           (timedelta_hours 23) (fun _ => Fails)).
Proof.
  destruct (get_all_types_cache_policy strict_FruitType
              (fresh_world 0 (Returns (JList [apple_record]))) "secret"
              (fresh_world_configured _ _)) as [_ [_ Hfetch]].
  destruct (Hfetch (JList [apple_record]) [apple_record]
              (fresh_world_stale _ _) eq_refl eq_refl)
    as [_ [_ [_ Hagain]]].
  apply (Hagain (timedelta_hours 23) (fun _ => Fails)).
  reflexivity.
Defined.

(** C6.  Without a key, or with the empty key, [get_all_types] raises the
    configuration error and leaves the world, the log of requests
    included, as it was.  When the remote service does not answer with
    success, the client's fields, the cache entry and its timestamp
    among them, are unchanged by the call, and the call raises the
    transport error whenever the cache could not serve it. *)
Theorem get_all_types_failure_modes FruitType_new (w : world) :
  (truthy_str (api_key (self w)) = false ->
   get_all_types FruitType_new w = (Raise (ValueError not_set_msg), w))
  /\ (forall key,
         configured (self w) key ->
         remote w (types_request (self w) key) = Fails ->
         self (snd (get_all_types FruitType_new w)) = self w
         /\ (cache_stale (self w) (clock w) ->
             fst (get_all_types FruitType_new w) = Raise HTTPError)).
Proof.
  split.
  - apply get_all_types_unset.
  - intros key Hconf Hfail.
    destruct (cache_valid_or_stale (self w) (clock w))
      as [[cache Hvalid] | Hstale].
    + split.
      * now rewrite (get_all_types_hit _ w key cache Hconf Hvalid).
      * intros Hstale.
        now apply (get_all_types_miss_fails _ w key).
    + split; intros; now apply (get_all_types_miss_fails _ w key).
Qed.

Lemma get_all_types_failure_modes_witness :
  self (snd (get_all_types strict_FruitType (aged_world Fails)))
  = self (aged_world Fails)
  /\ fst (get_all_types strict_FruitType (aged_world Fails))
     = Raise HTTPError
  /\ get_all_types strict_FruitType (with_key None (aged_world Fails))
     = (Raise (ValueError not_set_msg), with_key None (aged_world Fails)).
Proof.
  destruct (get_all_types_failure_modes strict_FruitType (aged_world Fails))
    as [_ Hfail].
  destruct (Hfail "secret"%string (aged_world_configured Fails) eq_refl)
    as [Hself Hraise].
  split; [exact Hself |].
  split; [exact (Hraise (aged_world_stale Fails)) |].
  apply (proj1 (get_all_types_failure_modes strict_FruitType
                  (with_key None (aged_world Fails)))).
  reflexivity.
Defined.

(** ** Type search *)

Lemma filter_sublist {A} (test : A -> bool) (l : list A) :
  sublist (List.filter test l) l.
Proof.
  induction l as [| x l IH]; simpl; [constructor |].
  destruct (test x); now constructor.
Qed.

Lemma first_such_iff {A} (P Q : A -> Prop) (l : list A) (x : A) :
  (forall y, P y <-> Q y) -> first_such P l x -> first_such Q l x.
Proof.
  intros HPQ [before [after [Heq [Hx Hbefore]]]].
  exists before, after. split; [exact Heq |]. split; [now apply HPQ |].
  intros y Hy HQ. apply (Hbefore y Hy). now apply HPQ.
Qed.

Section Search.

Variable FruitType_new :
  json -> json -> json -> list json -> list json -> res FruitType.t.
Variable lower : string -> string.

Lemma name_equals_spec (name : string) (fruit_type : FruitType.t) :
  name_equals lower (lower name) fruit_type = true <->
  exact_match lower name fruit_type.
Proof.
  unfold name_equals, exact_match. rewrite existsb_exists.
  split; intros [type_name [Hin H]]; exists type_name; split; trivial.
  - now apply String.eqb_eq.
  - now apply String.eqb_eq.
Qed.

Lemma name_matches_spec (query : string) (fruit_type : FruitType.t) :
  name_matches lower (lower query) fruit_type = true <->
  partial_match lower query fruit_type.
Proof.
  unfold name_matches, partial_match. rewrite existsb_exists.
  split; intros [type_name [Hin H]]; exists type_name; split; trivial.
  - now apply str_contains_spec.
  - now apply str_contains_spec.
Qed.

Lemma exact_match_partial (name : string) (fruit_type : FruitType.t) :
  exact_match lower name fruit_type -> partial_match lower name fruit_type.
Proof.
  intros [type_name [Hin H]]. exists type_name. split; [exact Hin |].
  rewrite H. apply is_substring_refl.
Qed.

Lemma filter_loop (query_lower : string) (all_types : list FruitType.t) :
  fold_left (filter_step lower query_lower) all_types [] =
  List.filter (name_matches lower query_lower) all_types.
Proof.
  rewrite (fold_left_append
             (fun t => if name_matches lower query_lower t
                       then Some t else None)).
  - apply omap_filter.
  - intros acc t. unfold filter_step.
    now destruct (name_matches lower query_lower t).
Qed.

Lemma get_types_run (query : option string) (w w' : world)
    (all_types : list FruitType.t) :
  get_all_types FruitType_new w = (Ok all_types, w') ->
  get_types FruitType_new lower query w =
  (Ok (match query with
       | None | Some EmptyString => all_types
       | Some query =>
           List.filter (name_matches lower (lower query)) all_types
       end), w').
Proof.
  intros Hall. unfold get_types, bind. rewrite Hall.
  destruct query as [[| c query] |]; try reflexivity.
  unfold ret. now rewrite filter_loop.
Qed.

Lemma find_fruit_type_by_name_run (name : string) (w w' : world)
    (all_types : list FruitType.t) :
  get_all_types FruitType_new w = (Ok all_types, w') ->
  find_fruit_type_by_name FruitType_new lower name w =
  (Ok (match first_type (name_equals lower (lower name)) all_types with
       | Some fruit_type => Some fruit_type
       | None => first_type (name_matches lower (lower name)) all_types
       end), w').
Proof.
  intros Hall. unfold find_fruit_type_by_name, bind. rewrite Hall.
  destruct (first_type (name_equals lower (lower name)) all_types);
    [reflexivity |].
  now destruct (first_type (name_matches lower (lower name)) all_types).
Qed.

End Search.

Lemma cached_world_run FruitType_new (cache : list FruitType.t) :
  get_all_types FruitType_new (cached_world cache)
  = (Ok cache, cached_world cache).
Proof. reflexivity. Qed.

Lemma ascii_lower_lowers_ascii : lowers_ascii ascii_lower.
Proof. intros s _. reflexivity. Qed.

(** C4.  Once [get_all_types] has returned the taxonomy: without a query,
    or with the empty query, [get_types] returns the taxonomy itself;
    with a non-empty query it returns the entries of the taxonomy that
    have a common or scientific name whose lowercase form contains the
    lowercase query, each entry kept once at its place, in the order of
    the taxonomy. *)
Theorem get_types_filters_in_order FruitType_new lower (w w' : world)
    (all_types : list FruitType.t) :
  get_all_types FruitType_new w = (Ok all_types, w') ->
  get_types FruitType_new lower None w = (Ok all_types, w')
  /\ get_types FruitType_new lower (Some EmptyString) w = (Ok all_types, w')
  /\ forall query,
       query <> EmptyString ->
       exists result,
         get_types FruitType_new lower (Some query) w = (Ok result, w')
         /\ result = List.filter (name_matches lower (lower query)) all_types
         /\ (forall fruit_type,
                name_matches lower (lower query) fruit_type = true <->
                partial_match lower query fruit_type)
         /\ sublist result all_types
         /\ (forall fruit_type,
                In fruit_type result <->
                In fruit_type all_types
                /\ partial_match lower query fruit_type)
         /\ (List.NoDup all_types -> List.NoDup result).
Proof.
  intros Hall. split; [| split].
  - apply (get_types_run _ _ None _ _ _ Hall).
  - apply (get_types_run _ _ (Some EmptyString) _ _ _ Hall).
  - intros query Hquery.
    exists (List.filter (name_matches lower (lower query)) all_types).
    split.
    { rewrite (get_types_run _ _ (Some query) _ _ _ Hall).
      destruct query; [congruence | reflexivity]. }
    split; [reflexivity |].
    split; [apply name_matches_spec |].
    split; [apply filter_sublist |].
    split; [| apply filter_NoDup].
    intros fruit_type. rewrite List.filter_In, name_matches_spec. tauto.
Qed.

Lemma get_types_filters_in_order_witness :
  exists result,
    get_types strict_FruitType ascii_lower (Some "apple"%string)
      (cached_world [apple_type; apple_parsed; crabapple_type])
    = (Ok result, cached_world [apple_type; apple_parsed; crabapple_type])
    /\ result = [apple_type; apple_parsed; crabapple_type].
Proof.
  destruct (get_types_filters_in_order strict_FruitType ascii_lower
              (cached_world [apple_type; apple_parsed; crabapple_type])
              (cached_world [apple_type; apple_parsed; crabapple_type])
              [apple_type; apple_parsed; crabapple_type]
              (cached_world_run _ _)) as [_ [_ Hquery]].
  destruct (Hquery "apple"%string) as [result [Hrun [Hresult _]]].
  - discriminate.
  - exists result. split; [exact Hrun |]. rewrite Hresult. reflexivity.
Defined.

(** C3.  Once [get_all_types] has returned the taxonomy,
    [find_fruit_type_by_name] returns: the first entry of the taxonomy
    with a name equal to the given name up to letter case, when there is
    one; otherwise the first entry with a name containing it up to letter
    case, when there is one; otherwise [None].  With the types "Apple"
    and "Crabapple" cached, in either order, the name "apple" resolves to
    "Apple". *)
Theorem find_fruit_type_by_name_exact_first FruitType_new lower :
  (forall name w w' all_types,
      get_all_types FruitType_new w = (Ok all_types, w') ->
      exists found,
        find_fruit_type_by_name FruitType_new lower name w = (Ok found, w')
        /\ ((exists t, In t all_types /\ exact_match lower name t) ->
            exists t,
              found = Some t
              /\ first_such (exact_match lower name) all_types t)
        /\ ((forall t, In t all_types -> ~ exact_match lower name t) ->
            (exists t, In t all_types /\ partial_match lower name t) ->
            exists t,
              found = Some t
              /\ first_such (partial_match lower name) all_types t)
        /\ ((forall t, In t all_types -> ~ partial_match lower name t) ->
            found = None))
  /\ (lowers_ascii lower ->
      forall w w' all_types,
        all_types = [apple_type; crabapple_type]
        \/ all_types = [crabapple_type; apple_type] ->
        get_all_types FruitType_new w = (Ok all_types, w') ->
        find_fruit_type_by_name FruitType_new lower "apple" w
        = (Ok (Some apple_type), w')).
Proof.
  split.
  - intros name w w' all_types Hall.
    eexists. split; [apply (find_fruit_type_by_name_run _ _ _ _ _ _ Hall) |].
    pose proof (first_type_spec (name_equals lower (lower name)) all_types)
      as Hexact.
    pose proof (first_type_spec (name_matches lower (lower name)) all_types)
      as Hpartial.
    destruct (first_type (name_equals lower (lower name)) all_types)
      as [e |].
    + split; [| split].
      * intros _. exists e. split; [reflexivity |].
        apply (first_such_iff _ _ _ _ (name_equals_spec lower name) Hexact).
      * intros Hnone _. exfalso.
        destruct Hexact as [before [after [Heq [He _]]]].
        apply (Hnone e).
        -- rewrite Heq. apply in_or_app. right. now left.
        -- now apply name_equals_spec.
      * intros Hnone. exfalso.
        destruct Hexact as [before [after [Heq [He _]]]].
        apply (Hnone e).
        -- rewrite Heq. apply in_or_app. right. now left.
        -- apply exact_match_partial. now apply name_equals_spec.
    + split; [| split].
      * intros [t [Hin Ht]]. exfalso.
        apply name_equals_spec in Ht. rewrite (Hexact t Hin) in Ht.
        discriminate.
      * intros _ [t [Hin Ht]].
        destruct (first_type (name_matches lower (lower name)) all_types)
          as [p |].
        -- exists p. split; [reflexivity |].
           apply (first_such_iff _ _ _ _
                    (name_matches_spec lower name) Hpartial).
        -- exfalso. apply name_matches_spec in Ht.
           rewrite (Hpartial t Hin) in Ht. discriminate.
      * intros Hnone.
        destruct (first_type (name_matches lower (lower name)) all_types)
          as [p |]; [| reflexivity].
        exfalso. destruct Hpartial as [before [after [Heq [Hp _]]]].
        apply (Hnone p).
        -- rewrite Heq. apply in_or_app. right. now left.
        -- now apply name_matches_spec.
  - intros Hlower w w' all_types Hcache Hall.
    rewrite (find_fruit_type_by_name_run _ _ _ _ _ _ Hall).
    destruct Hcache as [-> | ->];
      cbn [first_type name_equals name_matches existsb app
           FruitType.all_names FruitType.common_names
           FruitType.scientific_names apple_type crabapple_type];
      rewrite (Hlower "apple"%string eq_refl),
              (Hlower "Apple"%string eq_refl),
              ?(Hlower "Crabapple"%string eq_refl);
      reflexivity.
Qed.

Lemma find_fruit_type_by_name_exact_first_witness :
  find_fruit_type_by_name strict_FruitType ascii_lower "apple"
    (cached_world [crabapple_type; apple_type])
  = (Ok (Some apple_type), cached_world [crabapple_type; apple_type]).
Proof.
  apply (proj2 (find_fruit_type_by_name_exact_first
                  strict_FruitType ascii_lower)
           ascii_lower_lowers_ascii
           _ _ [crabapple_type; apple_type]).
  - right. reflexivity.
  - apply cached_world_run.
Defined.

(** ** The location fetcher *)

Section Locations.

Variable FruitLocation_new : list (string * json) -> res FruitLocation.t.

Lemma locations_loop (lat lng : R) (radius_km : Z) (items : list json) :
  fold_left (locations_step FruitLocation_new lat lng radius_km) items [] =
  omap (kept_location FruitLocation_new lat lng radius_km) items.
Proof.
  rewrite (fold_left_append
             (kept_location FruitLocation_new lat lng radius_km)).
  - reflexivity.
  - intros acc item. unfold locations_step, kept_location.
    destruct (parse_location FruitLocation_new item) as [location |];
      [| reflexivity].
    destruct (radius_km =? 0); [reflexivity |].
    destruct (Haversine._calculate_distance lat lng
                (FruitLocation.lat location) (FruitLocation.lng location))
      as [distance |]; [| reflexivity].
    now destruct (Rle_dec distance (IZR radius_km)).
Qed.

Lemma kept_location_within (lat lng : R) (radius_km : Z) (item : json)
    (location : FruitLocation.t) :
  kept_location FruitLocation_new lat lng radius_km item = Some location ->
  parse_location FruitLocation_new item = Ok location
  /\ radius_km <> 0
  /\ exists distance,
       Haversine._calculate_distance lat lng
         (FruitLocation.lat location) (FruitLocation.lng location)
       = Ok distance
       /\ (distance <= IZR radius_km)%R.
Proof.
  unfold kept_location.
  destruct (parse_location FruitLocation_new item) as [parsed |];
    [| discriminate].
  destruct (radius_km =? 0) eqn:Hzero; [discriminate |].
  destruct (Haversine._calculate_distance lat lng
              (FruitLocation.lat parsed) (FruitLocation.lng parsed))
    as [distance |] eqn:Hd; [| discriminate].
  destruct (Rle_dec distance (IZR radius_km)) as [Hle |]; [| discriminate].
  intros [= <-]. split; [reflexivity |]. split; [lia |].
  exists distance. rewrite Hd. tauto.
Qed.

Lemma kept_sublist_parsed (lat lng : R) (radius_km : Z)
    (items : list json) :
  sublist (omap (kept_location FruitLocation_new lat lng radius_km) items)
          (omap (fun item =>
                   to_option (parse_location FruitLocation_new item)) items).
Proof.
  induction items as [| item items IH]; [constructor |].
  cbn [omap list_omap].
  destruct (kept_location FruitLocation_new lat lng radius_km item)
    as [location |] eqn:Hkept.
  - apply kept_location_within in Hkept as [Hparse _].
    rewrite Hparse. cbn. now constructor.
  - destruct (to_option (parse_location FruitLocation_new item));
      [now constructor | exact IH].
Qed.

(** A call that returns has held a key, sent one request, received an
    iterable body and run the loop over it. *)
Lemma get_locations_returns (lat lng : R) (radius_km : Z)
    (type_id : option Z) (limit : Z) (w w' : world)
    (locations : list FruitLocation.t) :
  get_locations FruitLocation_new lat lng radius_km type_id limit w
  = (Ok locations, w') ->
  exists key data items,
    api_key (self w) = Some key
    /\ remote w (locations_request (self w) key lat lng type_id limit)
       = Returns data
    /\ py_iter data = Ok items
    /\ locations =
       py_slice_to
         (omap (kept_location FruitLocation_new lat lng radius_km) items)
         limit
    /\ w' = after_request w
              (locations_request (self w) key lat lng type_id limit).
Proof.
  unfold get_locations, bind, get_self, raise, http_get_json, lift, ret.
  destruct (api_key (self w)) as [[| c key] |]; try discriminate.
  destruct (remote w _) as [| data] eqn:Hdata; [discriminate |].
  destruct (py_iter data) as [items |] eqn:Hitems; [| discriminate].
  intros [= <- <-]. exists (String c key), data, items.
  rewrite locations_loop. now repeat split.
Qed.

Lemma get_locations_run (lat lng : R) (radius_km : Z)
    (type_id : option Z) (limit : Z) (w : world) (key : string)
    (data : json) (items : list json) :
  api_key (self w) = Some key ->
  key <> EmptyString ->
  remote w (locations_request (self w) key lat lng type_id limit)
  = Returns data ->
  py_iter data = Ok items ->
  get_locations FruitLocation_new lat lng radius_km type_id limit w
  = (Ok (py_slice_to
           (omap (kept_location FruitLocation_new lat lng radius_km) items)
           limit),
     after_request w (locations_request (self w) key lat lng type_id limit)).
Proof.
  intros Hkey Hne Hdata Hitems.
  unfold get_locations, bind, get_self, raise, http_get_json, lift, ret.
  rewrite Hkey. destruct key as [| c key]; [congruence |].
  rewrite Hdata, Hitems, locations_loop. reflexivity.
Qed.

Lemma get_locations_unset (lat lng : R) (radius_km : Z)
    (type_id : option Z) (limit : Z) (w : world) :
  truthy_str (api_key (self w)) = false ->
  get_locations FruitLocation_new lat lng radius_km type_id limit w
  = (Raise (ValueError not_set_msg), w).
Proof.
  intros H. unfold get_locations, bind, get_self, raise.
  destruct (api_key (self w)) as [[| c key] |]; try reflexivity.
  discriminate.
Qed.

End Locations.

(** *** The sample locations *)

Lemma kept_near_item (radius_km : Z) :
  0 < radius_km ->
  kept_location strict_FruitLocation 0 0 radius_km near_item
  = Some near_location.
Proof.
  intros Hr. unfold kept_location.
  change (parse_location strict_FruitLocation near_item)
    with (Ok near_location).
  cbv beta iota.
  destruct (radius_km =? 0) eqn:Hzero; [lia |].
  change (FruitLocation.lat near_location) with 0%R.
  change (FruitLocation.lng near_location) with 0%R.
  rewrite _calculate_distance_same.
  destruct (Rle_dec 0 (IZR radius_km)) as [| Hn]; [reflexivity |].
  exfalso. apply Hn. apply IZR_le. lia.
Qed.

Lemma kept_far_item :
  kept_location strict_FruitLocation 0 0 10 far_item = None.
Proof.
  unfold kept_location.
  change (parse_location strict_FruitLocation far_item)
    with (Ok far_location).
  change (10 =? 0) with false. cbv beta iota.
  change (FruitLocation.lat far_location) with 0%R.
  change (FruitLocation.lng far_location) with 180%R.
  rewrite _calculate_distance_antipodal.
  destruct (Rle_dec (6371 * PI) 10) as [Hle |]; [| reflexivity].
  exfalso. pose proof PI2_1. lra.
Qed.

Lemma get_locations_sample (limit : Z) (items : list json) :
  get_locations strict_FruitLocation 0 0 10 None limit
    (fresh_world 0 (Returns (JList items)))
  = (Ok (py_slice_to (omap (kept_location strict_FruitLocation 0 0 10) items)
                     limit),
     after_request (fresh_world 0 (Returns (JList items)))
       (locations_request (self (fresh_world 0 (Returns (JList items))))
          "secret" 0 0 None limit)).
Proof.
  apply (get_locations_run _ _ _ _ _ _ _ "secret"%string
           (JList items) items); try reflexivity.
  discriminate.
Qed.

Lemma get_locations_near_far :
  get_locations strict_FruitLocation 0 0 10 None 50
    (fresh_world 0 (Returns (JList [near_item; far_item])))
  = (Ok [near_location],
     after_request (fresh_world 0 (Returns (JList [near_item; far_item])))
       (locations_request
          (self (fresh_world 0 (Returns (JList [near_item; far_item]))))
          "secret" 0 0 None 50)).
Proof.
  rewrite get_locations_sample. cbn [omap list_omap].
  rewrite (kept_near_item 10), kept_far_item by lia. reflexivity.
Qed.

(** C1.  Every location that [get_locations] returns lies within the
    radius: its haversine distance from the centre is computed without
    error and does not exceed [radius_km].  Hence a location whose
    distance exceeds the radius is not in the returned list, whatever the
    remote service sent. *)
Theorem get_locations_within_radius FruitLocation_new (lat lng : R)
    (radius_km : Z) (type_id : option Z) (limit : Z) (w w' : world)
    (locations : list FruitLocation.t) :
  get_locations FruitLocation_new lat lng radius_km type_id limit w
  = (Ok locations, w') ->
  (forall location,
      In location locations ->
      exists distance,
        Haversine._calculate_distance lat lng
          (FruitLocation.lat location) (FruitLocation.lng location)
        = Ok distance
        /\ (distance <= IZR radius_km)%R)
  /\ (forall location distance,
         Haversine._calculate_distance lat lng
           (FruitLocation.lat location) (FruitLocation.lng location)
         = Ok distance ->
         (IZR radius_km < distance)%R ->
         ~ In location locations).
Proof.
  intros Hrun.
  assert (Hin : forall location,
             In location locations ->
             exists distance,
               Haversine._calculate_distance lat lng
                 (FruitLocation.lat location) (FruitLocation.lng location)
               = Ok distance
               /\ (distance <= IZR radius_km)%R).
  { apply get_locations_returns in Hrun
      as [key [data [items [_ [_ [_ [-> _]]]]]]].
    intros location Hloc. apply list_elem_of_In in Hloc.
    apply (fun H => elem_of_sublist _ _ _ H (py_slice_to_sublist _ _))
      in Hloc.
    apply list_elem_of_omap in Hloc as [item [_ Hkept]].
    now apply kept_location_within in Hkept as [_ [_ Hd]]. }
  split; [exact Hin |].
  intros location distance Hd Hfar Hloc.
  destruct (Hin location Hloc) as [distance' [Hd' Hle]].
  rewrite Hd in Hd'. injection Hd' as <-. lra.
Qed.

Lemma get_locations_within_radius_witness :
  exists distance,
    Haversine._calculate_distance 0 0
      (FruitLocation.lat near_location) (FruitLocation.lng near_location)
    = Ok distance
    /\ (distance <= IZR 10)%R.
Proof.
  apply (proj1 (get_locations_within_radius strict_FruitLocation
                  0 0 10 None 50
                  (fresh_world 0 (Returns (JList [near_item; far_item])))
                  _ [near_location] get_locations_near_far)).
  left. reflexivity.
Defined.

Lemma get_locations_near_near :
  get_locations strict_FruitLocation 0 0 10 None (-1)
    (fresh_world 0 (Returns (JList [near_item; near_item])))
  = (Ok [near_location],
     after_request (fresh_world 0 (Returns (JList [near_item; near_item])))
       (locations_request
          (self (fresh_world 0 (Returns (JList [near_item; near_item]))))
          "secret" 0 0 None (-1))).
Proof.
  rewrite get_locations_sample. cbn [omap list_omap].
  rewrite (kept_near_item 10) by lia. reflexivity.
Qed.

(** C8, as stated, fails for a negative limit: with [limit = -1] the
    slice drops the last of two locations in range and returns the other,
    a list of length 1, which is more than -1. *)
Lemma get_locations_negative_limit_counterexample :
  fst (get_locations strict_FruitLocation 0 0 10 None (-1)
         (fresh_world 0 (Returns (JList [near_item; near_item]))))
  = Ok [near_location]
  /\ ~ (Z.of_nat (length [near_location]) <= -1).
Proof.
  rewrite get_locations_near_near. split; [reflexivity |]. simpl. lia.
Qed.

(** C8, amended.  For a client holding a key and a remote answer that is
    a sequence of records, [get_locations] returns a list, whatever the
    records are: records that do not construct a location are skipped.
    The list is a subsequence, in the order of the answer, of the
    locations the records construct; and for a limit that is not
    negative its length is at most the limit. *)
Theorem get_locations_capped_in_order FruitLocation_new (lat lng : R)
    (radius_km : Z) (type_id : option Z) (limit : Z) (w : world)
    (key : string) (data : json) (items : list json) :
  api_key (self w) = Some key ->
  key <> EmptyString ->
  remote w (locations_request (self w) key lat lng type_id limit)
  = Returns data ->
  py_iter data = Ok items ->
  exists locations,
    get_locations FruitLocation_new lat lng radius_km type_id limit w
    = (Ok locations,
       after_request w
         (locations_request (self w) key lat lng type_id limit))
    /\ sublist locations
         (omap (fun item =>
                  to_option (parse_location FruitLocation_new item)) items)
    /\ (0 <= limit -> Z.of_nat (length locations) <= limit).
Proof.
  intros Hkey Hne Hdata Hitems. eexists. split; [| split].
  - now apply (get_locations_run _ _ _ _ _ _ _ key data items).
  - etransitivity; [apply py_slice_to_sublist | apply kept_sublist_parsed].
  - apply py_slice_to_length.
Qed.

Lemma get_locations_capped_in_order_witness :
  exists locations,
    get_locations strict_FruitLocation 0 0 10 None 1
      (fresh_world 0 (Returns (JList [JNull; near_item; far_item; near_item])))
    = (Ok locations,
       after_request
         (fresh_world 0
            (Returns (JList [JNull; near_item; far_item; near_item])))
         (locations_request
            (self (fresh_world 0
                     (Returns (JList [JNull; near_item; far_item;
                                      near_item]))))
            "secret" 0 0 None 1))
    /\ sublist locations
         (omap (fun item =>
                  to_option (parse_location strict_FruitLocation item))
               [JNull; near_item; far_item; near_item])
    /\ (0 <= 1 -> Z.of_nat (length locations) <= 1).
Proof.
  apply (get_locations_capped_in_order strict_FruitLocation 0 0 10 None 1
           (fresh_world 0
              (Returns (JList [JNull; near_item; far_item; near_item])))
           "secret"%string
           (JList [JNull; near_item; far_item; near_item])
           [JNull; near_item; far_item; near_item]).
  - reflexivity.
  - discriminate.
  - reflexivity.
  - reflexivity.
Defined.

(** C10.  The empty string and an absent value of the environment
    variable give the same key, [None]; and a client whose key is the
    empty string behaves as one without a key: [get_all_types] and
    [get_locations] raise the configuration error and leave the world,
    the log of requests included, unchanged. *)
Theorem empty_key_is_no_key FruitType_new FruitLocation_new (w : world)
    (lat lng : R) (radius_km : Z) (type_id : option Z) (limit : Z) :
  API_KEY (Some EmptyString) = API_KEY None
  /\ get_all_types FruitType_new (with_key (Some EmptyString) w)
     = (Raise (ValueError not_set_msg), with_key (Some EmptyString) w)
  /\ get_all_types FruitType_new (with_key None w)
     = (Raise (ValueError not_set_msg), with_key None w)
  /\ get_locations FruitLocation_new lat lng radius_km type_id limit
       (with_key (Some EmptyString) w)
     = (Raise (ValueError not_set_msg), with_key (Some EmptyString) w)
  /\ get_locations FruitLocation_new lat lng radius_km type_id limit
       (with_key None w)
     = (Raise (ValueError not_set_msg), with_key None w).
Proof.
  split; [reflexivity |].
  split; [now apply get_all_types_unset |].
  split; [now apply get_all_types_unset |].
  split; now apply get_locations_unset.
Qed.

(** * Further properties *)

(** ** The season helper *)

(** X1.  For months 1 to 12, a location is in season exactly when the
    current month lies on the way from the start month forward to the
    stop month, going round the year: the number of months from the
    start to the current month is at most the number from the start to
    the stop. *)
Theorem is_in_season_cyclic (current_month season_start season_stop : Z) :
  1 <= current_month <= 12 ->
  1 <= season_start <= 12 ->
  1 <= season_stop <= 12 ->
  SeasonHelper.is_in_season current_month
    (Some season_start) (Some season_stop) = true
  <-> (current_month - season_start) mod 12
      <= (season_stop - season_start) mod 12.
Proof.
  intros Hm Hs He. unfold SeasonHelper.is_in_season.
  destruct (season_start <=? season_stop) eqn:Hle.
  - rewrite andb_true_iff, !Z.leb_le.
    rewrite (Z.mod_small (season_stop - season_start)) by lia.
    destruct (Z_le_gt_dec season_start current_month).
    + rewrite Z.mod_small by lia. lia.
    + replace (current_month - season_start)
        with (current_month - season_start + 12 + (-1) * 12) by lia.
      rewrite Z.mod_add, Z.mod_small by lia. lia.
  - rewrite orb_true_iff, Z.geb_le, Z.leb_le.
    replace (season_stop - season_start)
      with (season_stop - season_start + 12 + (-1) * 12) by lia.
    rewrite Z.mod_add, (Z.mod_small (season_stop - season_start + 12))
      by lia.
    destruct (Z_le_gt_dec season_start current_month).
    + rewrite Z.mod_small by lia. lia.
    + replace (current_month - season_start)
        with (current_month - season_start + 12 + (-1) * 12) by lia.
      rewrite Z.mod_add, Z.mod_small by lia. lia.
Qed.

Lemma is_in_season_cyclic_witness :
  SeasonHelper.is_in_season 1 (Some 11) (Some 2) = true
  <-> (1 - 11) mod 12 <= (2 - 11) mod 12.
Proof.
  apply (is_in_season_cyclic 1 11 2); lia.
Defined.

Lemma py_index_in_range {A} (seq : list A) (i : Z) :
  - Z.of_nat (length seq) <= i < Z.of_nat (length seq) ->
  exists x, py_index seq i = Returned x.
Proof.
  intros Hi. unfold py_index.
  set (j := if i <? 0 then i + Z.of_nat (length seq) else i).
  assert (Hj : 0 <= j < Z.of_nat (length seq)).
  { subst j. destruct (i <? 0) eqn:E; lia. }
  destruct ((0 <=? j) && (j <? Z.of_nat (length seq))) eqn:Hb.
  - destruct (nth_error seq (Z.to_nat j)) as [x |] eqn:Hx.
    + now exists x.
    + apply nth_error_None in Hx. lia.
  - apply andb_false_iff in Hb. destruct Hb as [Hb | Hb]; lia.
Qed.

Lemma py_index_out_of_range {A} (seq : list A) (i : Z) :
  i < - Z.of_nat (length seq) \/ Z.of_nat (length seq) <= i ->
  py_index seq i = Raised IndexError.
Proof.
  intros Hi. unfold py_index.
  set (j := if i <? 0 then i + Z.of_nat (length seq) else i).
  assert (Hj : j < 0 \/ Z.of_nat (length seq) <= j).
  { subst j. destruct (i <? 0) eqn:E; lia. }
  destruct ((0 <=? j) && (j <? Z.of_nat (length seq))) eqn:Hb;
    [| reflexivity].
  apply andb_true_iff in Hb. lia.
Qed.

Lemma py_index_negative {A} (seq : list A) (i : Z) :
  - Z.of_nat (length seq) <= i < 0 ->
  py_index seq i = py_index seq (i + Z.of_nat (length seq)).
Proof.
  intros Hi. unfold py_index.
  destruct (i <? 0) eqn:E; [| lia].
  destruct (i + Z.of_nat (length seq) <? 0) eqn:E'; [lia | reflexivity].
Qed.

Lemma month_name_ok (month : Z) :
  -11 <= month <= 12 ->
  exists text, py_index SeasonHelper.months (month - 1) = Returned text.
Proof.
  intros H. apply py_index_in_range. simpl. lia.
Qed.

Lemma month_name_raises (month : Z) :
  month < -11 \/ 12 < month ->
  py_index SeasonHelper.months (month - 1) = Raised IndexError.
Proof.
  intros H. apply py_index_out_of_range. simpl. lia.
Qed.

Lemma format_season_returns (season_start season_stop : Z) :
  -11 <= season_start <= 12 /\ -11 <= season_stop <= 12 ->
  exists text,
    SeasonHelper.format_season (Some season_start) (Some season_stop)
    = Returned text.
Proof.
  intros [Hs He]. unfold SeasonHelper.format_season.
  destruct (month_name_ok season_start Hs) as [first Hfirst].
  destruct (month_name_ok season_stop He) as [last Hlast].
  rewrite Hfirst, Hlast. cbn [outcome_bind].
  destruct (season_start =? season_stop); [now exists first |].
  destruct (season_start <? season_stop); eexists; reflexivity.
Qed.

Lemma format_season_raises (season_start season_stop : Z) :
  season_start < -11 \/ 12 < season_start
  \/ season_stop < -11 \/ 12 < season_stop ->
  SeasonHelper.format_season (Some season_start) (Some season_stop)
  = Raised IndexError.
Proof.
  intros Hout. unfold SeasonHelper.format_season.
  destruct (season_start =? season_stop) eqn:Heq.
  - apply month_name_raises. lia.
  - destruct (Z_le_gt_dec (-11) season_start) as [Hlo |];
      [| rewrite month_name_raises by lia;
         now destruct (season_start <? season_stop)].
    destruct (Z_le_gt_dec season_start 12) as [Hhi |];
      [| rewrite month_name_raises by lia;
         now destruct (season_start <? season_stop)].
    destruct (month_name_ok season_start (conj Hlo Hhi)) as [first Hfirst].
    rewrite Hfirst, (month_name_raises season_stop) by lia.
    now destruct (season_start <? season_stop).
Qed.

(** X2.  With both months given, [format_season] returns a text exactly
    when both lie between -11 and 12, and raises [IndexError] otherwise:
    the month numbers are list subscripts, so 0 and the negative numbers
    down to -11 do not fail but name a month counted back from December
    (month 0 reads as month 12).  With a month missing it returns
    "Season unknown". *)
Theorem format_season_index_range (season_start season_stop : Z) :
  ((-11 <= season_start <= 12 /\ -11 <= season_stop <= 12) ->
   exists text,
     SeasonHelper.format_season (Some season_start) (Some season_stop)
     = Returned text)
  /\ ((season_start < -11 \/ 12 < season_start
       \/ season_stop < -11 \/ 12 < season_stop) ->
      SeasonHelper.format_season (Some season_start) (Some season_stop)
      = Raised IndexError)
  /\ (-11 <= season_start <= 0 ->
      SeasonHelper.format_season (Some season_start) (Some season_start)
      = SeasonHelper.format_season (Some (season_start + 12))
                                   (Some (season_start + 12)))
  /\ SeasonHelper.format_season None (Some season_stop)
     = Returned "Season unknown"%string
  /\ SeasonHelper.format_season (Some season_start) None
     = Returned "Season unknown"%string.
Proof.
  split; [apply format_season_returns |].
  split; [apply format_season_raises |].
  split; [| split; reflexivity].
  intros Hs. unfold SeasonHelper.format_season.
  rewrite !Z.eqb_refl.
  rewrite (py_index_negative SeasonHelper.months (season_start - 1))
    by (simpl; lia).
  f_equal. simpl. lia.
Qed.

Lemma format_season_index_range_witness :
  SeasonHelper.format_season (Some 0) (Some 0)
  = SeasonHelper.format_season (Some (0 + 12)) (Some (0 + 12))
  /\ SeasonHelper.format_season (Some 13) (Some 2) = Raised IndexError
  /\ exists text,
       SeasonHelper.format_season (Some 11) (Some 2) = Returned text.
Proof.
  split; [| split].
  - apply (proj1 (proj2 (proj2 (format_season_index_range 0 0)))). lia.
  - apply (proj1 (proj2 (format_season_index_range 13 2))). lia.
  - apply (proj1 (format_season_index_range 11 2)). lia.
Defined.

Lemma calendar_months_spec (month : Z) :
  1 <= month <= 12 -> In month calendar_months.
Proof. intros H. unfold calendar_months. simpl. lia. Qed.

Lemma seasons_all_told_apart :
  forallb (fun s => forallb (fun e => forallb (fun s' => forallb (fun e' =>
    seasons_told_apart s e s' e')
    calendar_months) calendar_months) calendar_months) calendar_months
  = true.
Proof. vm_compute. reflexivity. Qed.

(** X3.  On the calendar months 1 to 12 the formatted season determines
    the two months: two seasons with the same text have the same start
    and the same stop. *)
Theorem format_season_injective (s e s' e' : Z) :
  1 <= s <= 12 -> 1 <= e <= 12 -> 1 <= s' <= 12 -> 1 <= e' <= 12 ->
  SeasonHelper.format_season (Some s) (Some e)
  = SeasonHelper.format_season (Some s') (Some e') ->
  s = s' /\ e = e'.
Proof.
  intros Hs He Hs' He' Hsame.
  pose proof seasons_all_told_apart as Hall.
  rewrite forallb_forall in Hall.
  specialize (Hall s (calendar_months_spec s Hs)).
  rewrite forallb_forall in Hall.
  specialize (Hall e (calendar_months_spec e He)).
  rewrite forallb_forall in Hall.
  specialize (Hall s' (calendar_months_spec s' Hs')).
  rewrite forallb_forall in Hall.
  specialize (Hall e' (calendar_months_spec e' He')).
  unfold seasons_told_apart in Hall. rewrite <- Hsame in Hall.
  destruct (format_season_returns s e) as [text Htext]; [lia |].
  rewrite Htext in Hall. cbn [outcome_string_eqb] in Hall.
  rewrite String.eqb_refl in Hall. cbn [negb orb] in Hall.
  apply andb_true_iff in Hall. lia.
Qed.

Lemma format_season_injective_witness : 11 = 11 /\ 2 = 2.
Proof.
  apply (format_season_injective 11 2 11 2); try lia. reflexivity.
Defined.

(** ** More on the distance calculator *)

Section DistanceRange.
Import Haversine.
Local Open Scope R_scope.

Lemma asin_nonneg (x : R) : 0 <= x <= 1 -> 0 <= asin x.
Proof.
  intros [H0 H1].
  destruct (Rle_lt_dec 0 (asin x)) as [Hle | Hlt]; [exact Hle |].
  exfalso.
  pose proof (asin_bound x) as [Hlo _].
  pose proof (sin_asin x ltac:(lra)) as Hsin.
  pose proof PI_RGT_0.
  pose proof (sin_lt_0_var (asin x) ltac:(lra) Hlt). lra.
Qed.

Lemma sqrt_sin_sq (x : R) : 0 <= x <= PI / 2 -> sqrt (sin x ^ 2) = sin x.
Proof.
  intros [H0 H1].
  replace (sin x ^ 2) with (Rsqr (sin x)) by (unfold Rsqr; ring).
  apply sqrt_Rsqr. pose proof PI_RGT_0.
  destruct (Req_dec x 0) as [-> | Hx]; [rewrite sin_0; lra |].
  apply Rlt_le. apply sin_gt_0; lra.
Qed.

Lemma sin_half_abs_sq (t : R) : sin (Rabs t / 2) ^ 2 = sin (t / 2) ^ 2.
Proof.
  unfold Rabs. destruct (Rcase_abs t); [| reflexivity].
  replace (- t / 2) with (- (t / 2)) by field.
  rewrite sin_neg. ring.
Qed.

(** The arc computed from a haversine quantity that is the squared sine
    of half an angle of at most half a turn. *)
Lemma arc_of_half_angle (t : R) :
  Rabs t <= PI ->
  6371 * (2 * asin (sqrt (sin (t / 2) ^ 2))) = 6371 * Rabs t.
Proof.
  intros Ht. pose proof (Rabs_pos t).
  rewrite <- sin_half_abs_sq, sqrt_sin_sq by lra.
  rewrite asin_sin by lra. field.
Qed.

Lemma radians_diff_abs (x y : R) :
  Rabs (radians y - radians x) = radians (Rabs (y - x)).
Proof.
  unfold radians. pose proof PI_RGT_0.
  replace (y * (PI / 180) - x * (PI / 180)) with ((y - x) * (PI / 180))
    by ring.
  rewrite Rabs_mult, (Rabs_pos_eq (PI / 180)) by lra. reflexivity.
Qed.

Lemma distance_range (lat1 lng1 lat2 lng2 : R) :
  exists distance,
    _calculate_distance lat1 lng1 lat2 lng2 = Ok distance
    /\ 0 <= distance <= 6371 * PI.
Proof.
  eexists. split; [apply _calculate_distance_value |].
  pose proof (hav_a_range (radians lat1) (radians lng1)
                          (radians lat2) (radians lng2)) as Ha.
  pose proof (sqrt_unit _ Ha) as Hs.
  pose proof (asin_nonneg _ Hs). pose proof (asin_bound (sqrt
    (hav_a (radians lat1) (radians lng1) (radians lat2) (radians lng2)))).
  lra.
Qed.

(** X4.  A distance the call returns is never negative and never more
    than half the circumference of the sphere, 6371 times pi. *)
Theorem calculate_distance_range (lat1 lng1 lat2 lng2 distance : R) :
  _calculate_distance lat1 lng1 lat2 lng2 = Ok distance ->
  0 <= distance <= 6371 * PI.
Proof.
  intros Hreturned.
  destruct (distance_range lat1 lng1 lat2 lng2) as [distance' [Hd Hrange]].
  rewrite Hreturned in Hd. injection Hd as <-. exact Hrange.
Qed.

Lemma calculate_distance_range_witness :
  0 <= 6371 * PI <= 6371 * PI.
Proof.
  apply (calculate_distance_range 0 0 0 180 (6371 * PI)
           _calculate_distance_antipodal).
Defined.

(** X5.  Along a meridian, and along the equator, the distance is the
    length of the arc: 6371 times the difference of the two angles in
    radians, as long as they differ by at most 180 degrees. *)
Theorem calculate_distance_arc :
  (forall lat1 lat2 lng,
      Rabs (lat2 - lat1) <= 180 ->
      _calculate_distance lat1 lng lat2 lng
      = Ok (6371 * radians (Rabs (lat2 - lat1))))
  /\ (forall lng1 lng2,
         Rabs (lng2 - lng1) <= 180 ->
         _calculate_distance 0 lng1 0 lng2
         = Ok (6371 * radians (Rabs (lng2 - lng1)))).
Proof.
  assert (Hhalf : forall x y, Rabs (y - x) <= 180 ->
                    Rabs (radians y - radians x) <= PI).
  { intros x y H. rewrite radians_diff_abs. unfold radians.
    pose proof PI_RGT_0. nra. }
  split.
  - intros lat1 lat2 lng H.
    rewrite _calculate_distance_value. f_equal. unfold hav_a.
    replace ((radians lng - radians lng) / 2) with 0 by field.
    rewrite sin_0.
    replace (sin ((radians lat2 - radians lat1) / 2) ^ 2
             + cos (radians lat1) * cos (radians lat2) * 0 ^ 2)
      with (sin ((radians lat2 - radians lat1) / 2) ^ 2) by ring.
    rewrite arc_of_half_angle by now apply Hhalf.
    now rewrite radians_diff_abs.
  - intros lng1 lng2 H.
    rewrite _calculate_distance_value. f_equal. unfold hav_a.
    replace ((radians 0 - radians 0) / 2) with 0 by field.
    replace (radians 0) with 0 by (unfold radians; ring).
    rewrite sin_0, cos_0.
    replace (0 ^ 2 + 1 * 1 * sin ((radians lng2 - radians lng1) / 2) ^ 2)
      with (sin ((radians lng2 - radians lng1) / 2) ^ 2) by ring.
    rewrite arc_of_half_angle by now apply Hhalf.
    now rewrite radians_diff_abs.
Qed.

Lemma calculate_distance_arc_witness :
  _calculate_distance 0 10 0 11 = Ok (6371 * radians (Rabs (11 - 10))).
Proof.
  apply (proj2 calculate_distance_arc 10 11).
  replace (11 - 10) with 1 by ring. rewrite Rabs_R1. lra.
Defined.

(** X6.  A full turn of longitude does not change the distance: the
    meridians 180 and -180 are the same. *)
Theorem calculate_distance_full_turn (lat1 lng1 lat2 lng2 : R) :
  _calculate_distance lat1 lng1 lat2 (lng2 + 360)
  = _calculate_distance lat1 lng1 lat2 lng2.
Proof.
  rewrite !_calculate_distance_value.
  assert (Ha : hav_a (radians lat1) (radians lng1)
                     (radians lat2) (radians (lng2 + 360))
               = hav_a (radians lat1) (radians lng1)
                       (radians lat2) (radians lng2)).
  { unfold hav_a.
    replace ((radians (lng2 + 360) - radians lng1) / 2)
      with ((radians lng2 - radians lng1) / 2 + PI)
      by (unfold radians; field).
    rewrite neg_sin. ring. }
  now rewrite Ha.
Qed.

End DistanceRange.

(** ** What the client's methods keep *)

Lemma framed_refl (n : nat) (w : world) : framed n w w.
Proof.
  repeat split. exists []. rewrite app_nil_r. split; [reflexivity | simpl; lia].
Qed.

Lemma framed_after_request (w : world) (r : request) :
  framed 1 w (after_request w r).
Proof. repeat split. exists [r]. split; [reflexivity | simpl; lia]. Qed.

Section Frame.

Variable FruitType_new :
  json -> json -> json -> list json -> list json -> res FruitType.t.
Variable FruitLocation_new : list (string * json) -> res FruitLocation.t.
Variable lower : string -> string.

Lemma get_all_types_framed (w : world) :
  framed 1 w (snd (get_all_types FruitType_new w))
  /\ (cache_paired (self w) ->
      cache_paired (self (snd (get_all_types FruitType_new w)))).
Proof.
  unfold get_all_types, bind, get_self, raise, datetime_now, ret,
    http_get_json, lift, store_cache.
  destruct (api_key (self w)) as [[| c key] |] eqn:Hkey;
    try (split; [apply framed_refl | trivial]).
  destruct (cache_lookup (self w) (clock w));
    [split; [apply framed_refl | trivial] |].
  destruct (remote w _) as [| data];
    [split; [apply framed_after_request | trivial] |].
  destruct (py_iter data) as [items |];
    [| split; [apply framed_after_request | trivial]].
  cbn. split.
  - repeat split; try assumption. eexists. split; [reflexivity | simpl; lia].
  - intros _. unfold cache_paired. cbn. split; discriminate.
Qed.

Lemma get_types_world (query : option string) (w : world) :
  snd (get_types FruitType_new lower query w)
  = snd (get_all_types FruitType_new w).
Proof.
  unfold get_types, bind.
  destruct (get_all_types FruitType_new w) as [[all_types | e] w'];
    [| reflexivity].
  now destruct query as [[| c query] |].
Qed.

Lemma find_fruit_type_by_name_world (name : string) (w : world) :
  snd (find_fruit_type_by_name FruitType_new lower name w)
  = snd (get_all_types FruitType_new w).
Proof.
  unfold find_fruit_type_by_name, bind.
  destruct (get_all_types FruitType_new w) as [[all_types | e] w'];
    [| reflexivity].
  destruct (first_type _ all_types); [reflexivity |].
  now destruct (first_type _ all_types).
Qed.

Lemma get_locations_world (lat lng : R) (radius_km : Z)
    (type_id : option Z) (limit : Z) (w : world) :
  self (snd (get_locations FruitLocation_new lat lng radius_km
               type_id limit w)) = self w
  /\ framed 1 w (snd (get_locations FruitLocation_new lat lng radius_km
                        type_id limit w)).
Proof.
  unfold get_locations, bind, get_self, raise, http_get_json, lift, ret.
  destruct (api_key (self w)) as [[| c key] |];
    try (split; [reflexivity | apply framed_refl]).
  destruct (remote w _) as [| data];
    [split; [reflexivity | apply framed_after_request] |].
  destruct (py_iter data);
    (split; [reflexivity | apply framed_after_request]).
Qed.

End Frame.



(** ** Bodies that are not arrays *)

Lemma parse_types_strings FruitType_new (keys : list string) :
  parse_types FruitType_new (map JStr keys) = [].
Proof.
  rewrite parse_types_omap.
  induction keys as [| k keys IH]; [reflexivity | exact IH].
Qed.

Lemma kept_location_strings FruitLocation_new (lat lng : R) (radius_km : Z)
    (keys : list string) :
  omap (kept_location FruitLocation_new lat lng radius_km) (map JStr keys)
  = [].
Proof.
  induction keys as [| k keys IH]; [reflexivity | exact IH].
Qed.

Lemma py_iter_object (fields : list (string * json)) :
  py_iter (JObj fields) = Ok (map JStr (map fst fields)).
Proof. simpl. now rewrite map_map. Qed.

Lemma py_slice_to_nil {A} (stop : Z) : py_slice_to (@nil A) stop = [].
Proof. unfold py_slice_to. now destruct (0 <=? stop); rewrite take_nil. Qed.

(** X8.  When the types request is answered with a JSON object instead
    of an array (an error object, say), [get_all_types] does not fail: it
    returns the empty taxonomy and stores it, so that every call in the
    next 24 hours returns the empty taxonomy without a request.  A body
    that is null, a boolean or a number raises [TypeError] and leaves the
    client as it was. *)
Theorem get_all_types_object_body FruitType_new (w : world) (key : string) :
  configured (self w) key ->
  cache_stale (self w) (clock w) ->
  (forall fields,
      remote w (types_request (self w) key) = Returns (JObj fields) ->
      let w' := snd (get_all_types FruitType_new w) in
      fst (get_all_types FruitType_new w) = Ok []
      /\ _types_cache (self w') = Some []
      /\ forall now' service',
           now' - clock w < timedelta_hours 24 ->
           get_all_types FruitType_new (later w' now' service')
           = (Ok [], later w' now' service'))
  /\ (forall data,
         remote w (types_request (self w) key) = Returns data ->
         data = JNull \/ (exists b, data = JBool b)
         \/ (exists n, data = JInt n) \/ (exists x, data = JFloat x) ->
         fst (get_all_types FruitType_new w) = Raise TypeError
         /\ self (snd (get_all_types FruitType_new w)) = self w).
Proof.
  intros Hconf Hstale. split.
  - intros fields Hdata w'. subst w'.
    rewrite (get_all_types_miss_returns _ w key _ _
               Hconf Hstale Hdata (py_iter_object fields)).
    rewrite parse_types_strings.
    cbn [fst snd self _types_cache].
    repeat split.
    intros now' service' Hsoon.
    apply (get_all_types_hit _ _ key).
    + destruct Hconf as [Hkey [Hne Hd]]. now repeat split.
    + exists (clock w). now repeat split.
  - intros data Hdata Hkind.
    rewrite (get_all_types_miss _ w key Hconf Hstale).
    unfold bind, http_get_json, lift. rewrite Hdata.
    destruct Hkind as [-> | [[b ->] | [[n ->] | [x ->]]]]; cbn; tauto.
Qed.

Lemma get_all_types_object_body_witness :
  fst (get_all_types strict_FruitType
         (fresh_world 0 (Returns (JObj [("error"%string, JStr "busy")]))))
  = Ok [].
Proof.
  apply (proj1 (get_all_types_object_body strict_FruitType
                  (fresh_world 0
                     (Returns (JObj [("error"%string, JStr "busy")])))
                  "secret" (fresh_world_configured _ _)
                  (fresh_world_stale _ _))
           [("error"%string, JStr "busy")]).
  reflexivity.
Defined.

(** ** The radius filter *)

Section Radius.

Variable FruitLocation_new : list (string * json) -> res FruitLocation.t.

Lemma kept_location_no_radius (lat lng : R) (radius_km : Z) (item : json) :
  radius_km <= 0 ->
  kept_location FruitLocation_new lat lng radius_km item = None.
Proof.
  intros Hr. unfold kept_location.
  destruct (parse_location FruitLocation_new item) as [location |];
    [| reflexivity].
  destruct (radius_km =? 0) eqn:Hzero; [reflexivity |].
  destruct (distance_range lat lng
              (FruitLocation.lat location) (FruitLocation.lng location))
    as [distance [-> [Hpos _]]].
  destruct (Rle_dec distance (IZR radius_km)) as [Hle |]; [| reflexivity].
  exfalso. assert (IZR radius_km < 0)%R by (apply IZR_lt; lia). lra.
Qed.

Lemma kept_location_wider (lat lng : R) (r1 r2 : Z) (item : json)
    (location : FruitLocation.t) :
  r1 <= r2 ->
  kept_location FruitLocation_new lat lng r1 item = Some location ->
  kept_location FruitLocation_new lat lng r2 item = Some location.
Proof.
  intros Hr Hkept.
  assert (0 < r1).
  { destruct (Z_le_gt_dec r1 0) as [Hle |]; [| lia].
    rewrite (kept_location_no_radius lat lng r1 item Hle) in Hkept.
    discriminate. }
  apply kept_location_within
    in Hkept as [Hparse [_ [distance [Hd Hle]]]].
  unfold kept_location. rewrite Hparse, Hd.
  destruct (r2 =? 0) eqn:Hzero; [lia |].
  destruct (Rle_dec distance (IZR r2)) as [| Hn]; [reflexivity |].
  exfalso. apply Hn. apply Rle_trans with (IZR r1); [exact Hle |].
  now apply IZR_le.
Qed.

Lemma kept_sublist_wider (lat lng : R) (r1 r2 : Z) (items : list json) :
  r1 <= r2 ->
  sublist (omap (kept_location FruitLocation_new lat lng r1) items)
          (omap (kept_location FruitLocation_new lat lng r2) items).
Proof.
  intros Hr. induction items as [| item items IH]; [constructor |].
  cbn [omap list_omap].
  destruct (kept_location FruitLocation_new lat lng r1 item)
    as [location |] eqn:Hkept.
  - rewrite (kept_location_wider lat lng r1 r2 item location Hr Hkept).
    cbn. now constructor.
  - destruct (kept_location FruitLocation_new lat lng r2 item);
      [now constructor | exact IH].
Qed.

Lemma py_slice_to_all {A} (seq : list A) (stop : Z) :
  Z.of_nat (length seq) <= stop -> py_slice_to seq stop = seq.
Proof.
  intros H. unfold py_slice_to.
  destruct (0 <=? stop) eqn:E; [| lia].
  apply take_ge. lia.
Qed.

Lemma omap_length_le {A B} (f : A -> option B) (l : list A) :
  (length (omap f l) <= length l)%nat.
Proof.
  induction l as [| x l IH]; [simpl; lia |].
  cbn [omap list_omap]. destruct (f x); simpl in *; lia.
Qed.

End Radius.

(** X9.  A radius of zero or less selects nothing: whatever records the
    remote service sends, [get_locations] sends its request and returns
    the empty list.  (Zero fails the guard [radius_km and ...], so it
    does not mean "no filter"; a negative radius is below every
    distance.) *)
Theorem get_locations_no_radius FruitLocation_new (lat lng : R)
    (radius_km : Z) (type_id : option Z) (limit : Z) (w : world)
    (key : string) (data : json) (items : list json) :
  api_key (self w) = Some key ->
  key <> EmptyString ->
  remote w (locations_request (self w) key lat lng type_id limit)
  = Returns data ->
  py_iter data = Ok items ->
  radius_km <= 0 ->
  get_locations FruitLocation_new lat lng radius_km type_id limit w
  = (Ok [],
     after_request w (locations_request (self w) key lat lng type_id limit)).
Proof.
  intros Hkey Hne Hdata Hitems Hr.
  rewrite (get_locations_run _ _ _ _ _ _ _ key data items
             Hkey Hne Hdata Hitems).
  assert (Hnone : omap (kept_location FruitLocation_new lat lng radius_km)
                       items = []).
  { clear Hitems. induction items as [| item items IH]; [reflexivity |].
    cbn [omap list_omap].
    now rewrite (kept_location_no_radius _ lat lng radius_km item Hr). }
  now rewrite Hnone, py_slice_to_nil.
Qed.

Lemma get_locations_no_radius_witness :
  get_locations strict_FruitLocation 0 0 0 None 50
    (fresh_world 0 (Returns (JList [near_item])))
  = (Ok [],
     after_request (fresh_world 0 (Returns (JList [near_item])))
       (locations_request
          (self (fresh_world 0 (Returns (JList [near_item]))))
          "secret" 0 0 None 50)).
Proof.
  apply (get_locations_no_radius strict_FruitLocation 0 0 0 None 50
           (fresh_world 0 (Returns (JList [near_item])))
           "secret"%string (JList [near_item]) [near_item]);
    first [reflexivity | discriminate | lia].
Defined.

(** X10.  When the locations request is answered with a JSON object
    instead of an array, [get_locations] returns the empty list: the keys
    of the object are iterated and none of them unpacks into a
    location. *)
Theorem get_locations_object_body FruitLocation_new (lat lng : R)
    (radius_km : Z) (type_id : option Z) (limit : Z) (w : world)
    (key : string) (fields : list (string * json)) :
  api_key (self w) = Some key ->
  key <> EmptyString ->
  remote w (locations_request (self w) key lat lng type_id limit)
  = Returns (JObj fields) ->
  get_locations FruitLocation_new lat lng radius_km type_id limit w
  = (Ok [],
     after_request w (locations_request (self w) key lat lng type_id limit)).
Proof.
  intros Hkey Hne Hdata.
  rewrite (get_locations_run _ _ _ _ _ _ _ key _ _
             Hkey Hne Hdata (py_iter_object fields)).
  now rewrite kept_location_strings, py_slice_to_nil.
Qed.

Lemma get_locations_object_body_witness :
  get_locations strict_FruitLocation 0 0 10 None 50
    (fresh_world 0 (Returns (JObj [("error"%string, JStr "busy")])))
  = (Ok [],
     after_request
       (fresh_world 0 (Returns (JObj [("error"%string, JStr "busy")])))
       (locations_request
          (self (fresh_world 0
                   (Returns (JObj [("error"%string, JStr "busy")]))))
          "secret" 0 0 None 50)).
Proof.
  apply (get_locations_object_body strict_FruitLocation 0 0 10 None 50
           (fresh_world 0 (Returns (JObj [("error"%string, JStr "busy")])))
           "secret"%string [("error"%string, JStr "busy")]);
    first [reflexivity | discriminate].
Defined.

(** X11.  The radius is not part of the request, so two calls that
    differ only in the radius see the same answer; and when the limit is
    at least the number of records answered, every location returned for
    the smaller radius is returned for the larger one, in the same
    order. *)
Theorem get_locations_wider_radius FruitLocation_new (lat lng : R)
    (r1 r2 : Z) (type_id : option Z) (limit : Z) (w : world)
    (key : string) (data : json) (items : list json) :
  api_key (self w) = Some key ->
  key <> EmptyString ->
  remote w (locations_request (self w) key lat lng type_id limit)
  = Returns data ->
  py_iter data = Ok items ->
  Z.of_nat (length items) <= limit ->
  r1 <= r2 ->
  exists near wide,
    fst (get_locations FruitLocation_new lat lng r1 type_id limit w)
    = Ok near
    /\ fst (get_locations FruitLocation_new lat lng r2 type_id limit w)
       = Ok wide
    /\ sublist near wide
    /\ snd (get_locations FruitLocation_new lat lng r1 type_id limit w)
       = snd (get_locations FruitLocation_new lat lng r2 type_id limit w).
Proof.
  intros Hkey Hne Hdata Hitems Hlimit Hr.
  rewrite !(get_locations_run _ _ _ _ _ _ _ key data items
              Hkey Hne Hdata Hitems).
  do 2 eexists. split; [reflexivity |]. split; [reflexivity |].
  split; [| reflexivity].
  rewrite !py_slice_to_all.
  - now apply kept_sublist_wider.
  - pose proof (omap_length_le
                  (kept_location FruitLocation_new lat lng r2) items). lia.
  - pose proof (omap_length_le
                  (kept_location FruitLocation_new lat lng r1) items). lia.
Qed.

Lemma get_locations_wider_radius_witness :
  exists near wide,
    fst (get_locations strict_FruitLocation 0 0 5 None 50
           (fresh_world 0 (Returns (JList [near_item; far_item]))))
    = Ok near
    /\ fst (get_locations strict_FruitLocation 0 0 10 None 50
              (fresh_world 0 (Returns (JList [near_item; far_item]))))
       = Ok wide
    /\ sublist near wide
    /\ snd (get_locations strict_FruitLocation 0 0 5 None 50
              (fresh_world 0 (Returns (JList [near_item; far_item]))))
       = snd (get_locations strict_FruitLocation 0 0 10 None 50
                (fresh_world 0 (Returns (JList [near_item; far_item])))).
Proof.
  apply (get_locations_wider_radius strict_FruitLocation 0 0 5 10 None 50
           (fresh_world 0 (Returns (JList [near_item; far_item])))
           "secret"%string (JList [near_item; far_item])
           [near_item; far_item]);
    first [reflexivity | discriminate | simpl; lia].
Defined.

(** ** How the two searches relate *)

Lemma string_app_assoc (a b c : string) :
  ((a ++ b) ++ c)%string = (a ++ b ++ c)%string.
Proof.
  induction a as [| x a IH]; simpl; [reflexivity | now rewrite IH].
Qed.

Lemma is_substring_trans (a b c : string) :
  is_substring a b -> is_substring b c -> is_substring a c.
Proof.
  intros [p1 [s1 ->]] [p2 [s2 ->]].
  exists (p2 ++ p1)%string, (s1 ++ s2)%string.
  now rewrite !string_app_assoc.
Qed.

Lemma filter_sublist_impl {A} (f g : A -> bool) (l : list A) :
  (forall x, f x = true -> g x = true) ->
  sublist (List.filter f l) (List.filter g l).
Proof.
  intros Himpl. induction l as [| x l IH]; simpl; [constructor |].
  destruct (f x) eqn:Hf.
  - rewrite (Himpl x Hf). now constructor.
  - destruct (g x); [now constructor | exact IH].
Qed.

Lemma first_type_head_filter (test : FruitType.t -> bool)
    (all_types : list FruitType.t) :
  first_type test all_types = head (List.filter test all_types).
Proof.
  induction all_types as [| t rest IH]; simpl; [reflexivity |].
  now destruct (test t).
Qed.

Lemma name_equals_matches lower (name : string) (t : FruitType.t) :
  name_equals lower (lower name) t = true ->
  name_matches lower (lower name) t = true.
Proof.
  rewrite name_equals_spec, name_matches_spec.
  apply exact_match_partial.
Qed.

(** X12.  A longer query narrows the search: when the lowercase form of
    one query occurs in the lowercase form of another, every type found
    for the second is found for the first, in the same order. *)
Theorem get_types_narrowing FruitType_new lower (w w' : world)
    (all_types : list FruitType.t) (short long : string) :
  get_all_types FruitType_new w = (Ok all_types, w') ->
  short <> EmptyString ->
  long <> EmptyString ->
  is_substring (lower short) (lower long) ->
  exists wide narrow,
    get_types FruitType_new lower (Some short) w = (Ok wide, w')
    /\ get_types FruitType_new lower (Some long) w = (Ok narrow, w')
    /\ sublist narrow wide.
Proof.
  intros Hall Hshort Hlong Hsub.
  rewrite !(get_types_run _ _ _ _ _ _ Hall).
  destruct short as [| c short]; [congruence |].
  destruct long as [| d long]; [congruence |].
  do 2 eexists. split; [reflexivity |]. split; [reflexivity |].
  apply filter_sublist_impl. intros t.
  rewrite !name_matches_spec. intros [type_name [Hin Hocc]].
  exists type_name. split; [exact Hin |].
  now apply (is_substring_trans _ (lower (String d long))).
Qed.

Lemma get_types_narrowing_witness :
  exists wide narrow,
    get_types strict_FruitType ascii_lower (Some "apple"%string)
      (cached_world [apple_type; crabapple_type])
    = (Ok wide, cached_world [apple_type; crabapple_type])
    /\ get_types strict_FruitType ascii_lower (Some "Crabapple"%string)
         (cached_world [apple_type; crabapple_type])
       = (Ok narrow, cached_world [apple_type; crabapple_type])
    /\ sublist narrow wide.
Proof.
  apply (get_types_narrowing strict_FruitType ascii_lower _ _
           [apple_type; crabapple_type]).
  - apply cached_world_run.
  - discriminate.
  - discriminate.
  - exists "crab"%string, ""%string. reflexivity.
Defined.

(** X13.  For a non-empty name, [find_fruit_type_by_name] and
    [get_types] agree on what matches: the first finds a type exactly
    when the second finds some, the type it finds is one of them, and
    when no name equals the given one up to letter case it is the first
    of them. *)
Theorem find_agrees_with_get_types FruitType_new lower (w w' : world)
    (all_types : list FruitType.t) (name : string) :
  get_all_types FruitType_new w = (Ok all_types, w') ->
  name <> EmptyString ->
  exists found matches,
    find_fruit_type_by_name FruitType_new lower name w = (Ok found, w')
    /\ get_types FruitType_new lower (Some name) w = (Ok matches, w')
    /\ (found = None <-> matches = [])
    /\ (forall t, found = Some t -> In t matches)
    /\ ((forall t, In t all_types -> ~ exact_match lower name t) ->
        found = head matches).
Proof.
  intros Hall Hname.
  rewrite (find_fruit_type_by_name_run _ _ _ _ _ _ Hall),
          (get_types_run _ _ _ _ _ _ Hall).
  destruct name as [| c name]; [congruence |].
  set (nl := lower (String c name)).
  do 2 eexists. split; [reflexivity |]. split; [reflexivity |].
  pose proof (first_type_spec (name_equals lower nl) all_types) as Hexact.
  rewrite (first_type_head_filter (name_matches lower nl)).
  destruct (first_type (name_equals lower nl) all_types) as [e |].
  - destruct Hexact as [before [after [Heq [He _]]]].
    assert (Hin : In e (List.filter (name_matches lower nl) all_types)).
    { apply List.filter_In. split.
      - rewrite Heq. apply in_or_app. right. now left.
      - now apply name_equals_matches. }
    split; [| split].
    + split; [discriminate |]. intros Hnil. rewrite Hnil in Hin.
      destruct Hin.
    + now intros t [= <-].
    + intros Hnone. exfalso. apply (Hnone e).
      * rewrite Heq. apply in_or_app. right. now left.
      * now apply name_equals_spec.
  - split; [| split].
    + now destruct (List.filter (name_matches lower nl) all_types).
    + intros t Ht.
      destruct (List.filter (name_matches lower nl) all_types)
        as [| m rest]; [discriminate |].
      injection Ht as <-. now left.
    + reflexivity.
Qed.

Lemma find_agrees_with_get_types_witness :
  exists found matches,
    find_fruit_type_by_name strict_FruitType ascii_lower "apple"
      (cached_world [crabapple_type; apple_type])
    = (Ok found, cached_world [crabapple_type; apple_type])
    /\ get_types strict_FruitType ascii_lower (Some "apple"%string)
         (cached_world [crabapple_type; apple_type])
       = (Ok matches, cached_world [crabapple_type; apple_type])
    /\ (found = None <-> matches = [])
    /\ (forall t, found = Some t -> In t matches)
    /\ ((forall t, In t [crabapple_type; apple_type] ->
         ~ exact_match ascii_lower "apple" t) ->
        found = head matches).
Proof.
  apply (find_agrees_with_get_types strict_FruitType ascii_lower _ _
           [crabapple_type; apple_type] "apple").
  - apply cached_world_run.
  - discriminate.
Defined.

(** ** The tool [search_fruit_locations] *)

Lemma get_locations_sent FruitLocation_new (lat lng : R) (radius_km : Z)
    (type_id : option Z) (limit : Z) (w : world) (key : string) :
  api_key (self w) = Some key ->
  key <> EmptyString ->
  snd (get_locations FruitLocation_new lat lng radius_km type_id limit w)
  = after_request w
      (locations_request (self w) key lat lng type_id limit).
Proof.
  intros Hkey Hne.
  unfold get_locations, bind, get_self, raise, http_get_json, lift, ret.
  rewrite Hkey. destruct key as [| c key]; [congruence |].
  destruct (remote w _) as [| data]; [reflexivity |].
  now destruct (py_iter data).
Qed.

Lemma get_locations_within FruitLocation_new (lat lng : R) (radius_km : Z)
    (type_id : option Z) (limit : Z) (w w' : world)
    (locations : list FruitLocation.t) :
  get_locations FruitLocation_new lat lng radius_km type_id limit w
  = (Ok locations, w') ->
  (0 <= limit -> Z.of_nat (length locations) <= limit)
  /\ forall location,
       In location locations ->
       exists distance,
         Haversine._calculate_distance lat lng
           (FruitLocation.lat location) (FruitLocation.lng location)
         = Ok distance
         /\ (distance <= IZR radius_km)%R.
Proof.
  intros Hrun.
  apply get_locations_returns in Hrun
    as [key [data [items [_ [_ [_ [-> _]]]]]]].
  split; [apply py_slice_to_length |].
  intros location Hloc. apply list_elem_of_In in Hloc.
  apply (fun H => elem_of_sublist _ _ _ H (py_slice_to_sublist _ _)) in Hloc.
  apply list_elem_of_omap in Hloc as [item [_ Hkept]].
  now apply kept_location_within in Hkept as [_ [_ Hd]].
Qed.

(** The views are built one per location, in order. *)
Lemma view_locations_returned (rt : runtime) (current_month : Z)
    (lat lng : R) (locations : list FruitLocation.t)
    (acc views : list location_view) :
  view_locations rt current_month lat lng locations acc = Returned views ->
  exists built,
    views = acc ++ built
    /\ Forall2 (fun loc view =>
                  view_location rt current_month lat lng loc = Returned view)
               locations built.
Proof.
  revert acc. induction locations as [| loc rest IH]; intros acc; simpl.
  - intros [= <-]. exists []. rewrite app_nil_r. split; [reflexivity |].
    constructor.
  - destruct (view_location rt current_month lat lng loc) as [view |] eqn:Hv;
      [| discriminate].
    cbn [outcome_bind]. intros Hrest.
    destruct (IH _ Hrest) as [built [-> Hall]].
    exists (view :: built). rewrite <- app_assoc. split; [reflexivity |].
    now constructor.
Qed.

Lemma view_location_returned (rt : runtime) (current_month : Z)
    (lat lng : R) (loc : FruitLocation.t) (view : location_view) :
  view_location rt current_month lat lng loc = Returned view ->
  coordinates view = (FruitLocation.lat loc, FruitLocation.lng loc)
  /\ view_id view = FruitLocation.id loc
  /\ exists distance,
       Haversine._calculate_distance lat lng
         (FruitLocation.lat loc) (FruitLocation.lng loc) = Ok distance
       /\ distance_km view = round1 rt distance.
Proof.
  unfold view_location.
  destruct (Haversine._calculate_distance lat lng
              (FruitLocation.lat loc) (FruitLocation.lng loc))
    as [distance |]; [| discriminate].
  destruct (SeasonHelper.format_season (FruitLocation.season_start loc)
                                       (FruitLocation.season_stop loc))
    as [text |]; [| discriminate].
  cbn [outcome_bind]. intros [= <-]. cbn.
  split; [reflexivity |]. split; [reflexivity |].
  now exists distance.
Qed.

(** A location whose season has a month outside -11..12. *)
Lemma view_location_bad_month (rt : runtime) (current_month : Z)
    (lat lng : R) (loc : FruitLocation.t) (a b : Z) :
  FruitLocation.season_start loc = Some a ->
  FruitLocation.season_stop loc = Some b ->
  a < -11 \/ 12 < a \/ b < -11 \/ 12 < b ->
  view_location rt current_month lat lng loc = Raised IndexError.
Proof.
  intros Ha Hb Hout. unfold view_location.
  destruct (distance_range lat lng
              (FruitLocation.lat loc) (FruitLocation.lng loc))
    as [distance [-> _]].
  rewrite Ha, Hb.
  now rewrite (format_season_raises a b Hout).
Qed.

Lemma view_location_never_exn (rt : runtime) (current_month : Z)
    (lat lng : R) (loc : FruitLocation.t) (e : exn) :
  view_location rt current_month lat lng loc <> Raised (Exn e).
Proof.
  unfold view_location.
  destruct (distance_range lat lng
              (FruitLocation.lat loc) (FruitLocation.lng loc))
    as [distance [-> _]].
  destruct (FruitLocation.season_start loc) as [a |],
           (FruitLocation.season_stop loc) as [b |];
    try discriminate.
  unfold SeasonHelper.format_season.
  destruct (a =? b).
  - unfold py_index.
    repeat match goal with
           | |- context [if ?c then _ else _] => destruct c
           | |- context [match ?c with Some _ => _ | None => _ end] =>
               destruct c
           end; discriminate.
  - assert (Hidx : forall i, py_index SeasonHelper.months i
                             <> Raised (Exn e)).
    { intros i. unfold py_index.
      repeat match goal with
             | |- context [if ?c then _ else _] => destruct c
             | |- context [match ?c with Some _ => _ | None => _ end] =>
                 destruct c
             end; discriminate. }
    pose proof (Hidx (a - 1)) as H1. pose proof (Hidx (b - 1)) as H2.
    destruct (py_index SeasonHelper.months (a - 1)) as [first | [e1 |]];
      destruct (py_index SeasonHelper.months (b - 1)) as [last | [e2 |]];
      destruct (a <? b); cbn; congruence.
Qed.

Lemma view_locations_bad_month (rt : runtime) (current_month : Z)
    (lat lng : R) (locations : list FruitLocation.t)
    (acc : list location_view) :
  (exists loc a b,
      In loc locations
      /\ FruitLocation.season_start loc = Some a
      /\ FruitLocation.season_stop loc = Some b
      /\ (a < -11 \/ 12 < a \/ b < -11 \/ 12 < b)) ->
  view_locations rt current_month lat lng locations acc = Raised IndexError.
Proof.
  revert acc. induction locations as [| loc rest IH]; intros acc
    [bad [a [b [Hin [Ha [Hb Hout]]]]]]; [destruct Hin |].
  cbn [view_locations].
  destruct (view_location rt current_month lat lng loc)
    as [view | [e |]] eqn:Hview.
  - cbn [outcome_bind]. apply IH. exists bad, a, b.
    destruct Hin as [<- | Hin]; [| tauto].
    rewrite (view_location_bad_month rt current_month lat lng loc a b
               Ha Hb Hout) in Hview. discriminate.
  - now apply view_location_never_exn in Hview.
  - reflexivity.
Qed.

Lemma resolve_type_filter_run (rt : runtime) (query : string)
    (w w1 : world) (all_types : list FruitType.t) :
  query <> EmptyString ->
  get_all_types (rt_FruitType_new rt) w = (Ok all_types, w1) ->
  resolve_type_filter rt (Some query) w
  = (Returned
       (let chosen :=
          first_type (name_matches (rt_lower rt) (rt_lower rt query))
                     all_types in
        (option_map FruitType.id chosen, option_map info_of chosen)),
     w1).
Proof.
  intros Hquery Hall. destruct query as [| c query]; [congruence |].
  unfold resolve_type_filter, tbind, await.
  rewrite (get_types_run _ _ _ _ _ _ Hall).
  rewrite first_type_head_filter.
  now destruct (List.filter _ all_types).
Qed.

Lemma get_all_types_key FruitType_new (w w1 : world)
    (all_types : list FruitType.t) :
  get_all_types FruitType_new w = (Ok all_types, w1) ->
  exists key, api_key (self w1) = Some key /\ key <> EmptyString.
Proof.
  intros Hall.
  pose proof (proj1 (get_all_types_framed FruitType_new w)) as [Hk _].
  rewrite Hall in Hk. cbn [snd] in Hk.
  unfold get_all_types, bind, get_self, raise in Hall.
  destruct (api_key (self w)) as [[| c key] |]; try discriminate.
  exists (String c key). split; [exact Hk | discriminate].
Qed.

(** X14.  When the geocoder finds nothing, or raises, the search
    returns the "Could not find location" result and does nothing else:
    no request is sent and the key is not even looked at. *)
Theorem search_unknown_place (rt : runtime) (location : string)
    (fruit_type : option string) (radius_km : Z) (w : world) :
  geolocator_geocode rt location = GeocodeNone
  \/ geolocator_geocode rt location = GeocodeRaises ->
  search_fruit_locations rt location fruit_type radius_km w
  = (Returned (LocationNotFound
                 ("Could not find location: " ++ location)%string location),
     w).
Proof.
  intros Hgeo. unfold search_fruit_locations, LocationHelper.geocode_location.
  now destruct Hgeo as [-> | ->].
Qed.

Lemma search_unknown_place_witness :
  search_fruit_locations lost_runtime "Atlantis" (Some "apple"%string) 10
    (with_key None (fresh_world 0 Fails))
  = (Returned (LocationNotFound
                 ("Could not find location: " ++ "Atlantis")%string
                 "Atlantis"),
     with_key None (fresh_world 0 Fails)).
Proof.
  apply (search_unknown_place lost_runtime "Atlantis"
           (Some "apple"%string) 10 (with_key None (fresh_world 0 Fails))).
  left. reflexivity.
Defined.

(** X15.  The fruit name of a search is resolved to the first type, in
    cache order, that has a name containing it up to letter case (not to
    an exact match first, as [find_fruit_type_by_name] does).  The
    locations request carries that type's id in [types], unless the id is
    0: [if type_id:] reads 0 as no filter, and the request is sent
    without [types].  A name that matches no type does not fail the
    search: the request is sent without [types] as well. *)
Theorem search_type_filter (rt : runtime) (location query : string)
    (radius_km : Z) (w w1 : world) (lat lng : R)
    (all_types : list FruitType.t) :
  geolocator_geocode rt location = GeocodeAt lat lng ->
  query <> EmptyString ->
  get_all_types (rt_FruitType_new rt) w = (Ok all_types, w1) ->
  exists key sent_request,
    api_key (self w1) = Some key
    /\ snd (search_fruit_locations rt location (Some query) radius_km w)
       = after_request w1 sent_request
    /\ url sent_request = (base_url (self w1) ++ "/locations")%string
    /\ headers sent_request = [("X-API-KEY"%string, key)]
    /\ params sent_request
       = [("center"%string, PCenter lat lng); ("limit"%string, PInt 50);
          ("photo"%string, PInt 0)]
         ++ match first_type
                    (name_matches (rt_lower rt) (rt_lower rt query))
                    all_types with
            | Some found =>
                if FruitType.id found =? 0 then []
                else [("types"%string, PInt (FruitType.id found))]
            | None => []
            end.
Proof.
  intros Hgeo Hquery Hall.
  destruct (get_all_types_key _ _ _ _ Hall) as [key [Hkey Hne]].
  set (found := first_type (name_matches (rt_lower rt) (rt_lower rt query))
                  all_types).
  exists key,
    (locations_request (self w1) key lat lng
       (option_map FruitType.id found) 50).
  split; [exact Hkey |]. split; [| split; [reflexivity |
                                           split; [reflexivity |]]].
  - unfold search_fruit_locations, LocationHelper.geocode_location.
    rewrite Hgeo. unfold tbind at 1.
    rewrite (resolve_type_filter_run rt query w w1 all_types Hquery Hall).
    cbn [fst snd]. fold found.
    set (type_id := option_map FruitType.id found).
    pose proof (get_locations_sent (rt_FruitLocation_new rt) lat lng
                  radius_km type_id 50 w1 key Hkey Hne) as Hsent.
    unfold tbind, await.
    destruct (get_locations (rt_FruitLocation_new rt) lat lng radius_km
                type_id 50 w1) as [[locations | e] w2];
      cbn [snd] in Hsent; subst w2; [| reflexivity].
    destruct locations as [| loc rest]; [reflexivity |].
    unfold now_month, settle, tret.
    now destruct (view_locations rt _ lat lng (loc :: rest) []).
  - unfold locations_request. cbn [params].
    destruct found as [found |]; cbn [option_map];
      [| now rewrite app_nil_r].
    destruct (FruitType.id found =? 0); [now rewrite app_nil_r | reflexivity].
Qed.

Lemma search_type_filter_witness :
  (exists key sent_request,
      api_key (self (cached_world [crabapple_type; apple_type])) = Some key
      /\ snd (search_fruit_locations sample_runtime "here"
                (Some "apple"%string) 10
                (cached_world [crabapple_type; apple_type]))
         = after_request (cached_world [crabapple_type; apple_type])
             sent_request
      /\ url sent_request
         = (base_url (self (cached_world [crabapple_type; apple_type]))
            ++ "/locations")%string
      /\ headers sent_request = [("X-API-KEY"%string, key)]
      /\ params sent_request
         = [("center"%string, PCenter 0 0); ("limit"%string, PInt 50);
            ("photo"%string, PInt 0)]
           ++ [("types"%string, PInt 2)])
  /\ (exists key sent_request,
         api_key (self (cached_world [zero_id_type])) = Some key
         /\ snd (search_fruit_locations sample_runtime "here"
                   (Some "apple"%string) 10 (cached_world [zero_id_type]))
            = after_request (cached_world [zero_id_type]) sent_request
         /\ url sent_request
            = (base_url (self (cached_world [zero_id_type]))
               ++ "/locations")%string
         /\ headers sent_request = [("X-API-KEY"%string, key)]
         /\ params sent_request
            = [("center"%string, PCenter 0 0); ("limit"%string, PInt 50);
               ("photo"%string, PInt 0)]
              ++ []).
Proof.
  split.
  - apply (search_type_filter sample_runtime "here" "apple" 10
             (cached_world [crabapple_type; apple_type])
             (cached_world [crabapple_type; apple_type]) 0 0
             [crabapple_type; apple_type]).
    + reflexivity.
    + discriminate.
    + apply cached_world_run.
  - apply (search_type_filter sample_runtime "here" "apple" 10
             (cached_world [zero_id_type]) (cached_world [zero_id_type]) 0 0
             [zero_id_type]).
    + reflexivity.
    + discriminate.
    + apply cached_world_run.
Defined.

Lemma search_results_inv (rt : runtime) (location : string)
    (fruit_type : option string) (radius_km : Z) (w w' : world)
    (response : search_response) :
  search_fruit_locations rt location fruit_type radius_km w
  = (Returned response, w') ->
  (exists error, response = LocationNotFound error location)
  \/ exists lat lng info type_id w1 locations views,
       response = SearchResults location (lat, lng) info radius_km
                    (Z.of_nat (length locations)) views
       /\ get_locations (rt_FruitLocation_new rt) lat lng radius_km
            type_id 50 w1 = (Ok locations, w')
       /\ Forall2 (fun loc view =>
                     view_location rt (month_of rt (clock w')) lat lng loc
                     = Returned view)
                  locations views.
Proof.
  unfold search_fruit_locations.
  destruct (LocationHelper.geocode_location rt location) as [[lat lng] |];
    [| intros [= <- <-]; left; eexists; reflexivity].
  unfold tbind at 1.
  destruct (resolve_type_filter rt fruit_type w) as [[[type_id info] | e] w1];
    [| discriminate].
  cbn [fst snd]. unfold tbind at 1. unfold await.
  destruct (get_locations (rt_FruitLocation_new rt) lat lng radius_km
              type_id 50 w1) as [[locations | e] w2] eqn:Hloc;
    [| discriminate].
  destruct locations as [| loc rest].
  - intros [= <- <-]. right.
    exists lat, lng, info, type_id, w1, [], [].
    split; [reflexivity |]. split; [exact Hloc | constructor].
  - unfold tbind, now_month, settle, tret.
    destruct (view_locations rt (month_of rt (clock w2)) lat lng
                (loc :: rest) []) as [views |] eqn:Hviews; [| discriminate].
    intros [= <- <-]. right.
    exists lat, lng, info, type_id, w1, (loc :: rest), views.
    split; [reflexivity |]. split; [exact Hloc |].
    apply view_locations_returned in Hviews as [built [-> Hall]].
    exact Hall.
Qed.

(** X16.  In a result of [search_fruit_locations], [total_found] is the
    number of locations listed and is at most 50, and every location
    listed lies within the radius of the search centre: its
    [distance_km] is the rounded haversine distance, and that distance
    does not exceed [radius_km]. *)
Theorem search_results_consistent (rt : runtime) (location : string)
    (fruit_type : option string) (radius_km : Z) (w w' : world)
    (place : string) (centre : R * R) (info : option type_info)
    (radius total : Z) (views : list location_view) :
  search_fruit_locations rt location fruit_type radius_km w
  = (Returned (SearchResults place centre info radius total views), w') ->
  place = location
  /\ radius = radius_km
  /\ total = Z.of_nat (length views)
  /\ total <= 50
  /\ forall view,
       In view views ->
       exists distance,
         Haversine._calculate_distance (fst centre) (snd centre)
           (fst (coordinates view)) (snd (coordinates view)) = Ok distance
         /\ (distance <= IZR radius_km)%R
         /\ distance_km view = round1 rt distance.
Proof.
  intros Hrun.
  apply search_results_inv in Hrun as [[error Hr] | Hr]; [discriminate |].
  destruct Hr as [lat [lng [info' [type_id [w1 [locations [views'
    [Hresp [Hloc Hall]]]]]]]]].
  injection Hresp as -> -> -> -> -> ->.
  apply get_locations_within in Hloc as [Hlen Hwithin].
  pose proof (Forall2_length _ _ _ Hall) as Hsame.
  split; [reflexivity |]. split; [reflexivity |].
  split; [now rewrite Hsame |]. split; [lia |].
  intros view Hview. cbn [fst snd].
  apply list_elem_of_In in Hview.
  destruct (proj1 (list_elem_of_lookup _ _) Hview) as [i Hi].
  destruct (Forall2_lookup_r _ _ _ _ _ Hall Hi) as [loc [Hloc Hbuilt]].
  apply view_location_returned in Hbuilt as [-> [_ [distance [Hd Hround]]]].
  exists distance. cbn [fst snd]. split; [exact Hd |]. split; [| exact Hround].
  destruct (Hwithin loc) as [distance' [Hd' Hle]].
  - apply list_elem_of_In. now apply (list_elem_of_lookup_2 _ i).
  - rewrite Hd in Hd'. now injection Hd' as <-.
Qed.

Lemma view_near_location :
  view_location sample_runtime 6 0 0 near_location = Returned near_view.
Proof.
  unfold view_location.
  change (FruitLocation.lat near_location) with 0%R.
  change (FruitLocation.lng near_location) with 0%R.
  rewrite _calculate_distance_same. reflexivity.
Qed.

Lemma search_near_far :
  search_fruit_locations sample_runtime "here" None 10
    (fresh_world 0 (Returns (JList [near_item; far_item])))
  = (Returned (SearchResults "here" (0%R, 0%R) None 10 1 [near_view]),
     after_request (fresh_world 0 (Returns (JList [near_item; far_item])))
       (locations_request
          (self (fresh_world 0 (Returns (JList [near_item; far_item]))))
          "secret" 0 0 None 50)).
Proof.
  unfold search_fruit_locations, LocationHelper.geocode_location.
  change (geolocator_geocode sample_runtime "here") with (GeocodeAt 0 0).
  change (rt_FruitLocation_new sample_runtime) with strict_FruitLocation.
  unfold tbind, await, resolve_type_filter, tret. cbn [fst snd].
  rewrite get_locations_near_far.
  unfold now_month, settle.
  change (month_of sample_runtime _) with 6.
  cbn [view_locations]. rewrite view_near_location. reflexivity.
Qed.

Lemma search_results_consistent_witness :
  "here"%string = "here"%string
  /\ 10 = 10
  /\ 1 = Z.of_nat (length [near_view])
  /\ 1 <= 50
  /\ forall view,
       In view [near_view] ->
       exists distance,
         Haversine._calculate_distance (fst (0%R, 0%R)) (snd (0%R, 0%R))
           (fst (coordinates view)) (snd (coordinates view)) = Ok distance
         /\ (distance <= IZR 10)%R
         /\ distance_km view = round1 sample_runtime distance.
Proof.
  apply (search_results_consistent sample_runtime "here" None 10
           (fresh_world 0 (Returns (JList [near_item; far_item]))) _
           "here" (0%R, 0%R) None 10 1 [near_view] search_near_far).
Defined.

Lemma view_location_good_months (rt : runtime) (current_month : Z)
    (lat lng : R) (loc : FruitLocation.t) :
  ~ odd_season loc ->
  exists view, view_location rt current_month lat lng loc = Returned view.
Proof.
  intros Hgood. unfold view_location.
  destruct (distance_range lat lng
              (FruitLocation.lat loc) (FruitLocation.lng loc))
    as [distance [-> _]].
  destruct (FruitLocation.season_start loc) as [a |] eqn:Ha,
           (FruitLocation.season_stop loc) as [b |] eqn:Hb;
    try (eexists; reflexivity).
  assert (Hrange : -11 <= a <= 12 /\ -11 <= b <= 12).
  { destruct (Z_lt_ge_dec a (-11)), (Z_lt_ge_dec 12 a),
             (Z_lt_ge_dec b (-11)), (Z_lt_ge_dec 12 b);
      try lia; exfalso; apply Hgood; exists a, b;
      (split; [exact Ha | split; [exact Hb | lia]]). }
  destruct (format_season_returns a b Hrange) as [text ->].
  eexists. reflexivity.
Qed.

Lemma view_locations_good_months (rt : runtime) (current_month : Z)
    (lat lng : R) (locations : list FruitLocation.t)
    (acc : list location_view) :
  (forall loc, In loc locations -> ~ odd_season loc) ->
  exists views,
    view_locations rt current_month lat lng locations acc = Returned views.
Proof.
  revert acc. induction locations as [| loc rest IH]; intros acc Hgood.
  - now exists acc.
  - cbn [view_locations].
    destruct (view_location_good_months rt current_month lat lng loc
                (Hgood loc (or_introl eq_refl))) as [view ->].
    cbn [outcome_bind]. apply IH. intros other Hin.
    apply Hgood. now right.
Qed.

(** X17.  Once the locations of a search have been fetched, the search
    raises [IndexError] if one of them has both season months given and
    one of the two outside -11..12: the season is formatted outside any
    [try], so the record is not skipped.  If no location is like that
    (a month is missing, or both are within -11..12) the search
    returns. *)
Theorem search_raises_on_odd_month (rt : runtime) (location : string)
    (fruit_type : option string) (radius_km : Z) (w w1 w2 : world)
    (lat lng : R) (filter : option Z * option type_info)
    (locations : list FruitLocation.t) :
  geolocator_geocode rt location = GeocodeAt lat lng ->
  resolve_type_filter rt fruit_type w = (Returned filter, w1) ->
  get_locations (rt_FruitLocation_new rt) lat lng radius_km (fst filter) 50
    w1 = (Ok locations, w2) ->
  ((exists loc, In loc locations /\ odd_season loc) ->
   search_fruit_locations rt location fruit_type radius_km w
   = (Raised IndexError, w2))
  /\ ((forall loc, In loc locations -> ~ odd_season loc) ->
      exists response,
        search_fruit_locations rt location fruit_type radius_km w
        = (Returned response, w2)).
Proof.
  intros Hgeo Hfilter Hloc.
  split;
    (unfold search_fruit_locations, LocationHelper.geocode_location;
     rewrite Hgeo; unfold tbind at 1; rewrite Hfilter;
     unfold tbind at 1; unfold await; rewrite Hloc).
  - intros [bad [Hin [a [b [Ha [Hb Hout]]]]]].
    destruct locations as [| loc rest]; [destruct Hin |].
    unfold tbind, now_month, settle.
    rewrite (view_locations_bad_month rt _ lat lng (loc :: rest) []);
      [reflexivity |].
    now exists bad, a, b.
  - intros Hgood. destruct locations as [| loc rest].
    + eexists. reflexivity.
    + unfold tbind, now_month, settle.
      destruct (view_locations_good_months rt (month_of rt (clock w2))
                  lat lng (loc :: rest) [] Hgood) as [views ->].
      eexists. reflexivity.
Qed.

Lemma kept_odd_season_item :
  kept_location strict_FruitLocation 0 0 10 odd_season_item
  = Some odd_season_location.
Proof.
  unfold kept_location.
  change (parse_location strict_FruitLocation odd_season_item)
    with (Ok odd_season_location).
  cbv beta iota. change (10 =? 0) with false. cbv beta iota.
  change (FruitLocation.lat odd_season_location) with 0%R.
  change (FruitLocation.lng odd_season_location) with 0%R.
  rewrite _calculate_distance_same.
  destruct (Rle_dec 0 (IZR 10)) as [| Hn]; [reflexivity |].
  exfalso. apply Hn. apply IZR_le. lia.
Qed.

Lemma get_locations_near_odd :
  get_locations strict_FruitLocation 0 0 10 None 50
    (fresh_world 0 (Returns (JList [near_item; odd_season_item])))
  = (Ok [near_location; odd_season_location],
     after_request
       (fresh_world 0 (Returns (JList [near_item; odd_season_item])))
       (locations_request
          (self (fresh_world 0
                   (Returns (JList [near_item; odd_season_item]))))
          "secret" 0 0 None 50)).
Proof.
  rewrite get_locations_sample. cbn [omap list_omap].
  rewrite (kept_near_item 10), kept_odd_season_item by lia. reflexivity.
Qed.

Lemma search_raises_on_odd_month_witness :
  search_fruit_locations sample_runtime "here" None 10
    (fresh_world 0 (Returns (JList [near_item; odd_season_item])))
  = (Raised IndexError,
     after_request
       (fresh_world 0 (Returns (JList [near_item; odd_season_item])))
       (locations_request
          (self (fresh_world 0
                   (Returns (JList [near_item; odd_season_item]))))
          "secret" 0 0 None 50)).
Proof.
  apply (proj1
           (search_raises_on_odd_month sample_runtime "here" None 10
              (fresh_world 0 (Returns (JList [near_item; odd_season_item])))
              (fresh_world 0 (Returns (JList [near_item; odd_season_item])))
              _ 0 0 (None, None) [near_location; odd_season_location]
              eq_refl eq_refl get_locations_near_odd)).
  exists odd_season_location.
  split; [right; left; reflexivity |].
  exists 5, 13.
  split; [reflexivity |]. split; [reflexivity | lia].
Defined.

(** ** The tools [get_id_for_fruit] and [find_fruit_types] *)

Lemma suggest_names_none (lower : string -> string) (fruit_name : string)
    (ft : FruitType.t) (all_names : list string)
    (suggestions : list suggestion) :
  existsb (fun name => str_contains (lower fruit_name) (lower name))
          all_names = false ->
  suggest_names lower fruit_name ft all_names suggestions = suggestions.
Proof.
  induction all_names as [| name rest IH]; simpl; [reflexivity |].
  intros H. apply orb_false_iff in H as [Hname Hrest].
  rewrite Hname. now apply IH.
Qed.

Lemma suggest_types_none (lower : string -> string) (fruit_name : string)
    (all_types : list FruitType.t) :
  (forall t, In t all_types ->
             name_matches lower (lower fruit_name) t = false) ->
  suggest_types lower fruit_name all_types [] = [].
Proof.
  induction all_types as [| ft rest IH]; simpl; [reflexivity |].
  intros H.
  rewrite suggest_names_none by (apply (H ft); now left).
  simpl. apply IH. intros t Ht. apply H. now right.
Qed.

(** A taxonomy the method returned is what the cache holds afterwards,
    and a later call that finds the entry young enough returns it
    again. *)
Lemma get_all_types_later FruitType_new (w w1 : world)
    (all_types : list FruitType.t) (now : datetime)
    (service : request -> http_outcome) :
  get_all_types FruitType_new w = (Ok all_types, w1) ->
  cache_fresh_at (self w1) now ->
  get_all_types FruitType_new (later w1 now service)
  = (Ok all_types, later w1 now service).
Proof.
  intros Hall Hfresh.
  assert (Hstored : exists key stamp,
             api_key (self w1) = Some key /\ key <> EmptyString
             /\ _types_cache (self w1) = Some all_types
             /\ _cache_timestamp (self w1) = Some stamp).
  { unfold get_all_types, bind, get_self, raise, datetime_now, ret,
      http_get_json, lift, store_cache in Hall.
    destruct (api_key (self w)) as [[| c key] |] eqn:Hkey;
      try discriminate.
    unfold cache_lookup in Hall.
    destruct (_types_cache (self w)) as [cache |] eqn:Hcache;
      [destruct (_cache_timestamp (self w)) as [stamp |] eqn:Hstamp;
       [destruct (clock w - stamp <? _cache_duration (self w)) |] |].
    1: { injection Hall as <- <-. exists (String c key), stamp.
         repeat split; [exact Hkey | discriminate | exact Hcache
                       | exact Hstamp]. }
    all: destruct (remote w _) as [| data]; [discriminate |];
      destruct (py_iter data) as [items |]; [| discriminate];
      cbn in Hall; injection Hall as <- <-;
      exists (String c key), (clock w);
      repeat split; try assumption; discriminate. }
  destruct Hstored as [key [stamp [Hkey [Hne [Hcache Hstamp]]]]].
  unfold get_all_types, bind, get_self, datetime_now, ret, cache_lookup.
  cbn [later self clock]. rewrite Hkey.
  destruct key as [| c key]; [congruence |].
  rewrite Hcache, Hstamp.
  change (clock (later w1 now service)) with now.
  destruct (now - stamp <? _cache_duration (self w1)) eqn:Hage;
    [reflexivity |].
  apply Z.ltb_ge in Hage. specialize (Hfresh stamp Hstamp). lia.
Qed.

(** X18.  [get_id_for_fruit] reads the taxonomy twice, and the clock
    with it.  When the entry the first read leaves in the cache is still
    younger than the cache duration at the second reading of the clock,
    the "not found" answer carries no suggestion: it is given only when
    no cached name contains the query, and the suggestions are the names
    that contain the query, read from the same entry.  (An entry that
    expires between the two readings is fetched again, and the
    suggestions come from the new taxonomy.) *)
Theorem get_id_for_fruit_no_suggestions (rt : runtime) (fruit_name : string)
    (w w' : world) (query message tip : string)
    (suggestions : list suggestion) :
  cache_fresh_at
    (self (snd (find_fruit_type_by_name (rt_FruitType_new rt) (rt_lower rt)
                  fruit_name w)))
    (next_now rt (clock w)) ->
  get_id_for_fruit rt fruit_name w
  = (Returned (NoMatch query message suggestions tip), w') ->
  suggestions = [].
Proof.
  intros Hfresh. rewrite find_fruit_type_by_name_world in Hfresh.
  unfold get_id_for_fruit, tbind at 1. unfold await at 1.
  destruct (get_all_types (rt_FruitType_new rt) w)
    as [[all_types | e] w1] eqn:Hall.
  - rewrite (find_fruit_type_by_name_run _ _ _ _ _ _ Hall).
    pose proof (first_type_spec
                  (name_matches (rt_lower rt) (rt_lower rt fruit_name))
                  all_types) as Hpartial.
    destruct (first_type (name_equals _ _) all_types); [discriminate |].
    destruct (first_type (name_matches _ _) all_types); [discriminate |].
    cbn [snd] in Hfresh.
    pose proof (proj1 (get_all_types_framed (rt_FruitType_new rt) w))
      as [_ [_ [_ [Hclock _]]]].
    rewrite Hall in Hclock. cbn [snd] in Hclock.
    unfold tbind at 1. unfold elapse. rewrite Hclock.
    unfold tbind, await.
    rewrite (get_all_types_later _ _ _ _ _ _ Hall Hfresh).
    rewrite (suggest_types_none _ _ _ Hpartial).
    unfold tret. now intros [= _ _ <- _ _].
  - unfold find_fruit_type_by_name, bind. rewrite Hall. discriminate.
Qed.

Lemma get_id_for_fruit_no_suggestions_witness :
  @nil suggestion = [].
Proof.
  apply (get_id_for_fruit_no_suggestions sample_runtime "plum"
           (cached_world [apple_type; crabapple_type])
           (later (cached_world [apple_type; crabapple_type])
              (timedelta_hours 1 + 1) (fun _ => Fails))
           "plum" "No exact match found for 'plum'"
           "Try searching with more specific terms like 'red apple' or 'sweet cherry'"
           []).
  - intros stamp Hstamp. vm_compute in Hstamp.
    injection Hstamp as <-. vm_compute. reflexivity.
  - reflexivity.
Defined.

Lemma list_types_map (types : list FruitType.t) :
  list_types types = map info_of types.
Proof.
  unfold list_types.
  rewrite (fold_left_append (fun t => Some (info_of t))).
  - induction types as [| t types IH]; [reflexivity |].
    cbn. now rewrite <- IH.
  - reflexivity.
Qed.

(** X19.  [find_fruit_types] lists, in cache order, the id, name and
    scientific name of every type [get_types] returns for the query, and
    [total_found] is their number; the empty query therefore lists the
    whole taxonomy, not nothing. *)
Theorem find_fruit_types_lists_matches (rt : runtime) (query : string)
    (w w' : world) (all_types : list FruitType.t) :
  get_all_types (rt_FruitType_new rt) w = (Ok all_types, w') ->
  let matches :=
    match query with
    | EmptyString => all_types
    | _ => List.filter
             (name_matches (rt_lower rt) (rt_lower rt query)) all_types
    end in
  find_fruit_types rt query w
  = (Returned {| types_query := query;
                 types_total_found := Z.of_nat (length matches);
                 types_found := map info_of matches |}, w').
Proof.
  intros Hall matches. unfold find_fruit_types, tbind, await.
  rewrite (get_types_run _ _ _ _ _ _ Hall).
  fold matches. destruct matches as [| t rest]; [reflexivity |].
  unfold tret. now rewrite list_types_map.
Qed.

Lemma find_fruit_types_lists_matches_witness :
  find_fruit_types sample_runtime "" (cached_world [apple_type])
  = (Returned {| types_query := "";
                 types_total_found := Z.of_nat (length [apple_type]);
                 types_found := map info_of [apple_type] |},
     cached_world [apple_type]).
Proof.
  apply (find_fruit_types_lists_matches sample_runtime ""
           (cached_world [apple_type]) (cached_world [apple_type])
           [apple_type]).
  apply cached_world_run.
Defined.

(** ** Sorting by a key *)

Section SortBy.

Context {A : Type} (key : A -> R).

Lemma insert_by_perm (x : A) (l : list A) :
  Permutation (insert_by key x l) (x :: l).
Proof.
  induction l as [| y l IH]; simpl; [reflexivity |].
  destruct (Rle_dec (key x) (key y)); [reflexivity |].
  rewrite IH. apply perm_swap.
Qed.

Lemma sort_by_perm (l : list A) : Permutation (sort_by key l) l.
Proof.
  induction l as [| x l IH]; simpl; [reflexivity |].
  rewrite insert_by_perm. now constructor.
Qed.

Lemma insert_by_hd (x y : A) (l : list A) :
  key_le key y x ->
  HdRel (key_le key) y l -> HdRel (key_le key) y (insert_by key x l).
Proof.
  intros Hyx Hl. destruct l as [| z l]; simpl; [now constructor |].
  destruct (Rle_dec (key x) (key z)); constructor; trivial.
  now inversion Hl.
Qed.

Lemma insert_by_sorted (x : A) (l : list A) :
  Sorted (key_le key) l -> Sorted (key_le key) (insert_by key x l).
Proof.
  induction 1 as [| y l Hl IH Hhd]; simpl; [repeat constructor |].
  destruct (Rle_dec (key x) (key y)) as [Hle | Hgt].
  - constructor; [now constructor | now constructor].
  - constructor; [exact IH |].
    apply insert_by_hd; [| exact Hhd]. unfold key_le. lra.
Qed.

Lemma sort_by_sorted (l : list A) : Sorted (key_le key) (sort_by key l).
Proof.
  induction l as [| x l IH]; simpl; [constructor |].
  now apply insert_by_sorted.
Qed.

Lemma sort_by_fixed (l : list A) : Sorted (key_le key) l -> sort_by key l = l.
Proof.
  induction 1 as [| x l Hl IH Hhd]; simpl; [reflexivity |].
  rewrite IH. destruct Hhd as [| y l' Hxy]; simpl; [reflexivity |].
  destruct (Rle_dec (key x) (key y)); [reflexivity | contradiction].
Qed.

End SortBy.

(** ** The tool [get_location_details] *)

Lemma detail_locations_returned (rt : runtime) (current_month : Z)
    (lat lng : R) (all_types : list FruitType.t)
    (locations : list FruitLocation.t) (acc views : list detail_view) :
  detail_locations rt current_month lat lng all_types locations acc
  = Returned views ->
  exists built,
    views = acc ++ built
    /\ Forall2 (fun loc view =>
                  detail_location rt current_month lat lng all_types loc
                  = Returned view)
               locations built.
Proof.
  revert acc. induction locations as [| loc rest IH]; intros acc; simpl.
  - intros [= <-]. exists []. rewrite app_nil_r. split; [reflexivity |].
    constructor.
  - destruct (detail_location rt current_month lat lng all_types loc)
      as [view |] eqn:Hv; [| discriminate].
    cbn [outcome_bind]. intros Hrest.
    destruct (IH _ Hrest) as [built [-> Hall]].
    exists (view :: built). rewrite <- app_assoc. split; [reflexivity |].
    now constructor.
Qed.

Lemma detail_location_returned (rt : runtime) (current_month : Z)
    (lat lng : R) (all_types : list FruitType.t) (loc : FruitLocation.t)
    (view : detail_view) :
  detail_location rt current_month lat lng all_types loc = Returned view ->
  detail_coordinates view = (FruitLocation.lat loc, FruitLocation.lng loc)
  /\ exists distance,
       Haversine._calculate_distance lat lng
         (FruitLocation.lat loc) (FruitLocation.lng loc) = Ok distance
       /\ detail_distance_km view = round1 rt distance.
Proof.
  unfold detail_location.
  destruct (Haversine._calculate_distance lat lng
              (FruitLocation.lat loc) (FruitLocation.lng loc))
    as [distance |]; [| discriminate].
  destruct (SeasonHelper.format_season (FruitLocation.season_start loc)
                                       (FruitLocation.season_stop loc))
    as [text |]; [| discriminate].
  cbn [outcome_bind]. intros [= <-]. cbn.
  split; [reflexivity |]. now exists distance.
Qed.

Lemma get_location_details_inv (rt : runtime) (location : string)
    (fruit_type : option string) (radius_km : Z) (w w' : world)
    (response : details_response) :
  get_location_details rt location fruit_type radius_km w
  = (Returned response, w') ->
  (exists error, response = DetailsNotFound error location)
  \/ exists lat lng info type_id w1 w2 all_types locations built,
       response = DetailsResults location (lat, lng) info radius_km
                    (Z.of_nat (length locations))
                    (sort_by detail_distance_km built)
       /\ get_locations (rt_FruitLocation_new rt) lat lng radius_km
            type_id 20 w1 = (Ok locations, w2)
       /\ Forall2 (fun loc view =>
                     detail_location rt (month_of rt (clock w')) lat lng
                       all_types loc = Returned view)
                  locations built.
Proof.
  unfold get_location_details.
  destruct (LocationHelper.geocode_location rt location) as [[lat lng] |];
    [| intros [= <- <-]; left; eexists; reflexivity].
  unfold tbind at 1.
  destruct (resolve_type_filter rt fruit_type w) as [[[type_id info] | e] w1];
    [| discriminate].
  cbn [fst snd]. unfold tbind at 1. unfold await at 1.
  destruct (get_locations (rt_FruitLocation_new rt) lat lng radius_km
              type_id 20 w1) as [[locations | e] w2] eqn:Hloc;
    [| discriminate].
  destruct locations as [| loc rest].
  - intros [= <- <-]. right.
    exists lat, lng, info, type_id, w1, w2, [], [], [].
    split; [reflexivity |]. split; [exact Hloc | constructor].
  - unfold tbind at 1. unfold await.
    destruct (get_types (rt_FruitType_new rt) (rt_lower rt) None w2)
      as [[all_types | e] w3]; [| discriminate].
    unfold tbind, now_month, settle, tret.
    destruct (detail_locations rt (month_of rt (clock w3)) lat lng
                all_types (loc :: rest) []) as [views |] eqn:Hviews;
      [| discriminate].
    intros [= <- <-]. right.
    apply detail_locations_returned in Hviews as [built [-> Hall]].
    exists lat, lng, info, type_id, w1, w2, all_types, (loc :: rest), built.
    split; [reflexivity |]. split; [exact Hloc | exact Hall].
Qed.

(** X20.  In a result of [get_location_details] the locations are listed
    in ascending order of [distance_km]; [total_found] is their number
    and is at most 20; and each one's [distance_km] is the rounded
    haversine distance from the search centre, which does not exceed
    [radius_km]. *)
Theorem get_location_details_sorted (rt : runtime) (location : string)
    (fruit_type : option string) (radius_km : Z) (w w' : world)
    (place : string) (centre : R * R) (info : option type_info)
    (radius total : Z) (views : list detail_view) :
  get_location_details rt location fruit_type radius_km w
  = (Returned (DetailsResults place centre info radius total views), w') ->
  Sorted (key_le detail_distance_km) views
  /\ total = Z.of_nat (length views)
  /\ total <= 20
  /\ forall view,
       In view views ->
       exists distance,
         Haversine._calculate_distance (fst centre) (snd centre)
           (fst (detail_coordinates view)) (snd (detail_coordinates view))
         = Ok distance
         /\ (distance <= IZR radius_km)%R
         /\ detail_distance_km view = round1 rt distance.
Proof.
  intros Hrun.
  apply get_location_details_inv in Hrun as [[error Hr] | Hr];
    [discriminate |].
  destruct Hr as [lat [lng [info' [type_id [w1 [w2 [all_types [locations
    [built [Hresp [Hloc Hall]]]]]]]]]]].
  injection Hresp as -> -> -> -> -> ->.
  apply get_locations_within in Hloc as [Hlen Hwithin].
  pose proof (Forall2_length _ _ _ Hall) as Hsame.
  pose proof (sort_by_perm detail_distance_km built) as Hperm.
  split; [apply sort_by_sorted |].
  split; [now rewrite (Permutation_length Hperm), Hsame |].
  split; [lia |].
  intros view Hview. cbn [fst snd].
  apply (Permutation_in _ Hperm) in Hview.
  apply list_elem_of_In in Hview.
  destruct (proj1 (list_elem_of_lookup _ _) Hview) as [i Hi].
  destruct (Forall2_lookup_r _ _ _ _ _ Hall Hi) as [loc [Hlook Hbuilt]].
  apply detail_location_returned in Hbuilt as [-> [distance [Hd Hround]]].
  exists distance. cbn [fst snd]. split; [exact Hd |]. split; [| exact Hround].
  destruct (Hwithin loc) as [distance' [Hd' Hle]].
  - apply list_elem_of_In. now apply (list_elem_of_lookup_2 _ i).
  - rewrite Hd in Hd'. now injection Hd' as <-.
Qed.

Lemma detail_near_location (all_types : list FruitType.t) :
  detail_location sample_runtime 6 0 0 all_types near_location
  = Returned near_detail.
Proof.
  unfold detail_location.
  change (FruitLocation.lat near_location) with 0%R.
  change (FruitLocation.lng near_location) with 0%R.
  rewrite _calculate_distance_same. reflexivity.
Qed.

Lemma ready_world_after_run FruitType_new (cache : list FruitType.t)
    (answer : http_outcome) (r : request) :
  get_all_types FruitType_new (after_request (ready_world cache answer) r)
  = (Ok cache, after_request (ready_world cache answer) r).
Proof. reflexivity. Qed.

Lemma get_locations_ready :
  get_locations strict_FruitLocation 0 0 10 None 20
    (ready_world [apple_type] (Returns (JList [near_item; far_item])))
  = (Ok [near_location],
     after_request
       (ready_world [apple_type] (Returns (JList [near_item; far_item])))
       (locations_request
          (self (ready_world [apple_type]
                   (Returns (JList [near_item; far_item]))))
          "secret" 0 0 None 20)).
Proof.
  rewrite (get_locations_run strict_FruitLocation 0 0 10 None 20
             (ready_world [apple_type]
                (Returns (JList [near_item; far_item])))
             "secret" (JList [near_item; far_item]) [near_item; far_item]
             eq_refl ltac:(discriminate) eq_refl eq_refl).
  cbn [omap list_omap].
  rewrite (kept_near_item 10), kept_far_item by lia. reflexivity.
Qed.

Lemma get_location_details_near_far :
  get_location_details sample_runtime "here" None 10
    (ready_world [apple_type] (Returns (JList [near_item; far_item])))
  = (Returned (DetailsResults "here" (0%R, 0%R) None 10 1 [near_detail]),
     after_request
       (ready_world [apple_type] (Returns (JList [near_item; far_item])))
       (locations_request
          (self (ready_world [apple_type]
                   (Returns (JList [near_item; far_item]))))
          "secret" 0 0 None 20)).
Proof.
  unfold get_location_details, LocationHelper.geocode_location.
  change (geolocator_geocode sample_runtime "here") with (GeocodeAt 0 0).
  change (rt_FruitLocation_new sample_runtime) with strict_FruitLocation.
  unfold tbind at 1. unfold resolve_type_filter, tret. cbn [fst snd].
  unfold tbind at 1. unfold await at 1.
  rewrite get_locations_ready.
  unfold tbind at 1. unfold await.
  rewrite (get_types_run _ _ None _ _ _ (ready_world_after_run _ _ _ _)).
  unfold tbind, now_month, settle.
  change (month_of sample_runtime _) with 6.
  cbn [detail_locations]. rewrite detail_near_location. reflexivity.
Qed.

Lemma get_location_details_sorted_witness :
  Sorted (key_le detail_distance_km) [near_detail]
  /\ 1 = Z.of_nat (length [near_detail])
  /\ 1 <= 20
  /\ forall view,
       In view [near_detail] ->
       exists distance,
         Haversine._calculate_distance (fst (0%R, 0%R)) (snd (0%R, 0%R))
           (fst (detail_coordinates view)) (snd (detail_coordinates view))
         = Ok distance
         /\ (distance <= IZR 10)%R
         /\ detail_distance_km view = round1 sample_runtime distance.
Proof.
  apply (get_location_details_sorted sample_runtime "here" None 10
           (ready_world [apple_type] (Returns (JList [near_item; far_item])))
           _ "here" (0%R, 0%R) None 10 1 [near_detail]
           get_location_details_near_far).
Defined.

(** ** The tool [get_seasonal_fruits]: grouping *)

Lemma by_type_append_keys (type_id : Z) (loc : FruitLocation.t)
    (by_type : list (Z * list FruitLocation.t)) :
  map fst (by_type_append type_id loc by_type)
  = if existsb (Z.eqb type_id) (map fst by_type)
    then map fst by_type
    else map fst by_type ++ [type_id].
Proof.
  induction by_type as [| [k locs] rest IH]; simpl; [reflexivity |].
  rewrite (Z.eqb_sym type_id k).
  destruct (k =? type_id) eqn:E; simpl; [reflexivity |].
  rewrite IH. now destruct (existsb (Z.eqb type_id) (map fst rest)).
Qed.

Lemma by_type_append_NoDup (type_id : Z) (loc : FruitLocation.t)
    (by_type : list (Z * list FruitLocation.t)) :
  List.NoDup (map fst by_type) ->
  List.NoDup (map fst (by_type_append type_id loc by_type)).
Proof.
  intros Hnd. rewrite by_type_append_keys.
  destruct (existsb (Z.eqb type_id) (map fst by_type)) eqn:E;
    [exact Hnd |].
  apply NoDup_ListNoDup. apply NoDup_app. split; [| split].
  - now apply NoDup_ListNoDup.
  - intros k Hk Hk'. apply list_elem_of_In in Hk.
    apply list_elem_of_singleton in Hk'. subst k.
    assert (existsb (Z.eqb type_id) (map fst by_type) = true).
    { apply existsb_exists. exists type_id. split; [exact Hk |].
      apply Z.eqb_refl. }
    congruence.
  - apply NoDup_singleton.
Qed.

Lemma by_type_append_count (type_id : Z) (loc : FruitLocation.t)
    (by_type : list (Z * list FruitLocation.t)) :
  grouped_count (by_type_append type_id loc by_type)
  = S (grouped_count by_type).
Proof.
  induction by_type as [| [k locs] rest IH]; simpl; [reflexivity |].
  destruct (k =? type_id); simpl.
  - rewrite length_app. simpl. lia.
  - rewrite IH. lia.
Qed.

Lemma by_type_append_in (type_id : Z) (loc : FruitLocation.t)
    (by_type : list (Z * list FruitLocation.t)) (k : Z)
    (locs : list FruitLocation.t) :
  In (k, locs) (by_type_append type_id loc by_type) ->
  In (k, locs) by_type
  \/ (k = type_id
      /\ exists before, locs = before ++ [loc]
           /\ (before = [] \/ In (k, before) by_type)).
Proof.
  induction by_type as [| [k' locs'] rest IH]; simpl.
  - intros [[= <- <-] | []]. right. split; [reflexivity |].
    exists []. split; [reflexivity | now left].
  - destruct (k' =? type_id) eqn:E; simpl.
    + intros [[= <- <-] | Hin]; [| left; now right].
      right. split; [lia |]. exists locs'. split; [reflexivity |].
      right. now left.
    + intros [[= <- <-] | Hin]; [left; now left |].
      destruct (IH Hin) as [H | [Hk [before [Hl [Hb | Hb]]]]].
      * left. now right.
      * right. split; [exact Hk |]. exists before. split; [exact Hl |].
        now left.
      * right. split; [exact Hk |]. exists before. split; [exact Hl |].
        right. now right.
Qed.

Lemma by_type_append_has (type_id : Z) (loc : FruitLocation.t)
    (by_type : list (Z * list FruitLocation.t)) :
  exists locs,
    In (type_id, locs) (by_type_append type_id loc by_type) /\ In loc locs.
Proof.
  induction by_type as [| [k locs] rest IH]; simpl.
  - exists [loc]. split; now left.
  - destruct (k =? type_id) eqn:E.
    + exists (locs ++ [loc]). split.
      * left. f_equal. lia.
      * apply in_or_app. right. now left.
    + destruct IH as [found [Hin Hloc]]. exists found. split; [| exact Hloc].
      now right.
Qed.

Lemma by_type_append_keeps (type_id : Z) (loc : FruitLocation.t)
    (by_type : list (Z * list FruitLocation.t)) (k : Z)
    (locs : list FruitLocation.t) (x : FruitLocation.t) :
  In (k, locs) by_type -> In x locs ->
  exists locs',
    In (k, locs') (by_type_append type_id loc by_type) /\ In x locs'.
Proof.
  induction by_type as [| [k' locs'] rest IH]; simpl; [tauto |].
  intros [[= -> ->] | Hin] Hx.
  - destruct (k =? type_id).
    + exists (locs ++ [loc]). split; [now left |].
      apply in_or_app. now left.
    + exists locs. split; [now left | exact Hx].
  - destruct (k' =? type_id).
    + exists locs. split; [now right | exact Hx].
    + destruct (IH Hin Hx) as [found [Hf Hxf]].
      exists found. split; [now right | exact Hxf].
Qed.

(** What the grouping keeps, over the locations seen so far. *)
Lemma group_type_ids_spec (loc : FruitLocation.t) (type_ids done : list Z)
    (seen : list FruitLocation.t)
    (by_type : list (Z * list FruitLocation.t)) :
  FruitLocation.type_ids loc = done ++ type_ids ->
  In loc seen ->
  List.NoDup (map fst by_type) ->
  groups_sound seen by_type ->
  let result :=
    fold_left (fun by_type type_id => by_type_append type_id loc by_type)
              type_ids by_type in
  List.NoDup (map fst result)
  /\ groups_sound seen result
  /\ grouped_count result = (grouped_count by_type + length type_ids)%nat
  /\ (forall k locs x, In (k, locs) by_type -> In x locs ->
        exists locs', In (k, locs') result /\ In x locs')
  /\ (forall k, In k type_ids ->
        exists locs, In (k, locs) result /\ In loc locs).
Proof.
  revert done by_type.
  induction type_ids as [| type_id rest IH];
    intros done by_type Hids Hseen Hnd Hsound; cbn [fold_left].
  - split; [exact Hnd |]. split; [exact Hsound |].
    split; [simpl; lia |]. split.
    + intros k locs x Hin Hx. now exists locs.
    + intros k [].
  - assert (Hsound' : groups_sound seen
                        (by_type_append type_id loc by_type)).
    { intros k locs Hin.
      destruct (by_type_append_in _ _ _ _ _ Hin)
        as [Hold | [-> [before [-> Hbefore]]]]; [now apply Hsound |].
      split; [now destruct before |].
      intros x Hx. apply in_app_or in Hx as [Hx | [<- | []]].
      - destruct Hbefore as [-> | Hb]; [destruct Hx |].
        now apply (Hsound type_id before Hb).
      - split; [exact Hseen |]. rewrite Hids.
        apply in_or_app. right. now left. }
    destruct (IH (done ++ [type_id]) (by_type_append type_id loc by_type))
      as [Hnd' [Hs' [Hc' [Hkeep' Hhas']]]].
    + now rewrite <- app_assoc.
    + exact Hseen.
    + now apply by_type_append_NoDup.
    + exact Hsound'.
    + split; [exact Hnd' |]. split; [exact Hs' |]. split; [| split].
      * rewrite Hc', by_type_append_count. simpl. lia.
      * intros k locs x Hin Hx.
        destruct (by_type_append_keeps type_id loc by_type k locs x Hin Hx)
          as [mid [Hmid Hxmid]].
        now apply (Hkeep' k mid x).
      * intros k [<- | Hk]; [| now apply Hhas'].
        destruct (by_type_append_has type_id loc by_type)
          as [mid [Hmid Hxmid]].
        now apply (Hkeep' type_id mid loc).
Qed.

Lemma group_locations_spec (all rest : list FruitLocation.t)
    (by_type : list (Z * list FruitLocation.t)) :
  (forall x, In x rest -> In x all) ->
  List.NoDup (map fst by_type) ->
  groups_sound all by_type ->
  let result := fold_left group_location rest by_type in
  List.NoDup (map fst result)
  /\ groups_sound all result
  /\ grouped_count result = (grouped_count by_type + type_id_count rest)%nat
  /\ (forall k locs x, In (k, locs) by_type -> In x locs ->
        exists locs', In (k, locs') result /\ In x locs')
  /\ (forall loc k, In loc rest -> In k (FruitLocation.type_ids loc) ->
        exists locs, In (k, locs) result /\ In loc locs).
Proof.
  revert by_type. induction rest as [| loc rest IH];
    intros by_type Hall Hnd Hsound; cbn [fold_left].
  - split; [exact Hnd |]. split; [exact Hsound |].
    split; [simpl; lia |]. split.
    + intros k locs x Hin Hx. now exists locs.
    + intros loc k [].
  - destruct (group_type_ids_spec loc (FruitLocation.type_ids loc) []
                all by_type eq_refl (Hall loc (or_introl eq_refl))
                Hnd Hsound) as [Hnd1 [Hs1 [Hc1 [Hkeep1 Hhas1]]]].
    fold (group_location by_type loc) in Hnd1, Hs1, Hc1, Hkeep1, Hhas1.
    destruct (IH (group_location by_type loc)
                (fun x Hx => Hall x (or_intror Hx)) Hnd1 Hs1)
      as [Hnd2 [Hs2 [Hc2 [Hkeep2 Hhas2]]]].
    split; [exact Hnd2 |]. split; [exact Hs2 |]. split; [| split].
    + rewrite Hc2, Hc1. simpl. lia.
    + intros k locs x Hin Hx.
      destruct (Hkeep1 k locs x Hin Hx) as [mid [Hmid Hxmid]].
      now apply (Hkeep2 k mid x).
    + intros x k [<- | Hx] Hk; [| now apply (Hhas2 x k)].
      destruct (Hhas1 k Hk) as [mid [Hmid Hxmid]].
      now apply (Hkeep2 k mid loc).
Qed.

Lemma group_by_type_spec (seasonal_locations : list FruitLocation.t) :
  List.NoDup (map fst (group_by_type seasonal_locations))
  /\ groups_sound seasonal_locations (group_by_type seasonal_locations)
  /\ grouped_count (group_by_type seasonal_locations)
     = type_id_count seasonal_locations
  /\ (forall loc k,
         In loc seasonal_locations ->
         In k (FruitLocation.type_ids loc) ->
         exists locs,
           In (k, locs) (group_by_type seasonal_locations) /\ In loc locs).
Proof.
  destruct (group_locations_spec seasonal_locations seasonal_locations []
              (fun x Hx => Hx) (List.NoDup_nil _))
    as [Hnd [Hs [Hc [_ Hhas]]]].
  - intros k locs [].
  - split; [exact Hnd |]. split; [exact Hs |]. split; [exact Hc |].
    exact Hhas.
Qed.

(** ** The tool [get_seasonal_fruits]: the groups shown *)

Lemma py_min_sorted {A} (key : A -> R) (x : A) (rest : list A) :
  Sorted (key_le key) (x :: rest) ->
  py_min key (x :: rest) = Returned (key x).
Proof.
  intros Hs. apply Sorted_StronglySorted in Hs.
  - apply StronglySorted_inv in Hs as [_ Hall]. unfold py_min. f_equal.
    induction rest as [| y rest IH]; [reflexivity |].
    apply Forall_cons_iff in Hall as [Hy Hall].
    cbn [fold_left]. rewrite Rmin_left by exact Hy. now apply IH.
  - intros a b c Hab Hbc. unfold key_le in *. lra.
Qed.

Lemma seasonal_views_returned (rt : runtime) (lat lng : R)
    (locs : list FruitLocation.t) (acc views : list seasonal_location) :
  seasonal_views rt lat lng locs acc = Returned views ->
  exists built,
    views = acc ++ built
    /\ Forall2 (fun loc view => seasonal_view rt lat lng loc = Returned view)
               locs built.
Proof.
  revert acc. induction locs as [| loc rest IH]; intros acc; simpl.
  - intros [= <-]. exists []. rewrite app_nil_r. split; [reflexivity |].
    constructor.
  - destruct (seasonal_view rt lat lng loc) as [view |] eqn:Hv;
      [| discriminate].
    cbn [outcome_bind]. intros Hrest.
    destruct (IH _ Hrest) as [built [-> Hall]].
    exists (view :: built). rewrite <- app_assoc. split; [reflexivity |].
    now constructor.
Qed.

Lemma seasonal_views_total (rt : runtime) (lat lng : R)
    (locs : list FruitLocation.t) (acc : list seasonal_location) :
  exists views, seasonal_views rt lat lng locs acc = Returned views.
Proof.
  revert acc. induction locs as [| loc rest IH]; intros acc; simpl.
  - now exists acc.
  - unfold seasonal_view.
    destruct (distance_range lat lng
                (FruitLocation.lat loc) (FruitLocation.lng loc))
      as [distance [-> _]].
    cbn [outcome_bind]. apply IH.
Qed.

Lemma seasonal_view_returned (rt : runtime) (lat lng : R)
    (loc : FruitLocation.t) (view : seasonal_location) :
  seasonal_view rt lat lng loc = Returned view ->
  seasonal_id view = FruitLocation.id loc
  /\ seasonal_coordinates view
     = (FruitLocation.lat loc, FruitLocation.lng loc)
  /\ exists distance,
       Haversine._calculate_distance lat lng
         (FruitLocation.lat loc) (FruitLocation.lng loc) = Ok distance
       /\ seasonal_distance_km view = round1 rt distance.
Proof.
  unfold seasonal_view.
  destruct (Haversine._calculate_distance lat lng
              (FruitLocation.lat loc) (FruitLocation.lng loc))
    as [distance |]; [| discriminate].
  intros [= <-]. cbn. split; [reflexivity |]. split; [reflexivity |].
  now exists distance.
Qed.

(** One group, as built from its entry of [by_type]. *)
Lemma fruit_group_of_returned (rt : runtime) (lat lng : R)
    (all_types : list FruitType.t) (type_id : Z)
    (locs : list FruitLocation.t) (group : fruit_group) :
  fruit_group_of rt lat lng all_types (type_id, locs) = Returned group ->
  group_type_id group = type_id
  /\ location_count group = Z.of_nat (length locs)
  /\ exists built first rest,
       Forall2 (fun loc view => seasonal_view rt lat lng loc = Returned view)
               locs built
       /\ group_locations group = sort_by seasonal_distance_km built
       /\ group_locations group = first :: rest
       /\ closest_distance_km group
          = round1 rt (seasonal_distance_km first).
Proof.
  unfold fruit_group_of. cbn [fst snd].
  destruct (seasonal_views rt lat lng locs []) as [views |] eqn:Hviews;
    [| discriminate].
  cbn [outcome_bind].
  apply seasonal_views_returned in Hviews as [built [-> Hall]].
  cbn [app].
  pose proof (sort_by_sorted seasonal_distance_km built) as Hsorted.
  destruct (sort_by seasonal_distance_km built) as [| first rest] eqn:Hsort;
    [discriminate |].
  rewrite (py_min_sorted _ _ _ Hsorted). cbn [outcome_bind].
  intros [= <-]. cbn.
  split; [reflexivity |]. split; [reflexivity |].
  exists built, first, rest. now repeat split.
Qed.

Lemma fruit_groups_returned (rt : runtime) (lat lng : R)
    (all_types : list FruitType.t)
    (by_type : list (Z * list FruitLocation.t))
    (acc groups : list fruit_group) :
  fruit_groups rt lat lng all_types by_type acc = Returned groups ->
  exists built,
    groups = acc ++ built
    /\ Forall2 (fun entry group =>
                  fruit_group_of rt lat lng all_types entry = Returned group)
               by_type built.
Proof.
  revert acc. induction by_type as [| entry rest IH]; intros acc; simpl.
  - intros [= <-]. exists []. rewrite app_nil_r. split; [reflexivity |].
    constructor.
  - destruct (fruit_group_of rt lat lng all_types entry) as [group |] eqn:Hg;
      [| discriminate].
    cbn [outcome_bind]. intros Hrest.
    destruct (IH _ Hrest) as [built [-> Hall]].
    exists (group :: built). rewrite <- app_assoc. split; [reflexivity |].
    now constructor.
Qed.

Lemma month_steady_next (rt : runtime) (start : datetime) (count : nat) :
  month_steady rt start (S count) ->
  month_steady rt (next_now rt start) count
  /\ month_of rt (next_now rt start) = month_of rt start.
Proof.
  intros Hsteady.
  assert (Hnext : month_of rt (next_now rt start) = month_of rt start)
    by (apply (Hsteady 1%nat); lia).
  split; [| exact Hnext].
  intros n Hn. rewrite <- Nat.iter_succ_r, Hnext. apply Hsteady. lia.
Qed.

Lemma month_steady_fewer (rt : runtime) (start : datetime)
    (count fewer : nat) :
  (fewer <= count)%nat ->
  month_steady rt start count -> month_steady rt start fewer.
Proof. intros Hle Hsteady n Hn. apply Hsteady. lia. Qed.

(** The filter keeps the client, the service and the log, and leaves
    the clock one reading further for each location.  When the month
    does not change on the way, it is the filter by the month of the
    first reading. *)
Lemma seasonal_filter_run (rt : runtime) (locations : list FruitLocation.t)
    (w : world) :
  exists seasonal w',
    seasonal_filter rt locations w = (Returned seasonal, w')
    /\ self w' = self w /\ remote w' = remote w /\ sent w' = sent w
    /\ clock w' = Nat.iter (length locations) (next_now rt) (clock w)
    /\ (forall loc, In loc seasonal -> In loc locations)
    /\ (month_steady rt (clock w) (length locations) ->
        seasonal
        = List.filter (in_season_now (month_of rt (clock w))) locations).
Proof.
  revert w. induction locations as [| loc rest IH]; intros w.
  - exists [], w. now repeat split.
  - cbn [seasonal_filter]. unfold tbind at 1. unfold now_month at 1.
    unfold tbind at 1. unfold elapse at 1.
    destruct (IH (later w (next_now rt (clock w)) (remote w)))
      as [seasonal [w' [Hrun [Hself [Hremote [Hsent [Hclock
           [Hin Hsteady]]]]]]]].
    unfold tbind. rewrite Hrun. unfold tret.
    eexists _, w'. split; [reflexivity |].
    split; [exact Hself |]. split; [exact Hremote |].
    split; [exact Hsent |]. split; [| split].
    + rewrite Hclock. cbn [later clock length].
      now rewrite Nat.iter_succ_r.
    + intros other Hother.
      destruct (SeasonHelper.is_in_season _ _ _);
        [destruct Hother as [<- | Hother]; [now left |] |];
        right; now apply Hin.
    + intros Hw. destruct (month_steady_next rt (clock w) _ Hw)
        as [Hnext Hmonth].
      cbn [List.filter]. unfold in_season_now at 1.
      rewrite (Hsteady Hnext). cbn [later clock]. now rewrite Hmonth.
Qed.

Lemma get_seasonal_fruits_inv (rt : runtime) (location : string)
    (radius_km : Z) (w w' : world) (response : seasonal_response) :
  get_seasonal_fruits rt location radius_km w = (Returned response, w') ->
  (exists error, response = SeasonalNotFound error location)
  \/ exists lat lng locations w1 seasonal w2 all_types built n name,
       get_locations (rt_FruitLocation_new rt) lat lng radius_km None 100 w
       = (Ok locations, w1)
       /\ seasonal_filter rt locations w1 = (Returned seasonal, w2)
       /\ (n <= S (length locations))%nat
       /\ response
          = SeasonalResults location (lat, lng) radius_km
              (month_of rt (Nat.iter n (next_now rt) (clock w))) name
              (Z.of_nat (length seasonal))
              (sort_by closest_distance_km built)
       /\ Forall2 (fun entry group =>
                     fruit_group_of rt lat lng all_types entry
                     = Returned group)
                  (group_by_type seasonal) built.
Proof.
  unfold get_seasonal_fruits.
  destruct (LocationHelper.geocode_location rt location) as [[lat lng] |];
    [| intros [= <- <-]; left; eexists; reflexivity].
  unfold tbind at 1. unfold await at 1.
  pose proof (proj2 (get_locations_world (rt_FruitLocation_new rt) lat lng
                       radius_km None 100 w))
    as [_ [_ [_ [Hclock1 _]]]].
  destruct (get_locations (rt_FruitLocation_new rt) lat lng radius_km
              None 100 w) as [[locations | e] w1] eqn:Hloc;
    [| discriminate].
  cbn [snd] in Hclock1.
  unfold tbind at 1.
  destruct (seasonal_filter_run rt locations w1)
    as [seasonal [w2 [Hfilter [_ [_ [_ [Hclock2 _]]]]]]].
  rewrite Hfilter. rewrite Hclock1 in Hclock2.
  destruct seasonal as [| loc rest].
  - unfold tbind, now_month, elapse, now_month_name, tret.
    intros [= <- <-]. right.
    exists lat, lng, locations, w1, [], w2, [], [],
      (length locations). eexists.
    split; [exact Hloc |]. split; [exact Hfilter |].
    split; [lia |].
    rewrite Hclock2. split; [reflexivity | constructor].
  - unfold tbind at 1. unfold await.
    pose proof (get_all_types_framed (rt_FruitType_new rt) w2)
      as [[_ [_ [_ [Hclock _]]]] _].
    rewrite <- (get_types_world (rt_FruitType_new rt) (rt_lower rt) None)
      in Hclock.
    destruct (get_types (rt_FruitType_new rt) (rt_lower rt) None w2)
      as [[all_types | e] w3]; [| discriminate].
    cbn [snd] in Hclock.
    unfold tbind at 1. unfold elapse at 1.
    unfold tbind at 1. unfold settle.
    destruct (fruit_groups rt lat lng all_types
                (group_by_type (loc :: rest)) []) as [groups |] eqn:Hgroups;
      [| discriminate].
    unfold tbind, now_month, elapse, now_month_name, tret.
    intros [= <- <-]. right.
    apply fruit_groups_returned in Hgroups as [built [-> Hall]].
    exists lat, lng, locations, w1, (loc :: rest), w2, all_types, built,
      (S (length locations)). eexists.
    split; [exact Hloc |]. split; [exact Hfilter |].
    split; [lia |].
    cbn [later clock]. rewrite Hclock, Hclock2.
    split; [reflexivity | exact Hall].
Qed.

Lemma built_groups_keys (rt : runtime) (lat lng : R)
    (all_types : list FruitType.t)
    (by_type : list (Z * list FruitLocation.t)) (built : list fruit_group) :
  Forall2 (fun entry group =>
             fruit_group_of rt lat lng all_types entry = Returned group)
          by_type built ->
  map group_type_id built = map fst by_type
  /\ total_listed built = Z.of_nat (grouped_count by_type).
Proof.
  induction 1 as [| [type_id locs] group by_type built Hg Hall [IHk IHc]];
    [split; reflexivity |].
  apply fruit_group_of_returned in Hg as [Hid [Hcount _]].
  split.
  - cbn [map fst]. now rewrite Hid, IHk.
  - cbn [total_listed fold_right grouped_count snd].
    fold (total_listed built). fold (grouped_count by_type).
    rewrite Hcount, IHc. lia.
Qed.

Lemma total_listed_perm (groups groups' : list fruit_group) :
  Permutation groups groups' -> total_listed groups = total_listed groups'.
Proof.
  induction 1 as [| g l l' _ IH | g g' l | l l' l'' _ IH1 _ IH2]; simpl.
  - reflexivity.
  - fold (total_listed l). fold (total_listed l'). now rewrite IH.
  - fold (total_listed l). lia.
  - congruence.
Qed.

Lemma built_group_entry (rt : runtime) (lat lng : R)
    (all_types : list FruitType.t)
    (by_type : list (Z * list FruitLocation.t)) (built : list fruit_group)
    (group : fruit_group) :
  Forall2 (fun entry group =>
             fruit_group_of rt lat lng all_types entry = Returned group)
          by_type built ->
  In group built ->
  exists type_id locs,
    In (type_id, locs) by_type
    /\ fruit_group_of rt lat lng all_types (type_id, locs) = Returned group.
Proof.
  intros Hall Hin. apply list_elem_of_In in Hin.
  destruct (proj1 (list_elem_of_lookup _ _) Hin) as [i Hi].
  destruct (Forall2_lookup_r _ _ _ _ _ Hall Hi) as [[type_id locs] [Hl Hg]].
  exists type_id, locs. split; [| exact Hg].
  apply list_elem_of_In. now apply (list_elem_of_lookup_2 _ i).
Qed.

(** X21.  In a result of [get_seasonal_fruits] the fruit types are
    listed in ascending order of [closest_distance_km] and no type id
    occurs twice; each fruit type lists at least one location,
    [location_count] is the number it lists, its locations are in
    ascending order of [distance_km], and its [closest_distance_km] is
    the rounded [distance_km] of the first of them. *)
Theorem get_seasonal_fruits_groups (rt : runtime) (location : string)
    (radius_km : Z) (w w' : world) (place : string) (centre : R * R)
    (radius month : Z) (month_name : string) (total : Z)
    (fruit_types : list fruit_group) :
  get_seasonal_fruits rt location radius_km w
  = (Returned (SeasonalResults place centre radius month month_name total
                 fruit_types), w') ->
  Sorted (key_le closest_distance_km) fruit_types
  /\ List.NoDup (map group_type_id fruit_types)
  /\ forall group,
       In group fruit_types ->
       location_count group = Z.of_nat (length (group_locations group))
       /\ 1 <= location_count group
       /\ Sorted (key_le seasonal_distance_km) (group_locations group)
       /\ exists first rest,
            group_locations group = first :: rest
            /\ closest_distance_km group
               = round1 rt (seasonal_distance_km first).
Proof.
  intros Hrun.
  apply get_seasonal_fruits_inv in Hrun as [[error Hr] | Hr];
    [discriminate |].
  destruct Hr as [lat [lng [locations [w1 [seasonal [w2 [all_types [built
    [n [name [Hloc [Hfilter [_ [Hresp Hall]]]]]]]]]]]]]].
  injection Hresp as -> -> -> -> -> -> ->.
  destruct (group_by_type_spec seasonal) as [Hnd [Hsound _]].
  pose proof (sort_by_perm closest_distance_km built) as Hperm.
  split; [apply sort_by_sorted |]. split.
  - apply (Permutation_NoDup (l := map group_type_id built)).
    + apply Permutation_map. now symmetry.
    + now rewrite (proj1 (built_groups_keys _ _ _ _ _ _ Hall)).
  - intros group Hgroup. apply (Permutation_in _ Hperm) in Hgroup.
    destruct (built_group_entry _ _ _ _ _ _ _ Hall Hgroup)
      as [type_id [locs [Hentry Hg]]].
    destruct (Hsound type_id locs Hentry) as [Hne _].
    apply fruit_group_of_returned in Hg
      as [_ [Hcount [views [first [rest [Hviews [Hsorted [Hfirst Hclosest]]]]]]]].
    pose proof (Forall2_length _ _ _ Hviews) as Hlen.
    pose proof (Permutation_length
                  (sort_by_perm seasonal_distance_km views)) as Hlen'.
    split; [rewrite Hcount, Hsorted; lia |].
    split; [rewrite Hcount; destruct locs; [congruence | simpl; lia] |].
    split; [rewrite Hsorted; apply sort_by_sorted |].
    now exists first, rest.
Qed.

(** X22.  Every location listed under a fruit type in a result of
    [get_seasonal_fruits] is one of the locations [get_locations]
    returned for the centre and radius with limit 100; it carries the
    type id it is listed under, and its [distance_km] is the rounded
    haversine distance, which does not exceed the radius.  The clock is
    read once for each location and again for the report: when all the
    readings of the call fall in one month, every listed location is in
    season in the month reported. *)
Theorem get_seasonal_fruits_sound (rt : runtime) (location : string)
    (radius_km : Z) (w w' : world) (place : string) (centre : R * R)
    (radius month : Z) (month_name : string) (total : Z)
    (fruit_types : list fruit_group) :
  month_steady rt (clock w) 102 ->
  get_seasonal_fruits rt location radius_km w
  = (Returned (SeasonalResults place centre radius month month_name total
                 fruit_types), w') ->
  exists locations w1,
    get_locations (rt_FruitLocation_new rt) (fst centre) (snd centre)
      radius_km None 100 w = (Ok locations, w1)
    /\ forall group view,
         In group fruit_types ->
         In view (group_locations group) ->
         exists loc distance,
           In loc locations
           /\ in_season_now month loc = true
           /\ In (group_type_id group) (FruitLocation.type_ids loc)
           /\ seasonal_id view = FruitLocation.id loc
           /\ seasonal_coordinates view
              = (FruitLocation.lat loc, FruitLocation.lng loc)
           /\ Haversine._calculate_distance (fst centre) (snd centre)
                (FruitLocation.lat loc) (FruitLocation.lng loc)
              = Ok distance
           /\ (distance <= IZR radius_km)%R
           /\ seasonal_distance_km view = round1 rt distance.
Proof.
  intros Hsteady Hrun.
  apply get_seasonal_fruits_inv in Hrun as [[error Hr] | Hr];
    [discriminate |].
  destruct Hr as [lat [lng [locations [w1 [seasonal [w2 [all_types [built
    [n [name [Hloc [Hfilter [Hn [Hresp Hall]]]]]]]]]]]]]].
  injection Hresp as -> -> -> -> -> -> ->.
  exists locations, w1. cbn [fst snd]. split; [exact Hloc |].
  assert (Hlen : Z.of_nat (length locations) <= 100)
    by (apply (get_locations_within _ _ _ _ _ _ _ _ _ Hloc); lia).
  rewrite (Hsteady n) by lia.
  pose proof (proj2 (get_locations_world (rt_FruitLocation_new rt) lat lng
                       radius_km None 100 w))
    as [_ [_ [_ [Hclock _]]]].
  rewrite Hloc in Hclock. cbn [snd] in Hclock.
  destruct (seasonal_filter_run rt locations w1)
    as [seasonal' [w2' [Hfilter' [_ [_ [_ [_ [_ Hkept]]]]]]]].
  rewrite Hfilter in Hfilter'. injection Hfilter' as <- <-.
  rewrite Hclock in Hkept.
  assert (Hfewer : (length locations <= 102)%nat) by lia.
  specialize (Hkept (month_steady_fewer rt _ 102 _ Hfewer Hsteady)).
  set (month := month_of rt (clock w)) in *.
  destruct (group_by_type_spec seasonal) as [_ [Hsound _]].
  apply get_locations_within in Hloc as [_ Hwithin].
  intros group view Hgroup Hview.
  apply (Permutation_in _ (sort_by_perm closest_distance_km built))
    in Hgroup.
  destruct (built_group_entry _ _ _ _ _ _ _ Hall Hgroup)
    as [type_id [locs [Hentry Hg]]].
  destruct (Hsound type_id locs Hentry) as [_ Hlocs].
  apply fruit_group_of_returned in Hg
    as [Hid [_ [views [first [rest [Hviews [Hsorted _]]]]]]].
  rewrite Hsorted in Hview.
  apply (Permutation_in _ (sort_by_perm seasonal_distance_km views))
    in Hview.
  apply list_elem_of_In in Hview.
  destruct (proj1 (list_elem_of_lookup _ _) Hview) as [i Hi].
  destruct (Forall2_lookup_r _ _ _ _ _ Hviews Hi) as [loc [Hl Hbuilt]].
  assert (Hloc : In loc locs).
  { apply list_elem_of_In. now apply (list_elem_of_lookup_2 _ i). }
  destruct (Hlocs loc Hloc) as [Hseasonal Htype].
  rewrite Hkept in Hseasonal.
  apply List.filter_In in Hseasonal as [Hin Hseason].
  apply seasonal_view_returned in Hbuilt
    as [Hvid [Hcoord [distance [Hd Hround]]]].
  destruct (Hwithin loc Hin) as [distance' [Hd' Hle]].
  rewrite Hd in Hd'. injection Hd' as <-.
  exists loc, distance. rewrite Hid. now repeat split.
Qed.

(** X23.  When all the clock readings of a call of
    [get_seasonal_fruits] fall in one month, [total_seasonal_locations]
    is the number of returned locations that are in season in the month
    reported, at most 100.  Each of them is listed once under each of
    its type ids, so the [location_count]s add up to the number of type
    ids of the in-season locations: a location with several types is
    listed several times, and one without a type id is counted in the
    total but listed nowhere. *)
Theorem get_seasonal_fruits_counts (rt : runtime) (location : string)
    (radius_km : Z) (w w' : world) (place : string) (centre : R * R)
    (radius month : Z) (month_name : string) (total : Z)
    (fruit_types : list fruit_group) :
  month_steady rt (clock w) 102 ->
  get_seasonal_fruits rt location radius_km w
  = (Returned (SeasonalResults place centre radius month month_name total
                 fruit_types), w') ->
  exists locations w1,
    get_locations (rt_FruitLocation_new rt) (fst centre) (snd centre)
      radius_km None 100 w = (Ok locations, w1)
    /\ let seasonal := List.filter (in_season_now month) locations in
       total = Z.of_nat (length seasonal)
       /\ total <= 100
       /\ total_listed fruit_types = Z.of_nat (type_id_count seasonal)
       /\ forall loc type_id,
            In loc seasonal ->
            In type_id (FruitLocation.type_ids loc) ->
            exists group view,
              In group fruit_types
              /\ group_type_id group = type_id
              /\ In view (group_locations group)
              /\ seasonal_view rt (fst centre) (snd centre) loc
                 = Returned view.
Proof.
  intros Hsteady Hrun.
  apply get_seasonal_fruits_inv in Hrun as [[error Hr] | Hr];
    [discriminate |].
  destruct Hr as [lat [lng [locations [w1 [seasonal [w2 [all_types [built
    [n [name [Hloc [Hfilter [Hn [Hresp Hall]]]]]]]]]]]]]].
  injection Hresp as -> -> -> -> -> -> ->.
  exists locations, w1. cbn [fst snd]. split; [exact Hloc |].
  assert (Hlen : Z.of_nat (length locations) <= 100)
    by (apply (get_locations_within _ _ _ _ _ _ _ _ _ Hloc); lia).
  rewrite (Hsteady n) by lia.
  pose proof (proj2 (get_locations_world (rt_FruitLocation_new rt) lat lng
                       radius_km None 100 w))
    as [_ [_ [_ [Hclock _]]]].
  rewrite Hloc in Hclock. cbn [snd] in Hclock.
  destruct (seasonal_filter_run rt locations w1)
    as [seasonal' [w2' [Hfilter' [_ [_ [_ [_ [_ Hkept]]]]]]]].
  rewrite Hfilter in Hfilter'. injection Hfilter' as <- <-.
  rewrite Hclock in Hkept.
  assert (Hfewer : (length locations <= 102)%nat) by lia.
  specialize (Hkept (month_steady_fewer rt _ 102 _ Hfewer Hsteady)).
  set (month := month_of rt (clock w)) in *.
  cbv zeta. rewrite <- Hkept.
  destruct (group_by_type_spec seasonal) as [_ [_ [Hcount Hhas]]].
  pose proof (sort_by_perm closest_distance_km built) as Hperm.
  split; [reflexivity |]. split; [| split].
  - pose proof (List.filter_length_le (in_season_now month) locations)
      as Hle.
    rewrite <- Hkept in Hle. lia.
  - rewrite (total_listed_perm _ _ Hperm).
    rewrite (proj2 (built_groups_keys _ _ _ _ _ _ Hall)). now rewrite Hcount.
  - intros loc type_id Hseasonal Htype.
    destruct (Hhas loc type_id Hseasonal Htype) as [locs [Hentry Hin]].
    apply list_elem_of_In in Hentry.
    destruct (proj1 (list_elem_of_lookup _ _) Hentry) as [i Hi].
    destruct (Forall2_lookup_l _ _ _ _ _ Hall Hi) as [group [Hgi Hg]].
    apply fruit_group_of_returned in Hg
      as [Hid [_ [views [first [rest [Hviews [Hsorted _]]]]]]].
    apply list_elem_of_In in Hin.
    destruct (proj1 (list_elem_of_lookup _ _) Hin) as [j Hj].
    destruct (Forall2_lookup_l _ _ _ _ _ Hviews Hj) as [view [Hvj Hview]].
    exists group, view. split; [| split; [exact Hid | split]].
    + apply (Permutation_in _ (Permutation_sym Hperm)).
      apply list_elem_of_In. now apply (list_elem_of_lookup_2 _ i).
    + rewrite Hsorted.
      apply (Permutation_in _
               (Permutation_sym (sort_by_perm seasonal_distance_km views))).
      apply list_elem_of_In. now apply (list_elem_of_lookup_2 _ j).
    + exact Hview.
Qed.

(** *** A run of [get_seasonal_fruits] *)

Lemma kept_typed_item :
  kept_location strict_FruitLocation 0 0 10 typed_item = Some typed_location.
Proof.
  unfold kept_location.
  change (parse_location strict_FruitLocation typed_item)
    with (Ok typed_location).
  change (10 =? 0) with false. cbv beta iota.
  change (FruitLocation.lat typed_location) with 0%R.
  change (FruitLocation.lng typed_location) with 0%R.
  rewrite _calculate_distance_same.
  destruct (Rle_dec 0 (IZR 10)) as [| Hn]; [reflexivity |].
  exfalso. apply Hn. apply IZR_le. lia.
Qed.

Lemma get_locations_near_typed :
  get_locations strict_FruitLocation 0 0 10 None 100
    (ready_world [apple_type] (Returns (JList [near_item; typed_item])))
  = (Ok [near_location; typed_location],
     after_request
       (ready_world [apple_type] (Returns (JList [near_item; typed_item])))
       (locations_request
          (self (ready_world [apple_type]
                   (Returns (JList [near_item; typed_item]))))
          "secret" 0 0 None 100)).
Proof.
  rewrite (get_locations_run strict_FruitLocation 0 0 10 None 100
             (ready_world [apple_type]
                (Returns (JList [near_item; typed_item])))
             "secret" (JList [near_item; typed_item]) [near_item; typed_item]
             eq_refl ltac:(discriminate) eq_refl eq_refl).
  cbn [omap list_omap].
  rewrite (kept_near_item 10), kept_typed_item by lia. reflexivity.
Qed.

Lemma fruit_group_of_typed :
  fruit_group_of sample_runtime 0 0 [apple_type] (1, [typed_location])
  = Returned apple_group.
Proof.
  unfold fruit_group_of. cbn [fst snd seasonal_views].
  unfold seasonal_view.
  change (FruitLocation.lat typed_location) with 0%R.
  change (FruitLocation.lng typed_location) with 0%R.
  rewrite _calculate_distance_same. reflexivity.
Qed.

Lemma seasonal_filter_near_typed (w : world) :
  seasonal_filter sample_runtime [near_location; typed_location] w
  = (Returned [near_location; typed_location],
     later (later w (clock w + 1) (remote w)) (clock w + 1 + 1) (remote w)).
Proof. reflexivity. Qed.

Lemma get_seasonal_fruits_near_typed :
  get_seasonal_fruits sample_runtime "here" 10
    (ready_world [apple_type] (Returns (JList [near_item; typed_item])))
  = (Returned (SeasonalResults "here" (0%R, 0%R) 10 6 "June" 2 [apple_group]),
     snd (get_seasonal_fruits sample_runtime "here" 10
            (ready_world [apple_type]
               (Returns (JList [near_item; typed_item]))))).
Proof.
  rewrite (surjective_pairing (get_seasonal_fruits _ _ _ _)) at 1.
  f_equal.
  unfold get_seasonal_fruits, LocationHelper.geocode_location.
  change (geolocator_geocode sample_runtime "here") with (GeocodeAt 0 0).
  change (rt_FruitLocation_new sample_runtime) with strict_FruitLocation.
  unfold tbind at 1. unfold await at 1.
  rewrite get_locations_near_typed.
  unfold tbind at 1. rewrite seasonal_filter_near_typed.
  unfold tbind at 1. unfold await.
  erewrite get_types_run by reflexivity.
  unfold tbind at 1. unfold elapse at 1.
  unfold tbind at 1. unfold settle.
  change (group_by_type [near_location; typed_location])
    with [(1, [typed_location])].
  cbn [fruit_groups]. rewrite fruit_group_of_typed.
  reflexivity.
Qed.

Lemma get_seasonal_fruits_groups_witness :
  Sorted (key_le closest_distance_km) [apple_group]
  /\ List.NoDup (map group_type_id [apple_group])
  /\ forall group,
       In group [apple_group] ->
       location_count group = Z.of_nat (length (group_locations group))
       /\ 1 <= location_count group
       /\ Sorted (key_le seasonal_distance_km) (group_locations group)
       /\ exists first rest,
            group_locations group = first :: rest
            /\ closest_distance_km group
               = round1 sample_runtime (seasonal_distance_km first).
Proof.
  apply (get_seasonal_fruits_groups sample_runtime "here" 10
           (ready_world [apple_type] (Returns (JList [near_item; typed_item])))
           _ "here" (0%R, 0%R) 10 6 "June" 2 [apple_group]
           get_seasonal_fruits_near_typed).
Defined.

Lemma get_seasonal_fruits_sound_witness :
  exists locations w1,
    get_locations strict_FruitLocation 0 0 10 None 100
      (ready_world [apple_type] (Returns (JList [near_item; typed_item])))
    = (Ok locations, w1)
    /\ forall group view,
         In group [apple_group] ->
         In view (group_locations group) ->
         exists loc distance,
           In loc locations
           /\ in_season_now 6 loc = true
           /\ In (group_type_id group) (FruitLocation.type_ids loc)
           /\ seasonal_id view = FruitLocation.id loc
           /\ seasonal_coordinates view
              = (FruitLocation.lat loc, FruitLocation.lng loc)
           /\ Haversine._calculate_distance 0 0
                (FruitLocation.lat loc) (FruitLocation.lng loc)
              = Ok distance
           /\ (distance <= IZR 10)%R
           /\ seasonal_distance_km view = round1 sample_runtime distance.
Proof.
  apply (get_seasonal_fruits_sound sample_runtime "here" 10
           (ready_world [apple_type] (Returns (JList [near_item; typed_item])))
           _ "here" (0%R, 0%R) 10 6 "June" 2 [apple_group]
           (fun _ _ => eq_refl) get_seasonal_fruits_near_typed).
Defined.

Lemma get_seasonal_fruits_counts_witness :
  exists locations w1,
    get_locations strict_FruitLocation 0 0 10 None 100
      (ready_world [apple_type] (Returns (JList [near_item; typed_item])))
    = (Ok locations, w1)
    /\ let seasonal := List.filter (in_season_now 6) locations in
       2 = Z.of_nat (length seasonal)
       /\ 2 <= 100
       /\ total_listed [apple_group] = Z.of_nat (type_id_count seasonal)
       /\ forall loc type_id,
            In loc seasonal ->
            In type_id (FruitLocation.type_ids loc) ->
            exists group view,
              In group [apple_group]
              /\ group_type_id group = type_id
              /\ In view (group_locations group)
              /\ seasonal_view sample_runtime 0 0 loc = Returned view.
Proof.
  apply (get_seasonal_fruits_counts sample_runtime "here" 10
           (ready_world [apple_type] (Returns (JList [near_item; typed_item])))
           _ "here" (0%R, 0%R) 10 6 "June" 2 [apple_group]
           (fun _ _ => eq_refl) get_seasonal_fruits_near_typed).
Defined.
